(** * fetch_kas: a shallow embedding of [packages/stats/scripts/fetch_kas.py]

    The script fetches statistical series from a PxWeb API and reshapes the
    answers into flat JSON records.  This development embeds the functions
    of the script in Gallina, with Python's exceptions as an error monad,
    the values of a parsed JSON document as an inductive type, and the
    requests sent, the lines printed and the files written as a trace. *)

From Stdlib Require Import ZArith NArith Ascii String SpecFloat.
From stdpp Require Import base option list sorting strings gmap.

Local Open Scope Z_scope.

(** ** Exceptions *)

(** The exception classes the script can meet.  [PxError] is the script's own
    class (a [RuntimeError]); [ValueError] to [OverflowError] are builtin
    classes and [OtherError] is any other subclass of [Exception], such as
    those of the HTTP library.  [Unmodelled] is not a Python exception: it
    marks the few inputs on which this embedding does not follow the
    interpreter (the [repr] of a float or of a container, the [str] of an
    [int] of thousands of digits, the arithmetic of a cube whose sizes or
    ordinals are not [int]s); no statement below draws a conclusion from
    it. *)
Inductive exn :=
  | PxError (msg : string)
  | ValueError
  | KeyError
  | IndexError
  | TypeError
  | AttributeError
  | OverflowError
  | OtherError (msg : string)
  | Unmodelled (what : string).

(** A computation returns a value or raises. *)
Inductive res (A : Type) :=
  | Ret (a : A)
  | Raise (e : exn).
Arguments Ret {A} a.
Arguments Raise {A} e.

Definition bind {A B} (m : res A) (f : A → res B) : res B :=
  match m with
  | Ret a => f a
  | Raise e => Raise e
  end.

Declare Scope res_scope.
Delimit Scope res_scope with res.
Notation "x ← y ; z" := (bind y (λ x, z))
  (at level 20, y at level 100, z at level 200, only parsing) : res_scope.
Local Open Scope res_scope.

Definition res_map {A B} (f : A → B) (m : res A) : res B :=
  x ← m; Ret (f x).

(** [[f(x) for x in l]]: the calls are made from left to right and the first
    exception ends the comprehension. *)
Fixpoint map_res {A B} (f : A → res B) (l : list A) : res (list B) :=
  match l with
  | [] => Ret []
  | x :: l' => y ← f x; ys ← map_res f l'; Ret (y :: ys)
  end.

Definition returns {A} (m : res A) : Prop := ∃ a, m = Ret a.

(** ** Lists indexed the way Python indexes them *)

(** [l[i]] for an index that is not negative. *)
Definition py_getitem {A} (l : list A) (i : nat) : res A :=
  match l !! i with
  | Some x => Ret x
  | None => Raise IndexError
  end.

(** [l[i] = x] for an index that is not negative. *)
Definition py_setitem {A} (l : list A) (i : nat) (x : A) : res (list A) :=
  if decide (i < length l)%nat then Ret (<[i:=x]> l) else Raise IndexError.

(** ** Strides of a flattened JSON-stat cube

    [fetch_energy_monthly] and [fetch_imports_by_partner] both run
<<
    strides = [1] * len(sizes)
    for i in range(len(sizes) - 2, -1, -1):
        strides[i] = strides[i + 1] * sizes[i + 1]
    def pos(coords):
        return sum(c * s for c, s in zip(coords, strides))
>> *)

(** The iterations [i = k-1, k-2, ..., 0] of the loop. *)
Fixpoint strides_loop (sizes : list Z) (k : nat) (strides : list Z)
  : res (list Z) :=
  match k with
  | O => Ret strides
  | S i =>
      a ← py_getitem strides (S i);
      b ← py_getitem sizes (S i);
      strides' ← py_setitem strides i (a * b);
      strides_loop sizes i strides'
  end.

Definition compute_strides (sizes : list Z) : res (list Z) :=
  strides_loop sizes (length sizes - 1) (replicate (length sizes) 1).

Definition pos (strides coords : list Z) : Z :=
  foldl Z.add 0 (zip_with Z.mul coords strides).

(** The product of a list of sizes, and the textbook row-major index of a
    cell: the coordinates read as the digits of a number in the mixed radix
    given by the sizes. *)
Definition product (l : list Z) : Z := foldr Z.mul 1 l.

Definition row_major_index (sizes coords : list Z) : Z :=
  foldl (λ acc cz, acc * cz.2 + cz.1) 0 (zip coords sizes).

(** The closed form of the strides: the products of the sizes that follow. *)
Fixpoint suffix_products (sizes : list Z) : list Z :=
  match sizes with
  | [] => []
  | _ :: zs => product zs :: suffix_products zs
  end.


(** ** Python strings

    A [str] is modelled by [string]: a character is a code point below 256
    (Latin-1), which covers the digits, the letters and the signs the script
    tests for, and the non-breaking space U+00A0. *)

Definition chr (n : N) : ascii := ascii_of_N n.
Definition ord (c : ascii) : N := N_of_ascii c.

Definition nbsp : ascii := chr 160.

(** [c.isdigit()]: the decimal digits and the superscripts two, three, one. *)
Definition is_digit_char (c : ascii) : bool :=
  let n := ord c in
  ((48 <=? n) && (n <=? 57) || (n =? 178) || (n =? 179) || (n =? 185))%N.

(** [c.isspace()], the characters [str.strip()] removes. *)
Definition is_space_char (c : ascii) : bool :=
  let n := ord c in
  ((9 <=? n) && (n <=? 13) || (28 <=? n) && (n <=? 32)
   || (n =? 133) || (n =? 160))%N.

Fixpoint str_all (p : ascii → bool) (s : string) : bool :=
  match s with
  | EmptyString => true
  | String c s' => p c && str_all p s'
  end.

(** [s.isdigit()]: false on the empty string. *)
Definition isdigit (s : string) : bool :=
  match s with
  | EmptyString => false
  | _ => str_all is_digit_char s
  end.

Definition len (s : string) : nat := String.length s.

(** [s[:n]] and [s[n:]] for [n] not negative. *)
Fixpoint str_take (n : nat) (s : string) : string :=
  match n, s with
  | S n', String c s' => String c (str_take n' s')
  | _, _ => EmptyString
  end.

Fixpoint str_drop (n : nat) (s : string) : string :=
  match n, s with
  | S n', String _ s' => str_drop n' s'
  | _, _ => s
  end.

(** [s[i:j]] for [0 <= i <= j]. *)
Definition str_slice (i j : nat) (s : string) : string :=
  str_take (j - i) (str_drop i s).

(** [c in s] for a one-character string [c]. *)
Fixpoint str_contains (c : ascii) (s : string) : bool :=
  match s with
  | EmptyString => false
  | String a s' => if decide (a = c) then true else str_contains c s'
  end.

(** [s.split(c, 1)] when [c in s]: the parts before and after the first [c];
    [None] when [c] does not occur (Python then returns the one-element list
    [[s]]). *)
Fixpoint split_once (c : ascii) (s : string) : option (string * string) :=
  match s with
  | EmptyString => None
  | String a s' =>
      if decide (a = c) then Some (EmptyString, s')
      else prod_map (String a) id <$> split_once c s'
  end.

Fixpoint str_repeat (c : ascii) (n : nat) : string :=
  match n with
  | O => EmptyString
  | S n' => String c (str_repeat c n')
  end.

(** [s.zfill(width)]: zeros are inserted on the left, after a leading sign. *)
Definition zfill (width : nat) (s : string) : string :=
  if decide (width ≤ len s)%nat then s
  else
    let fill := str_repeat "0" (width - len s) in
    match s with
    | String c s' =>
        if decide (c = "+"%char ∨ c = "-"%char) then String c (fill +:+ s')
        else fill +:+ s
    | EmptyString => fill
    end.

(** [s.replace(c, "")] for a one-character string [c]. *)
Fixpoint str_remove (c : ascii) (s : string) : string :=
  match s with
  | EmptyString => EmptyString
  | String a s' =>
      if decide (a = c) then str_remove c s' else String a (str_remove c s')
  end.

Fixpoint str_lstrip (s : string) : string :=
  match s with
  | String c s' => if is_space_char c then str_lstrip s' else s
  | EmptyString => EmptyString
  end.

(** The string without its trailing white space. *)
Fixpoint str_rstrip (s : string) : string :=
  match s with
  | EmptyString => EmptyString
  | String c s' =>
      match str_rstrip s' with
      | EmptyString => if is_space_char c then EmptyString else String c EmptyString
      | t => String c t
      end
  end.

(** [s.strip()] *)
Definition strip (s : string) : string := str_rstrip (str_lstrip s).

(** ** normalize_ym *)

(**
<<
def normalize_ym(code: str) -> str:
    if code.isdigit() and len(code) == 6:
        return f"{code[:4]}-{code[4:6]}"
    if "M" in code:
        y, m = code.split("M", 1)
        return f"{y}-{m.zfill(2)}"
    if len(code) == 7 and code[4] == "-":
        return code
    return code
>>
    The test ["M" in code] and the unpacking of the split are one [match]:
    the split has two parts exactly when ["M"] occurs. *)
Definition normalize_ym (code : string) : string :=
  if isdigit code && bool_decide (len code = 6%nat) then
    str_take 4 code +:+ "-" +:+ str_slice 4 6 code
  else
    match split_once "M" code with
    | Some (y, m) => y +:+ "-" +:+ zfill 2 m
    | None =>
        if bool_decide (len code = 7%nat)
           && bool_decide (String.get 4 code = Some "-"%char)
        then code
        else code
    end.

(** The form ['YYYY-MM']: four digits, a hyphen, two digits. *)
Definition is_yyyy_mm (s : string) : Prop :=
  ∃ y m, s = y +:+ "-" +:+ m
         ∧ len y = 4%nat ∧ isdigit y = true
         ∧ len m = 2%nat ∧ isdigit m = true.

(** ** Floats

    A Python [float] is an IEEE 754 binary64 number: [spec_float] with 53
    bits of precision and [emax = 1024], always in canonical form. *)

Definition float : Type := spec_float.

Definition prec : Z := 53.
Definition emax : Z := 1024.

(** [float(n)] for an [int]: rounded to nearest, ties to even; an [int] that
    rounds beyond the largest float raises [OverflowError]. *)
Definition float_of_int (n : Z) : res float :=
  match binary_normalize prec emax n 0 false with
  | S754_infinity _ => Raise OverflowError
  | f => Ret f
  end.

(** [f.is_integer()] *)
Definition is_integer (f : float) : bool :=
  match f with
  | S754_zero _ => true
  | S754_finite _ m e => (0 <=? e) || (Z.pos m mod 2 ^ (- e) =? 0)
  | S754_infinity _ | S754_nan => false
  end.

(** [int(f)]: truncation towards zero. *)
Definition int_of_float (f : float) : res Z :=
  match f with
  | S754_zero _ => Ret 0
  | S754_finite s m e =>
      Ret (cond_Zopp s (if 0 <=? e then Z.pos m * 2 ^ e
                        else Z.pos m / 2 ^ (- e)))
  | S754_infinity _ => Raise OverflowError
  | S754_nan => Raise ValueError
  end.

(** *** [float(s)] for a [str]

    The grammar CPython accepts: white space around, a sign, then [inf],
    [infinity] or [nan] in any case, or a decimal numeral with an optional
    fraction and exponent; an underscore may stand between two digits.  The
    numeral is rounded to the nearest float, ties to even; a numeral too
    large gives an infinity and one too small a zero.  Anything else raises
    [ValueError]. *)

Definition is_ascii_digit (c : ascii) : bool :=
  ((48 <=? ord c) && (ord c <=? 57))%N.

(** White space for [float]: the six ASCII blanks; U+0085 and U+00A0 are
    turned into a space beforehand, every other character from 127 on is
    refused. *)
Definition float_char (c : ascii) : option ascii :=
  if (ord c <? 127)%N then Some c
  else if ((ord c =? 133) || (ord c =? 160))%N then Some " "%char
  else None.

Fixpoint float_chars (s : string) : option string :=
  match s with
  | EmptyString => Some EmptyString
  | String c s' =>
      match float_char c, float_chars s' with
      | Some c', Some t => Some (String c' t)
      | _, _ => None
      end
  end.

Definition is_blank (c : ascii) : bool :=
  ((9 <=? ord c) && (ord c <=? 13) || (ord c =? 32))%N.

Fixpoint lstrip_blank (s : string) : string :=
  match s with
  | String c s' => if is_blank c then lstrip_blank s' else s
  | EmptyString => EmptyString
  end.

Fixpoint rstrip_blank (s : string) : string :=
  match s with
  | EmptyString => EmptyString
  | String c s' =>
      match rstrip_blank s' with
      | EmptyString => if is_blank c then EmptyString else String c EmptyString
      | t => String c t
      end
  end.

(** An underscore is allowed only after a digit and before a digit. *)
Fixpoint remove_underscores (prev : ascii) (s : string) : option string :=
  match s with
  | EmptyString => if decide (prev = "_"%char) then None else Some EmptyString
  | String c s' =>
      if decide (c = "_"%char) then
        if is_ascii_digit prev then remove_underscores c s' else None
      else if bool_decide (prev = "_"%char) && negb (is_ascii_digit c) then None
      else String c <$> remove_underscores c s'
  end.

(** The leading decimal digits of a string, and what follows them. *)
Fixpoint span_digits (s : string) : string * string :=
  match s with
  | String c s' =>
      if is_ascii_digit c then prod_map (String c) id (span_digits s')
      else (EmptyString, s)
  | EmptyString => (EmptyString, EmptyString)
  end.

Fixpoint digits_value_from (acc : Z) (s : string) : Z :=
  match s with
  | EmptyString => acc
  | String c s' => digits_value_from (10 * acc + (Z.of_N (ord c) - 48)) s'
  end.

Definition digits_value (s : string) : Z := digits_value_from 0 s.

Definition parse_sign (s : string) : bool * string :=
  match s with
  | String c s' =>
      if decide (c = "-"%char) then (true, s')
      else if decide (c = "+"%char) then (false, s')
      else (false, s)
  | EmptyString => (false, s)
  end.

Definition ascii_lower (c : ascii) : ascii :=
  if ((65 <=? ord c) && (ord c <=? 90))%N then chr (ord c + 32) else c.

Fixpoint str_lower_ascii (s : string) : string :=
  match s with
  | EmptyString => EmptyString
  | String c s' => String (ascii_lower c) (str_lower_ascii s')
  end.

(** The float nearest to [n * 10 ^ k], for [0 <= n]. *)
Definition decimal_to_float (neg : bool) (n k : Z) : float :=
  match n with
  | Z.pos p =>
      if 0 <=? k then binary_round prec emax neg (p * Z.to_pos (10 ^ k)) 0
      else
        let '(q, e, l) :=
          SFdiv_core_binary prec emax (Z.pos p) 0 (10 ^ (- k)) 0 in
        binary_round_aux prec emax neg q e l
  | _ => S754_zero neg
  end.

Definition parse_exponent (s : string) : res Z :=
  match s with
  | EmptyString => Ret 0
  | String c s' =>
      if decide (c = "e"%char ∨ c = "E"%char) then
        let '(eneg, s'') := parse_sign s' in
        match span_digits s'' with
        | (String d ds, EmptyString) =>
            Ret (cond_Zopp eneg (digits_value (String d ds)))
        | _ => Raise ValueError
        end
      else Raise ValueError
  end.

Definition parse_numeral (neg : bool) (s : string) : res float :=
  let '(ip, r1) := span_digits s in
  let '(fp, r2) :=
    match r1 with
    | String c r =>
        if decide (c = "."%char) then span_digits r else (EmptyString, r1)
    | EmptyString => (EmptyString, r1)
    end in
  if bool_decide (ip = "") && bool_decide (fp = "") then Raise ValueError
  else
    e ← parse_exponent r2;
    Ret (decimal_to_float neg (digits_value (ip +:+ fp))
           (e - Z.of_nat (len fp))).

Definition float_of_str (s : string) : res float :=
  match float_chars s ≫= remove_underscores (chr 0) with
  | None => Raise ValueError
  | Some s1 =>
      let s2 := rstrip_blank (lstrip_blank s1) in
      let '(neg, body) := parse_sign s2 in
      let low := str_lower_ascii body in
      if bool_decide (low = "inf") || bool_decide (low = "infinity") then
        Ret (S754_infinity neg)
      else if bool_decide (low = "nan") then Ret S754_nan
      else parse_numeral neg body
  end.

(** ** JSON values

    What [r.json()] returns: [None], a [bool], an [int], a [float], a [str],
    a [list], or a [dict] with [str] keys.  A [dict] is the list of its items
    in insertion order; its keys are distinct, and a key is looked up from
    the front. *)
#[warnings="-register-all"] Inductive json :=
  | JNull
  | JBool (b : bool)
  | JInt (n : Z)
  | JFloat (f : float)
  | JStr (s : string)
  | JList (l : list json)
  | JDict (d : list (string * json)).

Fixpoint assoc {V} (k : string) (d : list (string * V)) : option V :=
  match d with
  | [] => None
  | (k', v) :: d' => if decide (k' = k) then Some v else assoc k d'
  end.

(** [v.get(k, dflt)]; only a [dict] has the method. *)
Definition py_get (v : json) (k : string) (dflt : json) : res json :=
  match v with
  | JDict d => Ret (default dflt (assoc k d))
  | _ => Raise AttributeError
  end.

(** [v[k]] for a [str] key. *)
Definition py_item (v : json) (k : string) : res json :=
  match v with
  | JDict d => match assoc k d with Some x => Ret x | None => Raise KeyError end
  | _ => Raise TypeError
  end.

(** [k in v] for a [str] [k]: a key of a [dict], an element of a [list], a
    substring of a [str]. *)
Fixpoint str_prefix (p s : string) : bool :=
  match p, s with
  | EmptyString, _ => true
  | String a p', String b s' => bool_decide (a = b) && str_prefix p' s'
  | String _ _, EmptyString => false
  end.

Fixpoint str_infix (p s : string) : bool :=
  str_prefix p s
  || match s with
     | String _ s' => str_infix p s'
     | EmptyString => false
     end.

Definition py_in (k : string) (v : json) : res bool :=
  match v with
  | JDict d => Ret (bool_decide (is_Some (assoc k d)))
  | JList l =>
      Ret (existsb (λ x, match x with
                         | JStr s => bool_decide (s = k)
                         | _ => false
                         end) l)
  | JStr s => Ret (str_infix k s)
  | _ => Raise TypeError
  end.

(** [bool(v)] *)
Definition truthy (v : json) : bool :=
  match v with
  | JNull => false
  | JBool b => b
  | JInt n => negb (n =? 0)
  | JFloat f => match f with S754_zero _ => false | _ => true end
  | JStr s => negb (bool_decide (s = ""))
  | JList l => negb (bool_decide (l = []))
  | JDict d => negb (bool_decide (d = []))
  end.

Fixpoint str_chars (s : string) : list json :=
  match s with
  | EmptyString => []
  | String c s' => JStr (String c EmptyString) :: str_chars s'
  end.

(** The elements [for x in v] runs through. *)
Definition py_iter (v : json) : res (list json) :=
  match v with
  | JList l => Ret l
  | JStr s => Ret (str_chars s)
  | JDict d => Ret (JStr <$> d.*1)
  | _ => Raise TypeError
  end.

(** [len(v)] *)
Definition py_len (v : json) : res nat :=
  match v with
  | JList l => Ret (length l)
  | JStr s => Ret (len s)
  | JDict d => Ret (length d)
  | _ => Raise TypeError
  end.

(** ** coerce_number and tidy_number *)

(**
<<
def coerce_number(value: Any) -> Optional[float]:
    if value is None:
        return None
    if isinstance(value, (int, float)):
        return float(value)
    s = str(value).strip()
    if not s or s in {".", "..", "...", "-"}:
        return None
    s = s.replace("\u00a0", "").replace(",", "")
    try:
        num = float(s)
    except ValueError:
        return None
    return num
>>
    The docstring of the function reads: Return numeric value if possible,
    otherwise None.  A [bool] is an [int].  The [str()] of a list or of a dict begins with a
    bracket or a brace and so is no marker and no numeral: [float] raises
    [ValueError] and the function returns [None]. *)
Definition is_marker (s : string) : bool :=
  bool_decide (s = ".") || bool_decide (s = "..")
  || bool_decide (s = "...") || bool_decide (s = "-").

Definition coerce_str (s0 : string) : res (option float) :=
  let s := strip s0 in
  if bool_decide (s = "") || is_marker s then Ret None
  else
    let s := str_remove "," (str_remove nbsp s) in
    match float_of_str s with
    | Ret num => Ret (Some num)
    | Raise ValueError => Ret None
    | Raise e => Raise e
    end.

Definition coerce_number (value : json) : res (option float) :=
  match value with
  | JNull => Ret None
  | JBool b => res_map Some (float_of_int (if b then 1 else 0))
  | JInt n => res_map Some (float_of_int n)
  | JFloat f => Ret (Some f)
  | JStr s => coerce_str s
  | JList _ | JDict _ => Ret None
  end.

(**
<<
def tidy_number(value: Optional[float]) -> Optional[float | int]:
    if value is None:
        return None
    if float(value).is_integer():
        return int(value)
    return float(value)
>> *)
Definition tidy_number (value : option float) : res json :=
  match value with
  | None => Ret JNull
  | Some f =>
      if is_integer f then n ← int_of_float f; Ret (JInt n)
      else Ret (JFloat f)
  end.

(** ** lookup_table_value *)

(** [l.index(x)]: the first position of [x]; [ValueError] when absent. *)
Definition py_index (l : list string) (x : string) : res nat :=
  match list_find (λ y, y = x) l with
  | Some (i, _) => Ret i
  | None => Raise ValueError
  end.

(** The loop over [assignments.items()]; [Ret None] is the early
    [return None] of the handler, [Ret (Some key)] the key after the loop. *)
Fixpoint fill_key (dim_codes : list string) (items : list (string * string))
    (key : list (option string)) : res (option (list (option string))) :=
  match items with
  | [] => Ret (Some key)
  | (dim_code, dim_value) :: rest =>
      match py_index dim_codes dim_code with
      | Ret idx =>
          key' ← py_setitem key idx (Some dim_value);
          fill_key dim_codes rest key'
      | Raise ValueError => Ret None
      | Raise e => Raise e
      end
  end.

(** [tuple(key)] once no entry is [None]. *)
Definition key_tuple (key : list (option string)) : list string :=
  omap id key.

(**
<<
def lookup_table_value(dim_codes, lookup, assignments):
    key: List[Optional[str]] = [None] * len(dim_codes)
    for dim_code, dim_value in assignments.items():
        try:
            idx = dim_codes.index(dim_code)
        except ValueError:
            return None
        key[idx] = dim_value
    if any(v is None for v in key):
        return None
    return lookup.get(tuple(key))
>>
    [assignments] is the list of the items of the dict, in insertion order;
    [lookup] maps tuples of strings to numbers or [None]. *)
Definition lookup_table_value (dim_codes : list string)
    (lookup : gmap (list string) (option float))
    (assignments : list (string * string)) : res (option float) :=
  r ← fill_key dim_codes assignments (replicate (length dim_codes) None);
  match r with
  | None => Ret None
  | Some key =>
      if existsb (λ v, bool_decide (v = None)) key then Ret None
      else Ret (default None (lookup !! key_tuple key))
  end.

(** The tuple the assignments spell out: every assignment names a dimension
    of [dim_codes], and position [i] holds [s] exactly when some assignment
    gives [s] to the dimension that [dim_codes.index] finds at [i]. *)
Definition is_assembled_key (dim_codes : list string)
    (assignments : list (string * string)) (ks : list string) : Prop :=
  length ks = length dim_codes
  ∧ (∀ k, k ∈ assignments.*1 → k ∈ dim_codes)
  ∧ ∀ (i : nat) s, ks !! i = Some s ↔
      ∃ k, (k, s) ∈ assignments ∧ py_index dim_codes k = Ret i.

(** ** Metadata *)

(** [x == code] for a [str] [code]: only the same string is equal to it. *)
Definition eq_str (x : json) (code : string) : bool :=
  match x with
  | JStr s => bool_decide (s = code)
  | _ => false
  end.

(** [v is True] *)
Definition is_True (v : json) : bool :=
  match v with
  | JBool true => true
  | _ => false
  end.

(**
<<
def meta_variables(meta):
    return list(meta.get("variables", []))
>> *)
Definition meta_variables (meta : json) : res (list json) :=
  vs ← py_get meta "variables" (JList []);
  py_iter vs.

(** [next((x for x in vars if x.get("code") == code), None)] *)
Fixpoint next_with_code (code : string) (vars : list json)
  : res (option json) :=
  match vars with
  | [] => Ret None
  | x :: rest =>
      c ← py_get x "code" JNull;
      if eq_str c code then Ret (Some x) else next_with_code code rest
  end.

(**
<<
def meta_time_codes(meta, time_code):
    v = next((x for x in meta_variables(meta)
              if x.get("code") == time_code), None)
    if not v:
        return []
    vals = list(v.get("values", []))
    # Many PxWeb tables list time in descending order; reverse to chronological
    if v.get("time") is True:
        vals = list(reversed(vals))
    return vals
>> *)
Definition meta_time_codes (meta : json) (time_code : string)
  : res (list json) :=
  vars ← meta_variables meta;
  v ← next_with_code time_code vars;
  match v with
  | None => Ret []
  | Some v =>
      if negb (truthy v) then Ret []
      else
        values ← py_get v "values" (JList []);
        vals ← py_iter values;
        time ← py_get v "time" JNull;
        if is_True time then Ret (reverse vals) else Ret vals
  end.

(** A variable of the metadata that does not carry the code. *)
Definition lacks_code (code : string) (x : json) : Prop :=
  ∃ d, x = JDict d ∧ assoc "code" d ≠ Some (JStr code).

(** ** table_lookup *)

(** The decimal digits of a natural number, most significant first. *)
Fixpoint digits_of (fuel : nat) (n : N) (acc : string) : string :=
  match fuel with
  | O => acc
  | S fuel' =>
      let acc' := String (chr (48 + n mod 10)) acc in
      if (n <? 10)%N then acc' else digits_of fuel' (n / 10) acc'
  end.

Definition str_of_N (n : N) : string :=
  digits_of (S (N.to_nat (N.log2 n))) n EmptyString.

Definition str_of_Z (n : Z) : string :=
  match n with
  | Z.neg p => String "-" (str_of_N (N.pos p))
  | _ => str_of_N (Z.to_N n)
  end.

(** [str(v)].  An [int] of more than 4300 digits has no [str] in recent
    interpreters, and the [repr] of floats and containers is not modelled. *)
Definition py_str (v : json) : res string :=
  match v with
  | JNull => Ret "None"
  | JBool true => Ret "True"
  | JBool false => Ret "False"
  | JInt n =>
      if Z.abs n <? 10 ^ 4300 then Ret (str_of_Z n)
      else Raise (Unmodelled "str of a huge int")
  | JStr s => Ret s
  | JFloat _ => Raise (Unmodelled "repr of a float")
  | JList _ | JDict _ => Raise (Unmodelled "repr of a container")
  end.

(** [d[k] = v] on the items of a dict: a key keeps its place. *)
Fixpoint dict_set {V} (k : string) (v : V) (d : list (string * V))
  : list (string * V) :=
  match d with
  | [] => [(k, v)]
  | (k', v') :: d' =>
      if decide (k' = k) then (k, v) :: d' else (k', v') :: dict_set k v d'
  end.

(** The items of the dict display [{k1: v1, k2: v2, ...}]. *)
Definition dict_of {V} (items : list (string * V)) : list (string * V) :=
  foldl (λ d kv, dict_set kv.1 kv.2 d) [] items.

(** [v[0]] *)
Definition py_first (v : json) : res json :=
  match v with
  | JList (x :: _) => Ret x
  | JList [] => Raise IndexError
  | JStr (String c _) => Ret (JStr (String c EmptyString))
  | JStr EmptyString => Raise IndexError
  | JDict _ => Raise KeyError
  | _ => Raise TypeError
  end.

(** The elements of [tuple(key_vals)] as a dict key: a list or a dict among
    them is unhashable.  [Some ks] when every element is a [str]; a tuple
    with another hashable element is a key no tuple of strings is equal
    to. *)
Fixpoint hash_key (elems : list json) : res (option (list string)) :=
  match elems with
  | [] => Ret (Some [])
  | x :: rest =>
      match x with
      | JList _ | JDict _ => Raise TypeError
      | JStr s => ks ← hash_key rest; Ret (option_map (cons s) ks)
      | _ => ks ← hash_key rest; Ret None
      end
  end.

(** The value of a row:
<<
        val = None
        if "values" in row:
            val_list = row.get("values") or [None]
            val = val_list[0] if val_list else None
        elif "value" in row:
            val = row.get("value")
>> *)
Definition row_value (row : json) : res json :=
  has_values ← py_in "values" row;
  if has_values then
    vs ← py_get row "values" JNull;
    let val_list := if truthy vs then vs else JList [JNull] in
    if truthy val_list then py_first val_list else Ret JNull
  else
    has_value ← py_in "value" row;
    if has_value then py_get row "value" JNull else Ret JNull.

(** The loop over the rows. *)
Fixpoint table_rows (dim_codes : list string) (rows : list json)
    (lookup : gmap (list string) (option float))
  : res (gmap (list string) (option float)) :=
  match rows with
  | [] => Ret lookup
  | row :: rest =>
      key_vals ← py_get row "key" (JList []);
      n ← py_len key_vals;
      if decide (n ≠ length dim_codes) then table_rows dim_codes rest lookup
      else
        val ← row_value row;
        num ← coerce_number val;
        elems ← py_iter key_vals;
        key ← hash_key elems;
        table_rows dim_codes rest
          (match key with
           | Some ks => <[ks:=num]> lookup
           | None => lookup
           end)
  end.

(** [[col for col in columns if col.get("type") != "c"]] *)
Fixpoint dim_columns (columns : list json) : res (list json) :=
  match columns with
  | [] => Ret []
  | col :: rest =>
      t ← py_get col "type" JNull;
      cols ← dim_columns rest;
      Ret (if eq_str t "c" then cols else col :: cols)
  end.

(**
<<
def table_lookup(cube, dim_order=None):
    columns = cube.get("columns")
    data_rows = cube.get("data")
    if not data_rows:
        return None
    if columns:
        dim_cols = [col for col in columns if col.get("type") != "c"]
        dim_codes = [str(col.get("code")) for col in dim_cols]
    elif dim_order:
        dim_codes = list(dim_order)
    else:
        return None
    lookup = {}
    for row in data_rows:
        key_vals = row.get("key", [])
        if len(key_vals) != len(dim_codes):
            continue
        ...
        lookup[tuple(key_vals)] = coerce_number(val)
    return dim_codes, lookup
>> *)
Definition table_lookup (cube : json) (dim_order : list string)
  : res (option (list string * gmap (list string) (option float))) :=
  columns ← py_get cube "columns" JNull;
  data_rows ← py_get cube "data" JNull;
  if negb (truthy data_rows) then Ret None
  else
    dims ←
      (if truthy columns then
         cols ← py_iter columns;
         dim_cols ← dim_columns cols;
         codes ← map_res (λ col, c ← py_get col "code" JNull; py_str c) dim_cols;
         Ret (Some codes)
       else if bool_decide (dim_order ≠ []) then Ret (Some dim_order)
       else Ret None);
    match dims with
    | None => Ret None
    | Some dim_codes =>
        rows ← py_iter data_rows;
        lookup ← table_rows dim_codes rows ∅;
        Ret (Some (dim_codes, lookup))
    end.

(** ** The monthly imports series *)

(** The part of [fetch_trade_monthly] that turns the answer to the POST into
    the numbers of the series:
<<
    values = data.get("value", [])
    coerced: List[Optional[float]] = []
    if values:
        coerced = [coerce_number(v) for v in values]
    else:
        table = table_lookup(data, dim_order=[dim_time, dim_var])
        if table:
            dim_codes, lookup = table
            for code in pick:
                coerced.append(
                    lookup_table_value(dim_codes, lookup,
                                       {dim_time: code, dim_var: imp_code})
                )
        else:
            coerced = []
>> *)
Definition trade_coerced (data : json) (dim_time dim_var imp_code : string)
    (pick : list string) : res (list (option float)) :=
  values ← py_get data "value" (JList []);
  if truthy values then
    vs ← py_iter values;
    map_res coerce_number vs
  else
    table ← table_lookup data [dim_time; dim_var];
    match table with
    | Some (dim_codes, lookup) =>
        map_res
          (λ code, lookup_table_value dim_codes lookup
                     (dict_of [(dim_time, code); (dim_var, imp_code)]))
          pick
    | None => Ret []
    end.

(** One record of the series:
<<
        {
            "period": normalize_ym(pick[i]),
            "imports_th_eur": tidy_number(coerced[i] if i < len(coerced) else None),
        }
>>
    [coerced !! i] is [None] exactly when [i] is not below [len(coerced)]. *)
Definition trade_record (pick : list string) (coerced : list (option float))
    (i : nat) : res json :=
  code ← py_getitem pick i;
  num ← tidy_number (default None (coerced !! i));
  Ret (JDict [("period", JStr (normalize_ym code)); ("imports_th_eur", num)]).

(** The list that [fetch_trade_monthly] hands to [write_json] under the name
    [kas_imports_monthly.json]. *)
Definition trade_series (data : json) (dim_time dim_var imp_code : string)
    (pick : list string) : res (list json) :=
  coerced ← trade_coerced data dim_time dim_var imp_code pick;
  map_res (trade_record pick coerced) (seq 0 (length pick)).

(** What [tidy_number] can return: [None], an [int], or a [float] that is not
    integer-valued. *)
Definition is_tidy (v : json) : Prop :=
  v = JNull ∨ (∃ n, v = JInt n) ∨ (∃ f, v = JFloat f ∧ is_integer f = false).

(** Two answers to the POST of [fetch_trade_monthly], as examples: a
    JSON-stat answer with a flat ['value'] array, and a row table. *)
Definition example_value_answer : json :=
  JDict [("value", JList [JInt 100; JStr "1,234.5"; JStr ".."])].

Definition example_row_answer : json :=
  JDict
    [("columns",
      JList [JDict [("code", JStr "Viti/muaji"); ("type", JStr "t")];
             JDict [("code", JStr "Variabla"); ("type", JStr "d")];
             JDict [("code", JStr "Imports"); ("type", JStr "c")]]);
     ("data",
      JList [JDict [("key", JList [JStr "2025M01"; JStr "3"]);
                    ("values", JList [JStr "12.0"])];
             JDict [("key", JList [JStr "2025M02"; JStr "3"]);
                    ("values", JList [JStr "7.25"])]])].

(** ** Reading a JSON-stat cube *)

(** [l[i]] for any [int] index: a negative index counts from the end. *)
Definition py_getitem_Z {A} (l : list A) (i : Z) : res A :=
  let n := Z.of_nat (length l) in
  if (0 <=? i) && (i <? n) then py_getitem l (Z.to_nat i)
  else if (- n <=? i) && (i <? 0) then py_getitem l (Z.to_nat (n + i))
  else Raise IndexError.

(** [v[i]] for an [int] index. *)
Definition py_item_int (v : json) (i : Z) : res json :=
  match v with
  | JList l => py_getitem_Z l i
  | JStr s => py_getitem_Z (str_chars s) i
  | JDict _ => Raise KeyError
  | _ => Raise TypeError
  end.

(** The sizes and the ordinals of a cube are [int]s; the arithmetic of the
    interpreter on other values is not modelled. *)
Definition as_int (v : json) : res Z :=
  match v with
  | JInt n => Ret n
  | _ => Raise (Unmodelled "arithmetic on a value that is not an int")
  end.

Definition as_ints (v : json) : res (list Z) :=
  match v with
  | JList l => map_res as_int l
  | _ => Raise (Unmodelled "sizes that are not a list")
  end.

(** [cube["dimension"][dim]["category"]["index"]] *)
Definition category_index (cube : json) (dim : string) : res json :=
  dims ← py_item cube "dimension";
  d ← py_item dims dim;
  cat ← py_item d "category";
  py_item cat "index".

(** [[a if k == dim_a else b if k == dim_b else 0 for k in order]] *)
Definition coords_of (order : list json) (dim_a : string) (a : json)
    (dim_b : string) (b : json) : list json :=
  (λ k, if eq_str k dim_a then a else if eq_str k dim_b then b else JInt 0)
    <$> order.

(** [cube["value"][pos(coords)]] *)
Definition cube_value (cube : json) (strides : list Z) (coords : list json)
  : res json :=
  value ← py_item cube "value";
  cs ← map_res as_int (take (length strides) coords);
  py_item_int value (pos strides cs).

(** ** The electricity series *)

Definition energy_record (code : string) (v_imp v_prod : option float)
  : res json :=
  imp ← tidy_number v_imp;
  prod ← tidy_number v_prod;
  Ret (JDict [("period", JStr (normalize_ym code));
              ("import_gwh", imp); ("production_gwh", prod)]).

(** The branch of [fetch_energy_monthly] for a JSON-stat answer:
<<
        order = cube["id"]
        sizes = cube["size"]
        strides = [1] * len(sizes)
        for i in range(len(sizes) - 2, -1, -1):
            strides[i] = strides[i + 1] * sizes[i + 1]
        idx_time = cube["dimension"][dim_time]["category"]["index"]
        idx_ind = cube["dimension"][dim_ind]["category"]["index"]
        imp_ord = idx_ind[import_code]
        prod_ord = idx_ind[prod_code]
        for code in pick:
            t = idx_time[code]
            coords_imp = [imp_ord if k == dim_ind else t if k == dim_time else 0 for k in order]
            coords_prod = [prod_ord if k == dim_ind else t if k == dim_time else 0 for k in order]
            v_imp = coerce_number(cube["value"][pos(coords_imp)])
            v_prod = coerce_number(cube["value"][pos(coords_prod)])
            series.append({...})
>> *)
Definition energy_jsonstat (cube : json)
    (dim_time dim_ind import_code prod_code : string) (pick : list string)
  : res (list json) :=
  order ← py_item cube "id";
  sizes ← py_item cube "size";
  sizes ← as_ints sizes;
  strides ← compute_strides sizes;
  idx_time ← category_index cube dim_time;
  idx_ind ← category_index cube dim_ind;
  imp_ord ← py_item idx_ind import_code;
  prod_ord ← py_item idx_ind prod_code;
  map_res
    (λ code,
       t ← py_item idx_time code;
       order ← py_iter order;
       x_imp ← cube_value cube strides (coords_of order dim_ind imp_ord dim_time t);
       v_imp ← coerce_number x_imp;
       x_prod ← cube_value cube strides (coords_of order dim_ind prod_ord dim_time t);
       v_prod ← coerce_number x_prod;
       energy_record code v_imp v_prod)
    pick.

(** The branch for a row table:
<<
        table = table_lookup(cube, dim_order=[dim_ind, dim_time])
        if not table:
            raise PxError("Energy table: unexpected response format")
        dim_codes, lookup = table
        for code in pick:
            v_imp = lookup_table_value(dim_codes, lookup, {dim_time: code, dim_ind: import_code})
            v_prod = lookup_table_value(dim_codes, lookup, {dim_time: code, dim_ind: prod_code})
            series.append({...})
>> *)
Definition energy_rows (cube : json)
    (dim_time dim_ind import_code prod_code : string) (pick : list string)
  : res (list json) :=
  table ← table_lookup cube [dim_ind; dim_time];
  match table with
  | None => Raise (PxError "Energy table: unexpected response format")
  | Some (dim_codes, lookup) =>
      map_res
        (λ code,
           v_imp ← lookup_table_value dim_codes lookup
                     (dict_of [(dim_time, code); (dim_ind, import_code)]);
           v_prod ← lookup_table_value dim_codes lookup
                      (dict_of [(dim_time, code); (dim_ind, prod_code)]);
           energy_record code v_imp v_prod)
        pick
  end.

(** [if "value" in cube and "dimension" in cube:] *)
Definition is_jsonstat (cube : json) : res bool :=
  has_value ← py_in "value" cube;
  if has_value then py_in "dimension" cube else Ret false.

(** The list that [fetch_energy_monthly] hands to [write_json]. *)
Definition energy_series (cube : json)
    (dim_time dim_ind import_code prod_code : string) (pick : list string)
  : res (list json) :=
  stat ← is_jsonstat cube;
  if stat then energy_jsonstat cube dim_time dim_ind import_code prod_code pick
  else energy_rows cube dim_time dim_ind import_code prod_code pick.

(** ** The imports-by-partner rows *)

Definition partner_record (code : string) (p_name : json) (v : option float)
  : res json :=
  num ← tidy_number v;
  Ret (JDict [("period", JStr (normalize_ym code)); ("partner", p_name);
              ("imports_th_eur", num)]).

(** [label_lookup.get(p_code, p_code)] *)
Definition partner_name (label_lookup : list (string * json))
    (p_code : string) : json :=
  default (JStr p_code) (assoc p_code label_lookup).

(** The branch of [fetch_imports_by_partner] for a JSON-stat answer:
<<
        order = cube["id"]
        sizes = cube["size"]
        strides = ...
        idx_time = cube["dimension"][dim_time]["category"]["index"]
        idx_partner = cube["dimension"][dim_partner]["category"]["index"]
        for p_code in partner_codes:
            p_name = label_lookup.get(p_code, p_code)
            p_ord = idx_partner[p_code]
            for code in pick:
                t_ord = idx_time[code]
                coords = [p_ord if k == dim_partner else t_ord if k == dim_time else 0 for k in order]
                v = coerce_number(cube["value"][pos(coords)])
                rows.append({...})
>> *)
Definition partner_jsonstat (cube : json) (dim_time dim_partner : string)
    (partner_codes : list string) (label_lookup : list (string * json))
    (pick : list string) : res (list json) :=
  order ← py_item cube "id";
  sizes ← py_item cube "size";
  sizes ← as_ints sizes;
  strides ← compute_strides sizes;
  idx_time ← category_index cube dim_time;
  idx_partner ← category_index cube dim_partner;
  rows ← map_res
    (λ p_code,
       let p_name := partner_name label_lookup p_code in
       p_ord ← py_item idx_partner p_code;
       map_res
         (λ code,
            t_ord ← py_item idx_time code;
            order ← py_iter order;
            x ← cube_value cube strides
                  (coords_of order dim_partner p_ord dim_time t_ord);
            v ← coerce_number x;
            partner_record code p_name v)
         pick)
    partner_codes;
  Ret (concat rows).

(** The branch for a row table. *)
Definition partner_rows (cube : json) (dim_time dim_partner : string)
    (partner_codes : list string) (label_lookup : list (string * json))
    (pick : list string) : res (list json) :=
  table ← table_lookup cube [dim_partner; dim_time];
  match table with
  | None => Raise (PxError "Partner table: unexpected response format")
  | Some (dim_codes, lookup) =>
      rows ← map_res
        (λ p_code,
           let p_name := partner_name label_lookup p_code in
           map_res
             (λ code,
                v ← lookup_table_value dim_codes lookup
                      (dict_of [(dim_time, code); (dim_partner, p_code)]);
                partner_record code p_name v)
             pick)
        partner_codes;
      Ret (concat rows)
  end.

(** The list that [fetch_imports_by_partner] hands to [write_json]. *)
Definition partner_series (cube : json) (dim_time dim_partner : string)
    (partner_codes : list string) (label_lookup : list (string * json))
    (pick : list string) : res (list json) :=
  stat ← is_jsonstat cube;
  if stat then
    partner_jsonstat cube dim_time dim_partner partner_codes label_lookup pick
  else
    partner_rows cube dim_time dim_partner partner_codes label_lookup pick.

(** ** The fuel series *)

(** The loop over the measures of one period:
<<
            row: Dict[str, Any] = {"period": normalize_ym(code)}
            for m_code in measure_codes:
                value = lookup_table_value(dim_codes, lookup,
                                           {measure_dim: m_code, dim_time: code})
                row[field_map[m_code]] = tidy_number(value)
>> *)
Fixpoint fuel_row (dim_codes : list string)
    (lookup : gmap (list string) (option float))
    (measure_dim dim_time code : string) (field_map : list (string * string))
    (measure_codes : list string) (row : list (string * json))
  : res (list (string * json)) :=
  match measure_codes with
  | [] => Ret row
  | m_code :: rest =>
      value ← lookup_table_value dim_codes lookup
                (dict_of [(measure_dim, m_code); (dim_time, code)]);
      num ← tidy_number value;
      field ← match assoc m_code field_map with
              | Some f => Ret f
              | None => Raise KeyError
              end;
      fuel_row dim_codes lookup measure_dim dim_time code field_map rest
        (dict_set field num row)
  end.

(** The part of [fetch_fuel_table] after the POST:
<<
    table = table_lookup(cube, dim_order=[measure_dim, dim_time])
    if not table:
        raise PxError(f"{label}: unexpected response format")
    dim_codes, lookup = table
    series = []
    for code in pick:
        ...
        series.append(row)
>> *)
Definition fuel_series (cube : json) (label measure_dim dim_time : string)
    (measure_codes : list string) (field_map : list (string * string))
    (pick : list string) : res (list json) :=
  table ← table_lookup cube [measure_dim; dim_time];
  match table with
  | None => Raise (PxError (label +:+ ": unexpected response format"))
  | Some (dim_codes, lookup) =>
      map_res
        (λ code,
           row ← fuel_row dim_codes lookup measure_dim dim_time code field_map
                   measure_codes [("period", JStr (normalize_ym code))];
           Ret (JDict row))
        pick
  end.

(** ** Labels *)

(** [c.lower()] on Latin-1: the letters A to Z, and the accented capitals
    U+00C0 to U+00DE without the multiplication sign. *)
Definition lower_char (c : ascii) : ascii :=
  let n := ord c in
  if ((65 <=? n) && (n <=? 90)
      || (192 <=? n) && (n <=? 222) && negb (n =? 215))%N
  then chr (n + 32) else c.

Fixpoint lower (s : string) : string :=
  match s with
  | EmptyString => EmptyString
  | String c s' => String (lower_char c) (lower s')
  end.

(** The class [[^0-9a-zA-Z]] of the regular expression. *)
Definition not_alnum (c : ascii) : bool :=
  let n := ord c in
  negb ((48 <=? n) && (n <=? 57) || (65 <=? n) && (n <=? 90)
        || (97 <=? n) && (n <=? 122))%N.

(** [re.sub(r"[p]+", "_", s)]: every maximal run of characters of the class
    becomes one underscore. *)
Fixpoint sub_runs (p : ascii → bool) (in_run : bool) (s : string) : string :=
  match s with
  | EmptyString => EmptyString
  | String c s' =>
      if p c then
        if in_run then sub_runs p true s' else String "_" (sub_runs p true s')
      else String c (sub_runs p false s')
  end.

Fixpoint lstrip_char (c : ascii) (s : string) : string :=
  match s with
  | String a s' => if decide (a = c) then lstrip_char c s' else s
  | EmptyString => EmptyString
  end.

Fixpoint rstrip_char (c : ascii) (s : string) : string :=
  match s with
  | EmptyString => EmptyString
  | String a s' =>
      match rstrip_char c s' with
      | EmptyString =>
          if decide (a = c) then EmptyString else String a EmptyString
      | t => String a t
      end
  end.

(**
<<
def slugify_label(text: str) -> str:
    slug = re.sub(r"[^0-9a-zA-Z]+", "_", text.strip().lower())
    slug = re.sub(r"_+", "_", slug).strip("_")
    return slug or "value"
>> *)
Definition slugify_label (text : string) : string :=
  let slug := sub_runs not_alnum false (lower (strip text)) in
  let slug :=
    rstrip_char "_"
      (lstrip_char "_" (sub_runs (λ c, bool_decide (c = "_"%char)) false slug)) in
  if bool_decide (slug = "") then "value" else slug.

(**
<<
def normalize_group_label(label: str) -> str:
    l = label.lower()
    if l.startswith("tot"):
        return "total"
    if l.startswith("loc"):
        return "local"
    if l.startswith("ext"):
        return "external"
    return slugify_label(label)
>> *)
Definition normalize_group_label (label : string) : string :=
  let l := lower label in
  if str_prefix "tot" l then "total"
  else if str_prefix "loc" l then "local"
  else if str_prefix "ext" l then "external"
  else slugify_label label.

(** ** The tourism records *)

(** The loop over the metrics of one row:
<<
                for metric_key, metric_code in metric_codes.items():
                    value = lookup_table_value(dim_codes, lookup, {...})
                    row[metric_key] = tidy_number(value)
>>
    [assignments metric_code] is the dict of the assignments. *)
Fixpoint metric_row (dim_codes : list string)
    (lookup : gmap (list string) (option float))
    (assignments : string → list (string * string))
    (metric_codes : list (string * string)) (row : list (string * json))
  : res (list (string * json)) :=
  match metric_codes with
  | [] => Ret row
  | (metric_key, metric_code) :: rest =>
      value ← lookup_table_value dim_codes lookup (assignments metric_code);
      num ← tidy_number value;
      metric_row dim_codes lookup assignments rest
        (dict_set metric_key num row)
  end.

(** The part of [fetch_tourism_region] after the POST:
<<
    table = table_lookup(cube, dim_order=[dim_time, dim_region, dim_origin, dim_var])
    if not table:
        raise PxError("Tourism region: unexpected response format")
    dim_codes, lookup = table
    for time_code in pick:
        period = normalize_ym(time_code)
        for region_code, region_label in region_pairs:
            for origin_code, origin_label in origin_pairs:
                row = {"period": period, "region": region_label,
                       "visitor_group": normalize_group_label(origin_label),
                       "visitor_group_label": origin_label}
                ...
                records.append(row)
>> *)
Definition tourism_region_records (cube : json)
    (dim_time dim_region dim_origin dim_var : string)
    (region_pairs origin_pairs metric_codes : list (string * string))
    (pick : list string) : res (list json) :=
  table ← table_lookup cube [dim_time; dim_region; dim_origin; dim_var];
  match table with
  | None => Raise (PxError "Tourism region: unexpected response format")
  | Some (dim_codes, lookup) =>
      per_time ← map_res
        (λ time_code,
           let period := normalize_ym time_code in
           per_region ← map_res
             (λ region : string * string,
                map_res
                  (λ origin : string * string,
                     row ← metric_row dim_codes lookup
                       (λ metric_code,
                          dict_of [(dim_time, time_code);
                                   (dim_region, region.1);
                                   (dim_origin, origin.1);
                                   (dim_var, metric_code)])
                       metric_codes
                       (dict_of
                          [("period", JStr period);
                           ("region", JStr region.2);
                           ("visitor_group",
                            JStr (normalize_group_label origin.2));
                           ("visitor_group_label", JStr origin.2)]);
                     Ret (JDict row))
                  origin_pairs)
             region_pairs;
           Ret (concat per_region))
        pick;
      Ret (concat per_time)
  end.

(** The part of [fetch_tourism_country] after the POST:
<<
    table = table_lookup(cube, dim_order=[dim_time, dim_var, dim_country])
    if not table:
        raise PxError("Tourism country: unexpected response format")
    dim_codes, lookup = table
    for time_code in pick:
        period = normalize_ym(time_code)
        for country_code, country_label in country_pairs:
            row = {"period": period, "country": country_label}
            ...
            records.append(row)
>> *)
Definition tourism_country_records (cube : json)
    (dim_time dim_var dim_country : string)
    (country_pairs metric_codes : list (string * string))
    (pick : list string) : res (list json) :=
  table ← table_lookup cube [dim_time; dim_var; dim_country];
  match table with
  | None => Raise (PxError "Tourism country: unexpected response format")
  | Some (dim_codes, lookup) =>
      per_time ← map_res
        (λ time_code,
           let period := normalize_ym time_code in
           map_res
             (λ country : string * string,
                row ← metric_row dim_codes lookup
                  (λ metric_code,
                     dict_of [(dim_time, time_code);
                              (dim_var, metric_code);
                              (dim_country, country.1)])
                  metric_codes
                  (dict_of [("period", JStr period);
                            ("country", JStr country.2)]);
                Ret (JDict row))
             country_pairs)
        pick;
      Ret (concat per_time)
  end.

(** ** Effects

    What the script does to the world is a trace: the requests it sends, the
    pauses, the lines it prints, the directories and files it writes and, for
    [main], the calls of the fetchers.  Each entry carries the exception the
    action raised, if it raised.  The world answers through an environment,
    which may take the trace so far into account. *)

Inductive event :=
  | EvGet (url : string)
  | EvPost (url : string) (body : json)
  | EvSleep (secs : Z)
  | EvPrint (text : string) (err : option exn)
  | EvPrintErr (text : string) (err : option exn)
  | EvMkdir (dir : string)
  | EvWrite (path : string) (data : json)
  | EvFetch (table : string) (months : option Z)
      (partners : option (list string)).

Definition entry : Type := event * option exn.
Definition trace : Type := list entry.

(** An HTTP response: [r.status_code], [r.reason], [r.text], and what
    [r.json()] returns or raises. *)
Record response := {
  status_code : Z;
  reason : string;
  text : string;
  json_of : res json;
}.

(** [r.ok]: the status is no client or server error. *)
Definition ok (r : response) : bool :=
  negb ((400 <=? status_code r) && (status_code r <? 600)).

Record env := {
  http : trace → event → res response;
  disk : trace → event → res unit;
  fetcher : trace → event → res (list (string * json));
  clock : string;
}.

Definition M (A : Type) : Type := env → trace → res A * trace.

Definition retM {A} (a : A) : M A := λ _ tr, (Ret a, tr).

Definition bindM {A B} (m : M A) (f : A → M B) : M B := λ w tr,
  match m w tr with
  | (Ret a, tr') => f a w tr'
  | (Raise e, tr') => (Raise e, tr')
  end.

Definition liftM {A} (r : res A) : M A := λ _ tr, (r, tr).

Definition raiseM {A} (e : exn) : M A := λ _ tr, (Raise e, tr).

(** An action of the world: it is recorded with its outcome. *)
Definition act {A} (oracle : env → trace → event → res A) (ev : event)
  : M A := λ w tr,
  match oracle w tr ev with
  | Ret a => (Ret a, tr ++ [(ev, None)])
  | Raise e => (Raise e, tr ++ [(ev, Some e)])
  end.

(** An action that cannot fail. *)
Definition emit (ev : event) : M unit := λ _ tr, (Ret tt, tr ++ [(ev, None)]).

(** [try: m  except Exception as e: handler(e)] *)
Definition try_except {A} (m : M A) (handler : exn → M A) : M A := λ w tr,
  match m w tr with
  | (Raise e, tr') => handler e w tr'
  | r => r
  end.

Declare Scope io_scope.
Delimit Scope io_scope with io.
Notation "x ← y ; z" := (bindM y (λ x, z))
  (at level 20, y at level 100, z at level 200, only parsing) : io_scope.

(** ** The two requests *)

Definition API_BASES : list string :=
  ["https://askdata.rks-gov.net/PXWeb/api/v1";
   "https://askdata.rks-gov.net/api/v1"].

(** The characters [quote] leaves as they are: letters, digits and [_.-~]. *)
Definition unreserved (c : ascii) : bool :=
  let n := ord c in
  ((48 <=? n) && (n <=? 57) || (65 <=? n) && (n <=? 90)
   || (97 <=? n) && (n <=? 122)
   || (n =? 95) || (n =? 46) || (n =? 45) || (n =? 126))%N.

Definition hex_digit (n : N) : ascii :=
  if (n <? 10)%N then chr (48 + n) else chr (55 + n).

Definition percent (byte : N) : string :=
  String "%" (String (hex_digit (byte / 16)) (String (hex_digit (byte mod 16)) "")).

(** [quote(p, safe="")]: every other character is written as the bytes of its
    UTF-8 encoding, each as a percent sign and two hexadecimal digits. *)
Fixpoint quote (p : string) : string :=
  match p with
  | EmptyString => EmptyString
  | String c p' =>
      (if unreserved c then String c EmptyString
       else if (ord c <? 128)%N then percent (ord c)
       else percent (192 + ord c / 64) +:+ percent (128 + ord c mod 64))
      +:+ quote p'
  end.

(** ["/".join(segs)] *)
Fixpoint join_slash (segs : list string) : string :=
  match segs with
  | [] => EmptyString
  | [s] => s
  | s :: rest => s +:+ "/" +:+ join_slash rest
  end.

(**
<<
def api_join(base: str, parts: List[str], lang: str = "en") -> str:
    segs = [base.rstrip("/"), lang] + [quote(p, safe="") for p in parts]
    return "/".join(segs)
>> *)
Definition api_join (base : string) (parts : list string) (lang : string)
  : string :=
  join_slash ([rstrip_char "/" base; lang] ++ (quote <$> parts)).

(** [last_err or dflt] *)
Definition or_default (last_err : option string) (dflt : string) : string :=
  match last_err with
  | Some s => if bool_decide (s = "") then dflt else s
  | None => dflt
  end.

(**
<<
def px_get_meta(parts: List[str], lang: str = "en") -> Dict[str, Any]:
    last_err: Optional[str] = None
    for base in API_BASES:
        url = api_join(base, parts, lang)
        r = SESSION.get(url, timeout=30)
        if r.ok:
            return r.json()
        last_err = f"GET {url} -> {r.status_code} {r.reason}"
    raise PxError(last_err or "Meta fetch failed")
>> *)
Fixpoint px_get_meta_loop (bases : list string) (parts : list string)
    (lang : string) (last_err : option string) : M json :=
  match bases with
  | [] => raiseM (PxError (or_default last_err "Meta fetch failed"))
  | base :: rest =>
      (let url := api_join base parts lang in
       r ← act http (EvGet url);
       if ok r then liftM (json_of r)
       else
         px_get_meta_loop rest parts lang
           (Some ("GET " +:+ url +:+ " -> " +:+ str_of_Z (status_code r)
                  +:+ " " +:+ reason r)))%io
  end.

Definition px_get_meta (parts : list string) (lang : string) : M json :=
  px_get_meta_loop API_BASES parts lang None.

(** [body2 = dict(body); body2.setdefault("response", {"format": "JSON"})] *)
Definition with_response_format (body : list (string * json))
  : list (string * json) :=
  match assoc "response" body with
  | Some _ => body
  | None => body ++ [("response", JDict [("format", JStr "JSON")])]
  end.

(**
<<
def px_post_data(parts, body, lang="en"):
    last_err: Optional[str] = None
    body2 = dict(body)
    body2.setdefault("response", {"format": "JSON"})
    for base in API_BASES:
        url = api_join(base, parts, lang)
        r = SESSION.post(url, json=body2, timeout=60)
        if r.ok:
            return r.json()
        last_err = f"POST {url} -> {r.status_code} {r.text[:200]}"
        # be gentle with possible rate limits
        if r.status_code == 429:
            time.sleep(1)
    raise PxError(last_err or "Data fetch failed")
>> *)
Fixpoint px_post_data_loop (bases : list string) (parts : list string)
    (body2 : json) (lang : string) (last_err : option string) : M json :=
  match bases with
  | [] => raiseM (PxError (or_default last_err "Data fetch failed"))
  | base :: rest =>
      (let url := api_join base parts lang in
       r ← act http (EvPost url body2);
       if ok r then liftM (json_of r)
       else
         let last_err :=
           Some ("POST " +:+ url +:+ " -> " +:+ str_of_Z (status_code r)
                 +:+ " " +:+ str_take 200 (text r)) in
         _ ← (if status_code r =? 429 then emit (EvSleep 1) else retM tt);
         px_post_data_loop rest parts body2 lang last_err)%io
  end.

Definition px_post_data (parts : list string) (body : list (string * json))
    (lang : string) : M json :=
  px_post_data_loop API_BASES parts (JDict (with_response_format body)) lang
    None.

(** ** Writing a file *)

(** [out_dir / name], for a directory written without a trailing slash. *)
Definition path_join (out_dir name : string) : string :=
  out_dir +:+ "/" +:+ name.

(**
<<
def write_json(out_dir: Path, name: str, data: Any):
    out_dir.mkdir(parents=True, exist_ok=True)
    (out_dir / name).write_text(json.dumps(data, ...), encoding="utf-8")
    print(f"[check mark] wrote {out_dir / name}")
>>
    The printed line is recorded without its check mark, which is not a
    Latin-1 character. *)
Definition write_json (out_dir name : string) (data : json) : M unit :=
  (_ ← act disk (EvMkdir out_dir);
   _ ← act disk (EvWrite (path_join out_dir name) data);
   emit (EvPrint ("wrote " +:+ path_join out_dir name) None))%io.

(** ** main *)

(** The command line after [ap.parse_args()]. *)
Record args := {
  arg_out : option string;
  arg_months : option Z;
  arg_all : bool;
  arg_partners : option string;
  arg_no_partners : bool;
}.

(** [s.split(",")] *)
Fixpoint split_commas (s : string) : list string :=
  match s with
  | EmptyString => [EmptyString]
  | String c s' =>
      match split_commas s' with
      | part :: parts =>
          if decide (c = ","%char) then EmptyString :: part :: parts
          else String c part :: parts
      | [] => [String c EmptyString]
      end
  end.

(** [months = None if args.all else (args.months or 24)] *)
Definition main_months (a : args) : option Z :=
  if arg_all a then None
  else Some (match arg_months a with
             | Some n => if n =? 0 then 24 else n
             | None => 24
             end).

(**
<<
    partners: Optional[List[str]] = None
    if args.no_partners:
        partners = None
    else:
        if args.partners:
            partners = [p for p in args.partners.split(",") if p.strip()]
        else:
            partners = ["ALL"]
>> *)
Definition main_partners (a : args) : option (list string) :=
  if arg_no_partners a then None
  else
    match arg_partners a with
    | Some s =>
        if bool_decide (s = "") then Some ["ALL"]
        else Some (filter (λ p, strip p ≠ "") (split_commas s))
    | None => Some ["ALL"]
    end.

(** [if args.out: out_dir = Path(args.out) else: out_dir = Path("data")] *)
Definition main_out_dir (a : args) : string :=
  match arg_out a with
  | Some s => if bool_decide (s = "") then "data" else s
  | None => "data"
  end.

(** [l[start:]] for any [int] [start]. *)
Definition py_slice_from {A} (start : Z) (l : list A) : list A :=
  let n := Z.of_nat (length l) in
  drop (Z.to_nat (if start <? 0 then Z.max (start + n) 0 else Z.min start n)) l.

(** [pick = all_months[-months:] if months else all_months], the selection
    every fetcher makes. *)
Definition select_months {A} (all_months : list A) (months : option Z)
  : list A :=
  match months with
  | Some n => if n =? 0 then all_months else py_slice_from (- n) all_months
  | None => all_months
  end.

(** The fuel tables in the order of [FUEL_SPECS]: name and path key. *)
Definition FUEL_SPECS : list (string * string) :=
  [("gasoline", "fuel_gasoline"); ("diesel", "fuel_diesel");
   ("lng", "fuel_lng"); ("jet", "fuel_jet")].

(** A call of a fetcher: the environment gives what it returns or raises. *)
Definition fetch (table : string) (months : option Z)
    (partners : option (list string)) : M (list (string * json)) :=
  act fetcher (EvFetch table months partners).

(**
<<
    for fuel_name, spec in FUEL_SPECS.items():
        try:
            fuel_infos[fuel_name] = fetch_fuel_table(out_dir, months, fuel_name, spec)
        except Exception as e:
            print(f"! Fuel {fuel_name} download failed:", e)
>> *)
Fixpoint fetch_fuels (specs : list (string * string)) (months : option Z)
    (fuel_infos : list (string * json)) : M (list (string * json)) :=
  match specs with
  | [] => retM fuel_infos
  | (fuel_name, path_key) :: rest =>
      (fuel_infos ←
         try_except
           (info ← fetch path_key months None;
            retM (dict_set fuel_name (JDict info) fuel_infos))
           (λ e,
              _ ← emit (EvPrint ("! Fuel " +:+ fuel_name +:+ " download failed:")
                          (Some e));
              retM fuel_infos);
       fetch_fuels rest months fuel_infos)%io
  end.

(** [try: info = fetch(...)  except Exception as e: print(line, e)] with
    [info = None] beforehand. *)
Definition fetch_guarded (table line : string) (months : option Z)
    (partners : option (list string)) : M (option (list (string * json))) :=
  try_except
    (info ← fetch table months partners; retM (Some info))%io
    (λ e, _ ← emit (EvPrint line (Some e)); retM None)%io.

Definition json_of_option (o : option (list (string * json))) : json :=
  match o with
  | Some d => JDict d
  | None => JNull
  end.

Definition json_strs (l : list string) : json := JList (JStr <$> l).

(** The manifest written to [kas_sources.json]. *)
Definition manifest (started : string) (partners : option (list string))
    (trade_info energy_info : list (string * json))
    (fuel_infos : list (string * json))
    (tourism_region_info tourism_country_info partner_info
       : option (list (string * json))) : json :=
  let fuel_manifest :=
    if bool_decide (fuel_infos = []) then JNull else JDict fuel_infos in
  let tourism_manifest :=
    (match tourism_region_info with
     | Some (kv :: d) => [("region", JDict (kv :: d))]
     | _ => []
     end)
    ++ (match tourism_country_info with
        | Some (kv :: d) => [("country", JDict (kv :: d))]
        | _ => []
        end) in
  JDict
    [("generated_at", JStr started);
     ("api_bases_tried", json_strs API_BASES);
     ("sources",
      JDict
        [("trade_monthly",
          JDict [("table", JStr "08_qarkullimi.px");
                 ("path", JStr "ASKdata/External trade/Monthly indicators/08_qarkullimi.px");
                 ("unit", JStr "thousand euro (CIF)");
                 ("periods", default JNull (assoc "periods" trade_info))]);
         ("energy_monthly",
          JDict [("table", JStr "tab01.px");
                 ("path", JStr "ASKdata/Energy/Monthly indicators/tab01.px");
                 ("unit", JStr "GWh");
                 ("periods", default JNull (assoc "periods" energy_info))]);
         ("fuel_monthly", fuel_manifest);
         ("tourism_monthly",
          if bool_decide (tourism_manifest = []) then JNull
          else JDict tourism_manifest);
         ("imports_by_partner",
          match partners with
          | Some _ =>
              JDict
                (foldl (λ d kv, dict_set kv.1 kv.2 d)
                   [("table", JStr "07_imp_country.px");
                    ("path", JStr "ASKdata/External trade/Monthly indicators/07_imp_country.px");
                    ("unit", JStr "thousand euro")]
                   (default [] partner_info))
          | None => JNull
          end)]);
     ("notes",
      json_strs
        ["Uses PxWeb API; handles GET-meta variables[] (e.g., 'Viti/muaji', 'Variabla')";
         "Trade values are in thousand euro; imports are CIF";
         "Energy quantities are electricity volumes; indicators include Import and Gross Production from Power Plants";
         "Fuel balances include production, import, export, stock, and ready-for-market categories";
         "Tourism figures include visitors and nights by region (split by local/external) and by country of origin"])].

(** [",".join(partners)] *)
Fixpoint join_commas (l : list string) : string :=
  match l with
  | [] => EmptyString
  | [s] => s
  | s :: rest => s +:+ "," +:+ join_commas rest
  end.

(** The body of [main], from the parsed command line on. *)
Definition main (a : args) : M unit :=
  (let out_dir := main_out_dir a in
   let months := main_months a in
   let partners := main_partners a in
   _ ← emit (EvPrint "ASKdata PxWeb consolidator" None);
   _ ← emit (EvPrint ("  out     : " +:+ out_dir) None);
   _ ← emit (EvPrint ("  months  : " +:+ match months with
                                         | Some n => str_of_Z n
                                         | None => "ALL"
                                         end) None);
   _ ← emit (EvPrint ("  partners: " +:+ match partners with
                                         | Some (p :: ps) => join_commas (p :: ps)
                                         | _ => "(none)"
                                         end) None);
   _ ← act disk (EvMkdir out_dir);
   started ← (λ w tr, (Ret (clock w), tr));
   trade_info ← fetch "trade_monthly" months None;
   energy_info ← fetch "energy_monthly" months None;
   fuel_infos ← fetch_fuels FUEL_SPECS months [];
   tourism_region_info ←
     fetch_guarded "tourism_region" "! Tourism region download failed:"
       months None;
   tourism_country_info ←
     fetch_guarded "tourism_country" "! Tourism country download failed:"
       months None;
   partner_info ←
     match partners with
     | Some ps =>
         fetch_guarded "imports_by_partner" "! Partner download failed:"
           months (Some ps)
     | None => retM None
     end;
   _ ← write_json out_dir "kas_sources.json"
         (manifest started partners trade_info energy_info fuel_infos
            tourism_region_info tourism_country_info partner_info);
   emit (EvPrint "Done." None))%io.

(**
<<
if __name__ == "__main__":
    try:
        main()
    except PxError as e:
        print("FAILED:", e, file=sys.stderr)
        sys.exit(2)
    except Exception as e:
        print("FAILED:", e, file=sys.stderr)
        sys.exit(1)
>>
    The exit code of the process and its trace. *)
Definition run (w : env) (a : args) : Z * trace :=
  match main a w [] with
  | (Ret _, tr) => (0, tr)
  | (Raise (PxError msg), tr) =>
      (2, tr ++ [(EvPrintErr "FAILED:" (Some (PxError msg)), None)])
  | (Raise e, tr) => (1, tr ++ [(EvPrintErr "FAILED:" (Some e), None)])
  end.

(** ** Reading traces *)

(** [m], started in [w] with the trace [tr], ends with [r] after adding the
    entries [evs]. *)
Definition runs {A} (m : M A) (w : env) (tr : trace) (r : res A)
    (evs : trace) : Prop :=
  m w tr = (r, tr ++ evs).

(** The message of the [PxError] raised when the last base answered [r]. *)
Definition get_error (url : string) (r : response) : exn :=
  PxError ("GET " +:+ url +:+ " -> " +:+ str_of_Z (status_code r)
           +:+ " " +:+ reason r).

Definition post_error (url : string) (r : response) : exn :=
  PxError ("POST " +:+ url +:+ " -> " +:+ str_of_Z (status_code r)
           +:+ " " +:+ str_take 200 (text r)).

Definition is_sleep (en : entry) : bool :=
  match en.1 with
  | EvSleep _ => true
  | _ => false
  end.

(** The URLs requested in a trace, in order. *)
Definition requested (tr : trace) : list string :=
  omap (λ en : entry, match en.1 with
                      | EvGet url | EvPost url _ => Some url
                      | _ => None
                      end) tr.

(** The tables [main] fetches, in order, by their key in [PATHS]. *)
Definition tables (a : args) : list string :=
  ["trade_monthly"; "energy_monthly"; "fuel_gasoline"; "fuel_diesel";
   "fuel_lng"; "fuel_jet"; "tourism_region"; "tourism_country"]
  ++ match main_partners a with
     | Some _ => ["imports_by_partner"]
     | None => []
     end.

(** The tables whose fetcher was called in a trace, in order. *)
Definition fetched (tr : trace) : list string :=
  omap (λ en : entry, match en.1 with
                      | EvFetch table _ _ => Some table
                      | _ => None
                      end) tr.

(** The actions of [main] that stand outside every [try]: the fetches of the
    trade and energy tables, and the directories and files it writes. *)
Definition unguarded (ev : event) : Prop :=
  match ev with
  | EvMkdir _ | EvWrite _ _ => True
  | EvFetch table _ _ => table = "trade_monthly" ∨ table = "energy_monthly"
  | _ => False
  end.

(** The exit code [__main__] gives to an exception. *)
Definition exit_code (e : exn) : Z :=
  match e with
  | PxError _ => 2
  | _ => 1
  end.

(** The four lines [main] prints first. *)
Definition header (a : args) : trace :=
  [(EvPrint "ASKdata PxWeb consolidator" None, None);
   (EvPrint ("  out     : " +:+ main_out_dir a) None, None);
   (EvPrint ("  months  : " +:+ match main_months a with
                                | Some n => str_of_Z n
                                | None => "ALL"
                                end) None, None);
   (EvPrint ("  partners: " +:+ match main_partners a with
                                | Some (p :: ps) => join_commas (p :: ps)
                                | _ => "(none)"
                                end) None, None)].

(** The entries of a guarded fetch: the call and, when it raised, the line
    that reports the exception. *)
Definition guarded_seg (table line : string) (months : option Z)
    (partners : option (list string)) (o : option exn) : trace :=
  match o with
  | None => [(EvFetch table months partners, None)]
  | Some e => [(EvFetch table months partners, Some e);
               (EvPrint line (Some e), None)]
  end.

(** The entries of the guarded part of a run, given what each fetch did. *)
Definition guarded_part (a : args) (os : list (option exn)) : trace :=
  let m := main_months a in
  let o (i : nat) := default None (os !! i) in
  guarded_seg "fuel_gasoline" "! Fuel gasoline download failed:" m None (o 0%nat)
  ++ guarded_seg "fuel_diesel" "! Fuel diesel download failed:" m None (o 1%nat)
  ++ guarded_seg "fuel_lng" "! Fuel lng download failed:" m None (o 2%nat)
  ++ guarded_seg "fuel_jet" "! Fuel jet download failed:" m None (o 3%nat)
  ++ guarded_seg "tourism_region" "! Tourism region download failed:" m None
       (o 4%nat)
  ++ guarded_seg "tourism_country" "! Tourism country download failed:" m None
       (o 5%nat)
  ++ match main_partners a with
     | Some ps =>
         guarded_seg "imports_by_partner" "! Partner download failed:" m
           (Some ps) (o 6%nat)
     | None => []
     end.

(** The entries of [write_json] and of the last line, with the result. *)
Inductive manifest_run (out_dir : string) : res unit → trace → Prop :=
  | manifest_mkdir_fails e :
      manifest_run out_dir (Raise e) [(EvMkdir out_dir, Some e)]
  | manifest_write_fails data e :
      manifest_run out_dir (Raise e)
        [(EvMkdir out_dir, None);
         (EvWrite (path_join out_dir "kas_sources.json") data, Some e)]
  | manifest_written data :
      manifest_run out_dir (Ret tt)
        [(EvMkdir out_dir, None);
         (EvWrite (path_join out_dir "kas_sources.json") data, None);
         (EvPrint ("wrote " +:+ path_join out_dir "kas_sources.json") None,
          None);
         (EvPrint "Done." None, None)].

(** The result and the trace of [main]: it ends at the first unguarded action
    that raises, and goes through all the guarded fetches otherwise. *)
Inductive main_run (a : args) : res unit → trace → Prop :=
  | run_mkdir_fails e :
      main_run a (Raise e) (header a ++ [(EvMkdir (main_out_dir a), Some e)])
  | run_trade_fails e :
      main_run a (Raise e)
        (header a ++
         [(EvMkdir (main_out_dir a), None);
          (EvFetch "trade_monthly" (main_months a) None, Some e)])
  | run_energy_fails e :
      main_run a (Raise e)
        (header a ++
         [(EvMkdir (main_out_dir a), None);
          (EvFetch "trade_monthly" (main_months a) None, None);
          (EvFetch "energy_monthly" (main_months a) None, Some e)])
  | run_guarded os r tail :
      length os = 7%nat →
      manifest_run (main_out_dir a) r tail →
      main_run a r
        (header a ++
         [(EvMkdir (main_out_dir a), None);
          (EvFetch "trade_monthly" (main_months a) None, None);
          (EvFetch "energy_monthly" (main_months a) None, None)]
         ++ guarded_part a os ++ tail).

(** What follows [t] in a list: [Some (Some next)], [Some None] when [t] is
    the last element, [None] when [t] does not occur. *)
Fixpoint after (t : string) (l : list string) : option (option string) :=
  match l with
  | [] => None
  | x :: rest => if decide (x = t) then Some (head rest) else after t rest
  end.

(** The run goes on after [table]: the event is the call of the fetcher of
    the next table or, after the last table, the first action of
    [write_json]. *)
Definition continues (a : args) (table : string) (ev : event) : Prop :=
  match after table (tables a) with
  | Some (Some next) => ∃ m p, ev = EvFetch next m p
  | Some None => ev = EvMkdir (main_out_dir a)
  | None => False
  end.

(** Every failed fetch of a guarded table is followed by the line that
    reports its exception, and then the run goes on. *)
Fixpoint logged (a : args) (tr : trace) : Prop :=
  match tr with
  | [] => True
  | (EvFetch table m p, Some e) :: rest =>
      (table ≠ "trade_monthly" → table ≠ "energy_monthly" →
       match rest with
       | (EvPrint line (Some e'), None) :: next :: _ =>
           e' = e ∧ continues a table next.1
       | _ => False
       end)
      ∧ logged a rest
  | _ :: rest => logged a rest
  end.

(** An answer in the JSON-stat shape: it has both ['value'] and
    ['dimension']. *)
Definition jsonstat_shape (d : list (string * json)) : Prop :=
  is_Some (assoc "value" d) ∧ is_Some (assoc "dimension" d).

(** An answer without rows: ['data'] is missing or empty. *)
Definition no_rows (d : list (string * json)) : Prop :=
  truthy (default JNull (assoc "data" d)) = false.

(** A command line with [--months 0]. *)
Definition months_zero_args : args :=
  {| arg_out := None; arg_months := Some 0; arg_all := false;
     arg_partners := None; arg_no_partners := false |}.

(** A command line with [--no-partners --partners AL,RS]. *)
Definition no_partners_args : args :=
  {| arg_out := None; arg_months := Some 36; arg_all := false;
     arg_partners := Some "AL,RS"; arg_no_partners := true |}.

(** A world in which every request is answered with status 429, the disk
    works, and the fetchers of the diesel and tourism-country tables raise
    while the others return. *)
Definition busy_response : response :=
  {| status_code := 429; reason := "Too Many Requests"; text := "slow down";
     json_of := Raise ValueError |}.

Definition example_env : env :=
  {| http := λ _ _, Ret busy_response;
     disk := λ _ _, Ret tt;
     fetcher := λ _ ev,
       match ev with
       | EvFetch "fuel_diesel" _ _ => Raise (PxError "no diesel")
       | EvFetch "tourism_country" _ _ => Raise KeyError
       | _ => Ret [("periods", JInt 24)]
       end;
     clock := "2026-01-01T00:00:00Z" |}.

(** A world in which the trade table cannot be fetched. *)
Definition trade_down_env : env :=
  {| http := λ _ _, Ret busy_response;
     disk := λ _ _, Ret tt;
     fetcher := λ _ ev,
       match ev with
       | EvFetch "trade_monthly" _ _ => Raise (PxError "GET failed")
       | _ => Ret [("periods", JInt 24)]
       end;
     clock := "2026-01-01T00:00:00Z" |}.

Definition default_args : args :=
  {| arg_out := None; arg_months := None; arg_all := false;
     arg_partners := None; arg_no_partners := false |}.

(** The metadata of a table whose time variable lists the newest month
    first. *)
Definition example_meta : json :=
  JDict
    [("title", JStr "Monthly indicators");
     ("variables",
      JList
        [JDict [("code", JStr "Variabla"); ("text", JStr "Variables");
                ("values", JList [JStr "1"; JStr "3"]);
                ("valueTexts", JList [JStr "Exports (FOB)";
                                      JStr "Imports (CIF)"])];
         JDict [("code", JStr "Viti/muaji"); ("text", JStr "Year/month");
                ("values", JList [JStr "2025M03"; JStr "2025M02";
                                  JStr "2025M01"]);
                ("time", JBool true)]])].

(** An answer without ['value'], ['dimension'] or ['data']. *)
Definition example_other_answer : list (string * json) :=
  [("title", JStr "Monthly indicators")].

(** An answer in the JSON-stat shape: two indicators by three months. *)
Definition example_cube : list (string * json) :=
  [("id", JList [JStr "MWH"; JStr "Viti/muaji"]);
   ("size", JList [JInt 2; JInt 3]);
   ("dimension",
    JDict
      [("MWH",
        JDict [("category",
                JDict [("index", JDict [("1", JInt 0); ("7", JInt 1)])])]);
       ("Viti/muaji",
        JDict [("category",
                JDict [("index",
                        JDict [("2025M01", JInt 0); ("2025M02", JInt 1);
                               ("2025M03", JInt 2)])])])]);
   ("value",
    JList [JInt 10; JInt 20; JStr "30.5"; JInt 400; JStr ".."; JInt 600])].

(** * More of the script *)

(** ** Rows of a table *)

(** The tuple of strings under which the loop of [table_lookup] stores a
    row: the elements of its ['key'], when there are as many as dimensions
    and all are strings.  [None] for a row the loop skips and for a key no
    tuple of strings is equal to. *)
Definition row_key (dim_codes : list string) (row : json)
  : option (list string) :=
  match py_get row "key" (JList []) with
  | Ret key_vals =>
      match py_len key_vals, py_iter key_vals with
      | Ret n, Ret elems =>
          if decide (n = length dim_codes) then
            match hash_key elems with
            | Ret (Some ks) => Some ks
            | _ => None
            end
          else None
      | _, _ => None
      end
  | Raise _ => None
  end.

(** The number the loop stores for a row: [coerce_number(val)]. *)
Definition row_number (row : json) : res (option float) :=
  val ← row_value row; coerce_number val.

(** The lookup [table_lookup] makes of [example_row_answer]: 12.0 and 7.25
    under the keys of the two rows. *)
Definition example_row_lookup : gmap (list string) (option float) :=
  {[ ["2025M01"; "3"] := Some (S754_finite false 6755399441055744 (-49));
     ["2025M02"; "3"] := Some (S754_finite false 8162774324609024 (-50)) ]}.

(** A row of a row table: its key and its one value, as the API sends
    them. *)
Definition data_row (key : list string) (value : string) : json :=
  JDict [("key", JList (JStr <$> key)); ("values", JList [JStr value])].

(** An answer to the POST of [fetch_tourism_country]: two months, two
    metrics (visitors [0], nights [1]) and two countries; the nights of the
    second country in the second month are not available. *)
Definition example_country_cube : json :=
  JDict
    [("data",
      JList [data_row ["2025M01"; "0"; "AL"] "7";
             data_row ["2025M01"; "1"; "AL"] "15";
             data_row ["2025M01"; "0"; "DE"] "3";
             data_row ["2025M01"; "1"; "DE"] "8.5";
             data_row ["2025M02"; "0"; "AL"] "9";
             data_row ["2025M02"; "1"; "AL"] "21";
             data_row ["2025M02"; "0"; "DE"] "4";
             data_row ["2025M02"; "1"; "DE"] ".."])].

(** The records made of it. *)
Definition example_country_records : list json :=
  [JDict [("period", JStr "2025-01"); ("country", JStr "Albania");
          ("visitors", JInt 7); ("nights", JInt 15)];
   JDict [("period", JStr "2025-01"); ("country", JStr "Germany");
          ("visitors", JInt 3);
          ("nights", JFloat (S754_finite false 4785074604081152 (-49)))];
   JDict [("period", JStr "2025-02"); ("country", JStr "Albania");
          ("visitors", JInt 9); ("nights", JInt 21)];
   JDict [("period", JStr "2025-02"); ("country", JStr "Germany");
          ("visitors", JInt 4); ("nights", JNull)]].

(** An answer to the POST of [fetch_tourism_region]: two months, two
    regions, two visitor groups and two metrics (visitors [v], nights
    [n]). *)
Definition example_region_cube : json :=
  JDict
    [("data",
      JList [data_row ["2025M01"; "1"; "0"; "v"] "5";
             data_row ["2025M01"; "1"; "0"; "n"] "9";
             data_row ["2025M01"; "1"; "1"; "v"] "2";
             data_row ["2025M01"; "1"; "1"; "n"] "6";
             data_row ["2025M01"; "2"; "0"; "v"] "11";
             data_row ["2025M01"; "2"; "0"; "n"] "12.5";
             data_row ["2025M01"; "2"; "1"; "v"] "13";
             data_row ["2025M01"; "2"; "1"; "n"] "14";
             data_row ["2025M02"; "1"; "0"; "v"] "21";
             data_row ["2025M02"; "1"; "0"; "n"] "22";
             data_row ["2025M02"; "1"; "1"; "v"] "23";
             data_row ["2025M02"; "1"; "1"; "n"] "24";
             data_row ["2025M02"; "2"; "0"; "v"] "31";
             data_row ["2025M02"; "2"; "0"; "n"] "32";
             data_row ["2025M02"; "2"; "1"; "v"] "33";
             data_row ["2025M02"; "2"; "1"; "n"] ".."])].

Definition example_region_record (period region group label : string)
    (visitors nights : json) : json :=
  JDict [("period", JStr period); ("region", JStr region);
         ("visitor_group", JStr group); ("visitor_group_label", JStr label);
         ("visitors", visitors); ("nights", nights)].

(** The records made of it. *)
Definition example_region_records : list json :=
  [example_region_record "2025-01" "Prishtina" "local" "Local"
     (JInt 5) (JInt 9);
   example_region_record "2025-01" "Prishtina" "external" "External"
     (JInt 2) (JInt 6);
   example_region_record "2025-01" "Prizren" "local" "Local"
     (JInt 11) (JFloat (S754_finite false 7036874417766400 (-49)));
   example_region_record "2025-01" "Prizren" "external" "External"
     (JInt 13) (JInt 14);
   example_region_record "2025-02" "Prishtina" "local" "Local"
     (JInt 21) (JInt 22);
   example_region_record "2025-02" "Prishtina" "external" "External"
     (JInt 23) (JInt 24);
   example_region_record "2025-02" "Prizren" "local" "Local"
     (JInt 31) (JInt 32);
   example_region_record "2025-02" "Prizren" "external" "External"
     (JInt 33) JNull].

(** ** Field names *)

(**
<<
def normalize_fuel_field(label: str) -> str:
    l = label.lower()
    if "ready" in l and "market" in l:
        return "ready_for_market"
    if "production" in l:
        return "production"
    if "import" in l:
        return "import"
    if "export" in l:
        return "export"
    if "stock" in l:
        return "stock"
    return slugify_label(label)
>> *)
Definition normalize_fuel_field (label : string) : string :=
  let l := lower label in
  if str_infix "ready" l && str_infix "market" l then "ready_for_market"
  else if str_infix "production" l then "production"
  else if str_infix "import" l then "import"
  else if str_infix "export" l then "export"
  else if str_infix "stock" l then "stock"
  else slugify_label label.

(**
<<
def normalize_tourism_metric(label: str) -> str:
    l = label.lower()
    if "night" in l:
        return "nights"
    return "visitors"
>> *)
Definition normalize_tourism_metric (label : string) : string :=
  let l := lower label in
  if str_infix "night" l then "nights" else "visitors".

(** The characters of a field name: digits, small letters and the
    underscore. *)
Definition slug_char (c : ascii) : bool :=
  let n := ord c in
  ((48 <=? n) && (n <=? 57) || (97 <=? n) && (n <=? 122) || (n =? 95))%N.

Definition str_head (s : string) : option ascii :=
  match s with
  | String c _ => Some c
  | EmptyString => None
  end.

Fixpoint str_last (s : string) : option ascii :=
  match s with
  | EmptyString => None
  | String c EmptyString => Some c
  | String _ s' => str_last s'
  end.

(** A field name: not empty, made of digits, small letters and single
    underscores, with no underscore at either end. *)
Definition is_slug (s : string) : Prop :=
  s ≠ ""
  ∧ str_all slug_char s = true
  ∧ str_head s ≠ Some "_"%char
  ∧ str_last s ≠ Some "_"%char
  ∧ str_infix "__" s = false.

(** ** The values of a variable *)

(**
<<
def meta_value_map(meta, var_code):
    v = next((x for x in meta_variables(meta) if x.get("code") == var_code), None)
    if not v:
        return []
    values = list(v.get("values", []))
    texts = list(v.get("valueTexts", []))
    # Some PxWeb instances return missing valueTexts; fall back to the code
    if not texts or len(texts) != len(values):
        texts = [str(c) for c in values]
    return list(zip(values, texts))
>> *)
Definition meta_value_map (meta : json) (var_code : string)
  : res (list (json * json)) :=
  vars ← meta_variables meta;
  v ← next_with_code var_code vars;
  match v with
  | None => Ret []
  | Some v =>
      if negb (truthy v) then Ret []
      else
        vs ← py_get v "values" (JList []);
        values ← py_iter vs;
        ts ← py_get v "valueTexts" (JList []);
        texts ← py_iter ts;
        texts ←
          (if bool_decide (texts = [])
              || negb (bool_decide (length texts = length values))
           then map_res (λ c, res_map JStr (py_str c)) values
           else Ret texts);
        Ret (zip values texts)
  end.

(** ** Characters of a URL *)

(** The characters [quote] writes: the unreserved ones and the percent
    sign. *)
Definition url_char (c : ascii) : bool :=
  unreserved c || bool_decide (c = "%"%char).

(** [s.count(c)] for a one-character string [c]. *)
Fixpoint count_char (c : ascii) (s : string) : nat :=
  match s with
  | EmptyString => 0
  | String a s' => (if decide (a = c) then 1 else 0) + count_char c s'
  end.

(** ** Numerals *)

(** The characters of the decimal numeral of an [int]: the digits and the
    minus sign. *)
Definition numeral_char (c : ascii) : bool :=
  is_ascii_digit c || bool_decide (c = "-"%char).

(** ** Reading a run *)

(** The tables whose fetcher raised in a trace, in order. *)
Definition failed (tr : trace) : list string :=
  omap (λ en : entry, match en with
                      | (EvFetch table _ _, Some _) => Some table
                      | _ => None
                      end) tr.

(** The files written in a trace, in order: path and content. *)
Definition written (tr : trace) : list (string * json) :=
  omap (λ en : entry, match en with
                      | (EvWrite path data, None) => Some (path, data)
                      | _ => None
                      end) tr.

(** [manifest["sources"][key]] *)
Definition manifest_source (data : json) (key : string) : res json :=
  sources ← py_item data "sources"; py_item sources key.

(** What a call leaves in the trace, and what a guarded call leaves in its
    variable. *)
Definition outcome {A} (r : res A) : option exn :=
  match r with
  | Ret _ => None
  | Raise e => Some e
  end.

Definition info_of {A} (r : res A) : option A :=
  match r with
  | Ret info => Some info
  | Raise _ => None
  end.

(** [fuel_infos] after the loop over [FUEL_SPECS], given what each call of
    [fetch_fuel_table] did. *)
Definition fuel_infos_of (rs : list (res (list (string * json))))
  : list (string * json) :=
  foldl (λ infos nr,
           match nr.2 with
           | Ret info => dict_set nr.1.1 (JDict info) infos
           | Raise _ => infos
           end) [] (zip FUEL_SPECS rs).

(** The entries of a [write_json] of the manifest that succeeds, and of the
    last line. *)
Definition manifest_tail (a : args) (data : json) : trace :=
  [(EvMkdir (main_out_dir a), None);
   (EvWrite (path_join (main_out_dir a) "kas_sources.json") data, None);
   (EvPrint ("wrote " +:+ path_join (main_out_dir a) "kas_sources.json") None,
    None);
   (EvPrint "Done." None, None)].

(** ** Finding the dimensions of a table *)

(** [v.get(k)] for a [v] already known to be a dict. *)
Definition get_or_null (v : json) (k : string) : json :=
  match v with
  | JDict d => default JNull (assoc k d)
  | _ => JNull
  end.

(**
<<
def meta_find_var(meta, predicate):
    for v in meta_variables(meta):
        text = str(v.get("text", ""))
        code = str(v.get("code", ""))
        if predicate(text, code, v):
            return v
    return None
>>
    The predicates of the script are total on a text, a code and a dict. *)
Fixpoint find_var (predicate : string → string → json → bool)
    (vars : list json) : res (option json) :=
  match vars with
  | [] => Ret None
  | v :: rest =>
      t ← py_get v "text" (JStr "");
      text ← py_str t;
      c ← py_get v "code" (JStr "");
      code ← py_str c;
      if predicate text code v then Ret (Some v)
      else find_var predicate rest
  end.

Definition meta_find_var (meta : json)
    (predicate : string → string → json → bool) : res (option json) :=
  vars ← meta_variables meta;
  find_var predicate vars.

(**
<<
def meta_find_var_code(meta, predicate):
    v = meta_find_var(meta, predicate)
    return v.get("code") if v else None
>> *)
Definition meta_find_var_code (meta : json)
    (predicate : string → string → json → bool) : res json :=
  v ← meta_find_var meta predicate;
  match v with
  | Some v => if truthy v then py_get v "code" JNull else Ret JNull
  | None => Ret JNull
  end.

(** [x or dflt] *)
Definition py_or (x dflt : json) : json := if truthy x then x else dflt.

(** [lambda text, code, v: v.get("time") is True
      or ("year" in text.lower() and "month" in text.lower())] *)
Definition time_predicate (text code : string) (v : json) : bool :=
  is_True (get_or_null v "time")
  || str_infix "year" (lower text) && str_infix "month" (lower text).

(** [lambda text, code, v: "variable" in text.lower()
      or code.lower() in ("variabla", "variables")] *)
Definition variable_predicate (text code : string) (v : json) : bool :=
  str_infix "variable" (lower text)
  || bool_decide (lower code = "variabla")
  || bool_decide (lower code = "variables").

(** [lambda text, code, v: "mwh" in text.lower()
      or "indicator" in text.lower() or code.lower() == "mwh"] *)
Definition indicator_predicate (text code : string) (v : json) : bool :=
  str_infix "mwh" (lower text) || str_infix "indicator" (lower text)
  || bool_decide (lower code = "mwh").

(** The codes of the dimensions are [str]s (the signatures of
    [meta_value_map] and [meta_time_codes] say so); what the interpreter
    does with another value is not modelled. *)
Definition as_str (v : json) : res string :=
  match v with
  | JStr s => Ret s
  | _ => Raise (Unmodelled "a code that is not a str")
  end.

(** [text.lower()]: only a [str] has the method. *)
Definition text_lower (text : json) : res string :=
  match text with
  | JStr s => Ret (lower s)
  | _ => Raise AttributeError
  end.

(** A loop that takes the code of the first pair whose label passes a test
    and breaks:
<<
    for code, text in val_pairs:
        if test(text.lower()):
            imp_code = code
            break
>>
    [None] when no label passes. *)
Fixpoint first_code (test : string → bool) (val_pairs : list (json * json))
  : res (option json) :=
  match val_pairs with
  | [] => Ret None
  | (code, text) :: rest =>
      l ← text_lower text;
      if test l then Ret (Some code) else first_code test rest
  end.

(** One entry of the query of a POST. *)
Definition selection (code : json) (values : list json) : json :=
  JDict [("code", code);
         ("selection",
          JDict [("filter", JStr "item"); ("values", JList values)])].

(** [PATHS]; the last letter of [mujorë] is U+00EB. *)
Definition PATHS (key : string) : list string :=
  let monthly := "Treguesit mujor" +:+ String (chr 235) "" in
  if decide (key = "trade_monthly") then
    ["ASKdata"; "External trade"; "Monthly indicators"; "08_qarkullimi.px"]
  else if decide (key = "energy_monthly") then
    ["ASKdata"; "Energy"; "Monthly indicators"; "tab01.px"]
  else if decide (key = "imports_by_partner") then
    ["ASKdata"; "External trade"; "Monthly indicators"; "07_imp_country.px"]
  else if decide (key = "fuel_gasoline") then
    ["ASKdata"; "Energy"; "Monthly indicators"; "tab03.px"]
  else if decide (key = "fuel_diesel") then
    ["ASKdata"; "Energy"; "Monthly indicators"; "tab04.px"]
  else if decide (key = "fuel_lng") then
    ["ASKdata"; "Energy"; "Monthly indicators"; "tab05.px"]
  else if decide (key = "fuel_jet") then
    ["ASKdata"; "Energy"; "Monthly indicators"; "tab06.px"]
  else if decide (key = "tourism_region") then
    ["ASKdata"; "Tourism and hotels"; monthly; "tab01.px"]
  else if decide (key = "tourism_country") then
    ["ASKdata"; "Tourism and hotels"; monthly; "tab02.px"]
  else [].

(** ** fetch_trade_monthly *)

(** What the fetcher works out from the metadata before it posts. *)
Record trade_query := {
  tq_dim_time : json;
  tq_dim_var : json;
  tq_imp_code : json;
  tq_pick : list json;
}.

(**
<<
    imp_code = None
    for code, text in val_pairs:
        if "imports" in text.lower() and "cif" in text.lower():
            imp_code = code
            break
    if not imp_code:
        # fallback: any 'import'
        for code, text in val_pairs:
            if "import" in text.lower():
                imp_code = code
                break
    if not imp_code:
        # last resort guess typical code '3'
        imp_code = "3"
>> *)
Definition trade_import_code (val_pairs : list (json * json)) : res json :=
  c1 ← first_code (λ l, str_infix "imports" l && str_infix "cif" l) val_pairs;
  let imp_code := default JNull c1 in
  imp_code ←
    (if truthy imp_code then Ret imp_code
     else c2 ← first_code (str_infix "import") val_pairs;
          Ret (default imp_code c2));
  Ret (if truthy imp_code then imp_code else JStr "3").

(** The part of [fetch_trade_monthly] between the GET and the POST:
<<
    dim_time = meta_find_var_code(meta, ...) or "Viti/muaji"
    dim_var = meta_find_var_code(meta, ...) or "Variabla"
    if not dim_time or not dim_var:
        raise PxError("Trade table: missing Year/month or Variables dimension")
    val_pairs = meta_value_map(meta, dim_var)
    ...
    all_months = meta_time_codes(meta, dim_time) or []
    pick = all_months[-months:] if months else all_months
>> *)
Definition trade_query_of (meta : json) (months : option Z)
  : res trade_query :=
  c ← meta_find_var_code meta time_predicate;
  let dim_time := py_or c (JStr "Viti/muaji") in
  c ← meta_find_var_code meta variable_predicate;
  let dim_var := py_or c (JStr "Variabla") in
  if negb (truthy dim_time) || negb (truthy dim_var) then
    Raise (PxError "Trade table: missing Year/month or Variables dimension")
  else
    var_code ← as_str dim_var;
    val_pairs ← meta_value_map meta var_code;
    imp_code ← trade_import_code val_pairs;
    time_code ← as_str dim_time;
    all_months ← meta_time_codes meta time_code;
    Ret {| tq_dim_time := dim_time; tq_dim_var := dim_var;
           tq_imp_code := imp_code;
           tq_pick := select_months all_months months |}.

(** The body of the POST. *)
Definition trade_body (q : trade_query) : list (string * json) :=
  [("query",
    JList [selection (tq_dim_var q) [tq_imp_code q];
           selection (tq_dim_time q) (tq_pick q)])].

(** The series made of the answer; the codes are [str]s here. *)
Definition trade_series_of (q : trade_query) (data : json)
  : res (list json) :=
  dim_time ← as_str (tq_dim_time q);
  dim_var ← as_str (tq_dim_var q);
  imp_code ← as_str (tq_imp_code q);
  pick ← map_res as_str (tq_pick q);
  trade_series data dim_time dim_var imp_code pick.

(**
<<
def fetch_trade_monthly(out_dir: Path, months: Optional[int]):
    parts = PATHS["trade_monthly"]
    meta = px_get_meta(parts)
    ...
    data = px_post_data(parts, body)
    ...
    write_json(out_dir, "kas_imports_monthly.json", series)
    return {"periods": len(series)}
>> *)
Definition fetch_trade_monthly (out_dir : string) (months : option Z)
  : M (list (string * json)) :=
  (let parts := PATHS "trade_monthly" in
   meta ← px_get_meta parts "en";
   q ← liftM (trade_query_of meta months);
   data ← px_post_data parts (trade_body q) "en";
   series ← liftM (trade_series_of q data);
   _ ← write_json out_dir "kas_imports_monthly.json" (JList series);
   retM [("periods", JInt (Z.of_nat (length series)))])%io.


(** A world that answers every GET with [example_meta] and every POST with
    [example_value_answer], and whose disk works. *)
Definition answering_env : env :=
  {| http := λ _ ev,
       match ev with
       | EvGet _ =>
           Ret {| status_code := 200; reason := "OK"; text := "";
                  json_of := Ret example_meta |}
       | _ =>
           Ret {| status_code := 200; reason := "OK"; text := "";
                  json_of := Ret example_value_answer |}
       end;
     disk := λ _ _, Ret tt;
     fetcher := λ _ _, Ret [];
     clock := "2026-01-01T00:00:00Z" |}.
(** * Theorems *)

(** ** Strides *)

Lemma length_suffix_products sizes :
  length (suffix_products sizes) = length sizes.
Proof. induction sizes; simpl; congruence. Qed.

Lemma lookup_suffix_products sizes (j : nat) :
  (j < length sizes)%nat →
  suffix_products sizes !! j = Some (product (drop (S j) sizes)).
Proof.
  revert j. induction sizes as [|z zs IH]; intros j Hj; simpl in *; [lia|].
  destruct j as [|j]; simpl.
  - by rewrite drop_0.
  - apply IH. lia.
Qed.

Lemma product_drop sizes (i : nat) z :
  sizes !! i = Some z →
  product (drop i sizes) = z * product (drop (S i) sizes).
Proof.
  revert i. induction sizes as [|y ys IH]; intros [|i] H; simplify_eq/=; auto.
Qed.

Lemma strides_loop_spec sizes (k : nat) strides :
  length strides = length sizes →
  (k < length sizes)%nat →
  (∀ j : nat, (k ≤ j < length sizes)%nat →
     strides !! j = Some (product (drop (S j) sizes))) →
  strides_loop sizes k strides = Ret (suffix_products sizes).
Proof.
  revert strides. induction k as [|i IH]; intros strides Hlen Hk Hinv;
    cbn [strides_loop].
  - f_equal. apply list_eq. intros j.
    destruct (decide (j < length sizes)%nat) as [Hj|Hj].
    + rewrite lookup_suffix_products by done. apply Hinv. lia.
    + rewrite !lookup_ge_None_2; [done| |]; rewrite ?length_suffix_products; lia.
  - destruct (lookup_lt_is_Some_2 sizes (S i) Hk) as [b Hb].
    unfold py_getitem, py_setitem.
    rewrite (Hinv (S i)), Hb by lia. simpl.
    rewrite decide_True by lia. simpl.
    apply IH.
    + by rewrite length_insert.
    + lia.
    + intros j Hj. destruct (decide (i = j)) as [->|Hne].
      * rewrite list_lookup_insert_eq by lia. f_equal.
        rewrite (product_drop sizes (S j) b Hb). lia.
      * rewrite list_lookup_insert_ne by done. apply Hinv. lia.
Qed.

Lemma compute_strides_eq sizes :
  compute_strides sizes = Ret (suffix_products sizes).
Proof.
  unfold compute_strides. destruct sizes as [|z zs]; [done|].
  apply strides_loop_spec.
  - by rewrite length_replicate.
  - simpl. lia.
  - intros j Hj. simpl in Hj.
    assert (j = length zs) as -> by lia.
    rewrite lookup_replicate_2 by (simpl; lia).
    simpl. by rewrite drop_all.
Qed.

Lemma foldl_add_acc (acc : Z) l : foldl Z.add acc l = acc + foldl Z.add 0 l.
Proof.
  revert acc. induction l as [|x l IH]; intros acc; simpl; [lia|].
  rewrite (IH (acc + x)), (IH (0 + x)). lia.
Qed.

Lemma pos_cons s strides c coords :
  pos (s :: strides) (c :: coords) = c * s + pos strides coords.
Proof. unfold pos. simpl. by rewrite foldl_add_acc. Qed.

Lemma row_major_acc (acc : Z) sizes coords :
  length coords = length sizes →
  foldl (λ a cz, a * cz.2 + cz.1) acc (zip coords sizes)
  = acc * product sizes + row_major_index sizes coords.
Proof.
  unfold row_major_index.
  revert acc coords. induction sizes as [|z zs IH]; intros acc [|c cs] H;
    simplify_eq/=; [lia|].
  rewrite (IH (acc * z + c)), (IH (0 * z + c)) by done. lia.
Qed.

Lemma row_major_cons z sizes c coords :
  length coords = length sizes →
  row_major_index (z :: sizes) (c :: coords)
  = c * product sizes + row_major_index sizes coords.
Proof.
  intros H. unfold row_major_index at 1. simpl.
  rewrite row_major_acc by done. lia.
Qed.

Lemma pos_row_major sizes coords :
  Forall2 (λ c z, 0 ≤ c < z) coords sizes →
  pos (suffix_products sizes) coords = row_major_index sizes coords
  ∧ 0 ≤ row_major_index sizes coords < product sizes.
Proof.
  induction 1 as [|c z cs zs Hc Hall [IH1 IH2]].
  - split; [done|]. unfold row_major_index, product. simpl. lia.
  - simpl suffix_products. rewrite pos_cons, IH1.
    rewrite row_major_cons by (by eapply Forall2_length).
    split; [done|]. change (product (z :: zs)) with (z * product zs). nia.
Qed.

(** C2.  The loop computes [strides[n-1] = 1] and
    [strides[i] = strides[i+1] * size[i+1]], that is, [strides[i]] is the
    product of [size[i+1..n-1]]; and for coordinates within the sizes,
    [pos(coords)] is the row-major index of the cell and is an index into the
    flattened array, which has the product of all sizes as its length. *)
Theorem compute_strides_row_major (sizes coords : list Z) :
  Forall2 (λ c z, 0 ≤ c < z) coords sizes →
  ∃ strides,
    compute_strides sizes = Ret strides
    ∧ length strides = length sizes
    ∧ (∀ i : nat, S i = length sizes → strides !! i = Some 1)
    ∧ (∀ i : nat, (S i < length sizes)%nat →
         ∃ s z, strides !! S i = Some s ∧ sizes !! S i = Some z
                ∧ strides !! i = Some (s * z))
    ∧ (∀ i : nat, (i < length sizes)%nat →
         strides !! i = Some (product (drop (S i) sizes)))
    ∧ pos strides coords = row_major_index sizes coords
    ∧ 0 ≤ pos strides coords < product sizes.
Proof.
  intros Hb. exists (suffix_products sizes).
  destruct (pos_row_major sizes coords Hb) as [Hpos Hlt].
  split; [apply compute_strides_eq|].
  split; [apply length_suffix_products|].
  split; [|split; [|split; [|split]]].
  - intros i Hi. rewrite lookup_suffix_products by lia.
    rewrite drop_ge by lia. done.
  - intros i Hi.
    destruct (lookup_lt_is_Some_2 sizes (S i) Hi) as [z Hz].
    exists (product (drop (S (S i)) sizes)), z.
    rewrite !lookup_suffix_products by lia.
    split; [done|]. split; [done|]. f_equal.
    rewrite (product_drop sizes (S i) z Hz). lia.
  - intros i Hi. by apply lookup_suffix_products.
  - done.
  - by rewrite Hpos.
Qed.

Lemma compute_strides_row_major_witness :
  ∃ strides,
    compute_strides [2; 3; 4] = Ret strides
    ∧ length strides = length [2; 3; 4]
    ∧ (∀ i : nat, S i = length [2; 3; 4] → strides !! i = Some 1)
    ∧ (∀ i : nat, (S i < length [2; 3; 4])%nat →
         ∃ s z, strides !! S i = Some s ∧ [2; 3; 4] !! S i = Some z
                ∧ strides !! i = Some (s * z))
    ∧ (∀ i : nat, (i < length [2; 3; 4])%nat →
         strides !! i = Some (product (drop (S i) [2; 3; 4])))
    ∧ pos strides [1; 2; 3] = row_major_index [2; 3; 4] [1; 2; 3]
    ∧ 0 ≤ pos strides [1; 2; 3] < product [2; 3; 4].
Proof.
  apply (compute_strides_row_major [2; 3; 4] [1; 2; 3]).
  repeat constructor; lia.
Defined.

Example strides_234 : compute_strides [2; 3; 4] = Ret [12; 4; 1].
Proof. reflexivity. Qed.

Example pos_234 : pos [12; 4; 1] [1; 2; 3] = 23.
Proof. reflexivity. Qed.

(** ** Strings *)

Example normalize_ym_M8 : normalize_ym "2025M8" = "2025-08".
Proof. reflexivity. Qed.

Example normalize_ym_six : normalize_ym "202508" = "2025-08".
Proof. reflexivity. Qed.

Example normalize_ym_iso : normalize_ym "2025-08" = "2025-08".
Proof. reflexivity. Qed.

Example normalize_ym_year : normalize_ym "2025" = "2025".
Proof. reflexivity. Qed.

Example zfill_sign : zfill 2 "-" = "-0".
Proof. reflexivity. Qed.

Example strip_ex : strip (String nbsp " 1 2	 ") = "1 2".
Proof. reflexivity. Qed.

Lemma append_cons a s t : String a s +:+ t = String a (s +:+ t).
Proof. reflexivity. Qed.

Lemma append_nil s : "" +:+ s = s.
Proof. reflexivity. Qed.

Lemma str_contains_all (p : ascii → bool) c s :
  p c = false → str_all p s = true → str_contains c s = false.
Proof.
  intros Hc. induction s as [|a s IH]; simpl; [done|].
  intros [Ha Hs]%andb_prop. case_decide; [congruence|auto].
Qed.

Lemma isdigit_all s : isdigit s = true → str_all is_digit_char s = true.
Proof. by destruct s. Qed.

Lemma split_once_None c s : str_contains c s = false → split_once c s = None.
Proof.
  induction s as [|a s IH]; simpl; [done|].
  case_decide; [done|]. intros Hs. by rewrite IH.
Qed.

Lemma split_once_first c y m :
  str_contains c y = false → split_once c (y +:+ String c m) = Some (y, m).
Proof.
  induction y as [|a y IH]; simpl.
  - intros _. by rewrite decide_True.
  - case_decide; [done|]. intros Hs. by rewrite IH.
Qed.

Lemma isdigit_no_M s : isdigit s = true → str_contains "M" s = false.
Proof.
  intros H. by apply (str_contains_all is_digit_char), isdigit_all.
Qed.

Lemma isdigit_append y m :
  isdigit (y +:+ m) = true → m ≠ "" → isdigit m = true.
Proof.
  intros H Hm. apply isdigit_all in H.
  induction y as [|a y IH].
  - rewrite append_nil in H. by destruct m.
  - rewrite append_cons in H. simpl in H. apply andb_prop in H as [_ H]. auto.
Qed.

(** A part that does not begin with a sign is padded on its left. *)
Lemma zfill_unsigned width c s :
  c ≠ "+"%char → c ≠ "-"%char →
  zfill width (String c s)
  = str_repeat "0" (width - len (String c s)) +:+ String c s.
Proof.
  intros Hp Hm. unfold zfill. case_decide as Hw.
  - replace (width - len (String c s))%nat with 0%nat by lia. done.
  - rewrite decide_False; [done|]. intros [?|?]; congruence.
Qed.

(** C8.  A six-character all-digit code becomes its first four characters, a
    hyphen and its last two; a code that contains ['M'] becomes the part
    before the first ['M'], a hyphen and the part after it filled with zeros
    to two characters; a code without ['M'] that is not six digits, a
    seven-character one with a hyphen in fifth place among them, is returned
    as it is.  So the codes ['YYYYMM'], ['YYYYM'] followed by one or two
    digits, and ['YYYY-MM'] all come out in the form ['YYYY-MM']. *)
Theorem normalize_ym_shapes (code : string) :
  (isdigit code = true → len code = 6%nat →
     normalize_ym code = str_take 4 code +:+ "-" +:+ str_drop 4 code
     ∧ is_yyyy_mm (normalize_ym code))
  ∧ (∀ y m, code = y +:+ "M" +:+ m → str_contains "M" y = false →
       normalize_ym code = y +:+ "-" +:+ zfill 2 m
       ∧ (len y = 4%nat → isdigit y = true → isdigit m = true →
          (len m ≤ 2)%nat → is_yyyy_mm (normalize_ym code)))
  ∧ (len code = 7%nat → String.get 4 code = Some "-"%char →
       str_contains "M" code = false → normalize_ym code = code)
  ∧ (¬ (isdigit code = true ∧ len code = 6%nat) →
       str_contains "M" code = false → normalize_ym code = code)
  ∧ (is_yyyy_mm code → normalize_ym code = code).
Proof.
  assert (Hother : ¬ (isdigit code = true ∧ len code = 6%nat) →
                   str_contains "M" code = false → normalize_ym code = code).
  { intros Hnot HM. unfold normalize_ym.
    destruct (isdigit code) eqn:Hd; simpl.
    - rewrite bool_decide_eq_false_2 by tauto.
      rewrite split_once_None by done. by case_match.
    - rewrite split_once_None by done. by case_match. }
  split; [|split; [|split; [|split]]].
  - intros Hd Hlen. unfold normalize_ym.
    rewrite Hd, bool_decide_eq_true_2 by done. simpl andb. cbv iota.
    destruct code as [|a [|b [|c [|d [|e [|f [|g rest]]]]]]]; try discriminate.
    split; [reflexivity|].
    simpl in Hd. repeat (apply andb_prop in Hd as [? Hd]).
    exists (String a (String b (String c (String d "")))).
    exists (String e (String f "")).
    repeat split; simpl; auto with bool.
    all: repeat (apply andb_true_intro; split); done.
  - intros y m -> Hy.
    assert (Hn : normalize_ym (y +:+ "M" +:+ m) = y +:+ "-" +:+ zfill 2 m).
    { unfold normalize_ym.
      destruct (isdigit (y +:+ "M" +:+ m)) eqn:Hd.
      - apply isdigit_append in Hd; [|done]. discriminate.
      - simpl. change ("M" +:+ m) with (String "M" m).
        by rewrite split_once_first. }
    split; [done|]. intros Hly Hdy Hdm Hlm. rewrite Hn.
    assert (Hz : len (zfill 2 m) = 2%nat ∧ isdigit (zfill 2 m) = true).
    { destruct m as [|a [|b [|c m]]]; try done; [|simpl in Hlm; lia].
      assert (a ≠ "+"%char ∧ a ≠ "-"%char) as [? ?].
      { simpl in Hdm. split; intros ->; done. }
      rewrite zfill_unsigned by done. simpl in *. by rewrite Hdm. }
    exists y, (zfill 2 m). by destruct Hz.
  - intros Hlen _ HM. apply Hother; [|done]. intros [_ ?]. lia.
  - done.
  - intros (y & m & -> & Hly & Hdy & Hlm & Hdm). apply Hother.
    + intros [_ Hlen].
      destruct y as [|a [|b [|c [|d [|e y]]]]]; try done.
      destruct m as [|f [|g [|h m]]]; done.
    + destruct y as [|a [|b [|c [|d [|e y]]]]]; try done.
      destruct m as [|f [|g [|h m]]]; try done.
      simpl in Hdy, Hdm.
      repeat (apply andb_prop in Hdy as [? Hdy]).
      repeat (apply andb_prop in Hdm as [? Hdm]).
      rewrite !append_cons, append_nil. simpl.
      repeat (case_decide; [subst; done|]). done.
Qed.

(** ** lookup_table_value *)

Lemma py_index_Ret l x (i : nat) :
  py_index l x = Ret i → l !! i = Some x ∧ (i < length l)%nat.
Proof.
  unfold py_index. destruct (list_find _ l) as [[j y]|] eqn:Hf; [|done].
  intros [= ->]. apply list_find_Some in Hf as (Hl & -> & _).
  split; [done|]. by eapply lookup_lt_Some.
Qed.

Lemma py_index_elem l x : x ∈ l → ∃ i : nat, py_index l x = Ret i.
Proof.
  intros Hx. unfold py_index.
  destruct (list_find (λ y, y = x) l) as [[j y]|] eqn:Hf; [by eexists|].
  apply list_find_None in Hf. rewrite Forall_forall in Hf.
  by destruct (Hf x Hx).
Qed.

Lemma py_index_not_elem l x : x ∉ l → py_index l x = Raise ValueError.
Proof.
  intros Hx. unfold py_index.
  destruct (list_find (λ y, y = x) l) as [[j y]|] eqn:Hf; [|done].
  apply list_find_Some in Hf as (Hl & -> & _).
  destruct Hx. by eapply list_elem_of_lookup_2.
Qed.

Lemma py_index_cases l x :
  (∃ i : nat, py_index l x = Ret i ∧ x ∈ l)
  ∨ (py_index l x = Raise ValueError ∧ x ∉ l).
Proof.
  destruct (decide (x ∈ l)) as [Hx|Hx].
  - left. destruct (py_index_elem l x Hx) as [i Hi]. eauto.
  - right. split; [by apply py_index_not_elem|done].
Qed.

(** The loop never raises; it returns early exactly when some assignment
    names a dimension that is not in [dim_codes]; otherwise the key it leaves
    holds, at each position, what the assignments of that position gave. *)
Lemma fill_key_spec dim_codes seen items key :
  NoDup (seen ++ items).*1 →
  length key = length dim_codes →
  (∀ (i : nat) s, key !! i = Some (Some s) ↔
     ∃ k, (k, s) ∈ seen ∧ py_index dim_codes k = Ret i) →
  (fill_key dim_codes items key = Ret None
   ∧ ∃ k, k ∈ items.*1 ∧ k ∉ dim_codes)
  ∨ (∃ key', fill_key dim_codes items key = Ret (Some key')
     ∧ length key' = length dim_codes
     ∧ (∀ k, k ∈ items.*1 → k ∈ dim_codes)
     ∧ ∀ (i : nat) s, key' !! i = Some (Some s) ↔
         ∃ k, (k, s) ∈ seen ++ items ∧ py_index dim_codes k = Ret i).
Proof.
  revert seen key. induction items as [|[k v] items IH];
    intros seen key Hnd Hlen Hinv.
  - right. exists key. rewrite app_nil_r. split_and!; try done.
    intros k Hk. by apply elem_of_nil in Hk.
  - cbn [fill_key].
    destruct (py_index_cases dim_codes k) as [(idx & Hidx & Hin)|[Hidx Hnin]];
      rewrite Hidx; [|left; split; [done|]; exists k; split; [|done];
                      rewrite fmap_cons; apply list_elem_of_here].
    destruct (py_index_Ret _ _ _ Hidx) as [Hk Hlt].
    unfold py_setitem. rewrite decide_True by lia. cbn [bind].
    destruct (IH (seen ++ [(k, v)]) (<[idx:=Some v]> key)) as
      [[Hr (k' & Hk' & Hnk')]|(key' & Hr & Hlen' & Hall & Hinv')].
    + by rewrite <- app_assoc.
    + by rewrite length_insert.
    + intros i s. destruct (decide (idx = i)) as [<-|Hne].
      * rewrite list_lookup_insert_eq by lia. split.
        -- intros [= <-]. exists k. split; [|done].
           apply elem_of_app. right. by apply list_elem_of_singleton.
        -- intros (k2 & Hk2 & Hi2).
           destruct (py_index_Ret _ _ _ Hi2) as [Hk2' _].
           assert (k2 = k) as -> by congruence.
           do 2 f_equal.
           apply elem_of_app in Hk2 as [Hd|Hd%list_elem_of_singleton];
             [|congruence].
           rewrite fmap_app in Hnd. apply NoDup_app in Hnd as (_ & Hdisj & _).
           destruct (Hdisj k).
           ++ apply list_elem_of_fmap. by exists (k, s).
           ++ rewrite fmap_cons. apply list_elem_of_here.
      * rewrite list_lookup_insert_ne by done. rewrite Hinv. split.
        -- intros (k2 & Hk2 & Hi2). exists k2. split; [|done].
           apply elem_of_app. by left.
        -- intros (k2 & Hk2 & Hi2). exists k2. split; [|done].
           apply elem_of_app in Hk2 as [Hd|Hd%list_elem_of_singleton];
             [done|]. congruence.
    + left. split; [done|]. exists k'. split; [|done].
      rewrite fmap_cons. by apply list_elem_of_further.
    + right. exists key'. split_and!; try done.
      * intros k2. rewrite fmap_cons. intros [->|?]%elem_of_cons; auto.
      * intros i s. rewrite Hinv'. by rewrite <- app_assoc.
Qed.

Lemma key_tuple_full (key : list (option string)) :
  existsb (λ v, bool_decide (v = None)) key = false →
  key = Some <$> key_tuple key.
Proof.
  induction key as [|[s|] key IH]; simpl; [done| |done].
  intros H. unfold key_tuple in *. simpl. f_equal. auto.
Qed.

Lemma key_has_None (key : list (option string)) :
  existsb (λ v, bool_decide (v = None)) key = true →
  ∃ i : nat, key !! i = Some None.
Proof.
  induction key as [|[s|] key IH]; simpl; [done| |by exists 0%nat].
  intros H. destruct (IH H) as [i Hi]. by exists (S i).
Qed.

(** C9.  For the items of any assignments map, [lookup_table_value] returns
    and does not raise.  It returns [None] when an assignment names a
    dimension that is not in [dim_codes], when some position of [dim_codes]
    is not covered by an assignment, and when the assembled tuple is not a
    key of [lookup]; what it returns otherwise is the value stored under the
    assembled tuple, which may be [None], and a result other than [None] is
    stored under a tuple in which every position was filled by an
    assignment. *)
Theorem lookup_table_value_total (dim_codes : list string)
    (lookup : gmap (list string) (option float))
    (assignments : list (string * string)) :
  NoDup assignments.*1 →
  ∃ r, lookup_table_value dim_codes lookup assignments = Ret r
    ∧ ((∃ k, k ∈ assignments.*1 ∧ k ∉ dim_codes) → r = None)
    ∧ ((∃ i : nat, (i < length dim_codes)%nat
          ∧ ∀ k, k ∈ assignments.*1 → py_index dim_codes k ≠ Ret i) →
       r = None)
    ∧ (∀ ks, is_assembled_key dim_codes assignments ks →
         r = default None (lookup !! ks))
    ∧ (r ≠ None →
       ∃ ks, is_assembled_key dim_codes assignments ks
             ∧ lookup !! ks = Some r).
Proof.
  intros Hnd. unfold lookup_table_value.
  destruct (fill_key_spec dim_codes [] assignments
              (replicate (length dim_codes) None)) as
    [[Hr (k & Hk & Hnk)]|(key & Hr & Hlen & Hall & Hinv)].
  - done.
  - by rewrite length_replicate.
  - intros i s. split.
    + intros [[=] _]%lookup_replicate_1.
    + intros (k & Hk & _). by apply elem_of_nil in Hk.
  - rewrite Hr. exists None. split_and!; try done.
    intros ks (_ & Hks & _). destruct Hnk. auto.
  - rewrite Hr. cbn [bind]. rewrite app_nil_l in Hinv.
    destruct (existsb _ key) eqn:Hany.
    + exists None. split_and!; try done.
      intros ks (Hl & _ & Hks).
      destruct (key_has_None key Hany) as [i Hi].
      assert (i < length ks)%nat as Hlt.
      { rewrite Hl, <- Hlen. by eapply lookup_lt_Some. }
      destruct (lookup_lt_is_Some_2 ks i Hlt) as [s Hs].
      apply Hks, Hinv in Hs. congruence.
    + pose proof (key_tuple_full key Hany) as Hkey.
      set (ks := key_tuple key) in *.
      assert (Hks : is_assembled_key dim_codes assignments ks).
      { split_and!; [|done|].
        - rewrite <- Hlen, Hkey. by rewrite length_fmap.
        - intros i s. rewrite <- Hinv, Hkey, list_lookup_fmap.
          destruct (ks !! i); simpl; split; congruence. }
      exists (default None (lookup !! ks)). split_and!; [done| | | |].
      * intros (k & Hk & Hnk). destruct Hnk. auto.
      * intros (i & Hi & Hnone).
        destruct (lookup_lt_is_Some_2 ks i) as [s Hs].
        { destruct Hks as [-> _]. done. }
        apply Hks in Hs as (k & Hk & Hidx). destruct (Hnone k); [|done].
        apply list_elem_of_fmap. by exists (k, s).
      * intros ks' Hks'. do 2 f_equal. apply list_eq. intros i.
        apply option_eq. intros s.
        destruct Hks as (_ & _ & ->), Hks' as (_ & _ & ->). done.
      * intros Hne. exists ks. split; [done|].
        destruct (lookup !! ks); [done|]. by destruct Hne.
Qed.

Lemma lookup_table_value_total_witness :
  ∃ r, lookup_table_value ["Viti/muaji"; "Variabla"]
         {[ ["2025M08"; "3"] := Some (S754_zero false) ]}
         [("Viti/muaji", "2025M08"); ("Variabla", "3")] = Ret r
    ∧ ((∃ k, k ∈ [("Viti/muaji", "2025M08"); ("Variabla", "3")].*1
             ∧ k ∉ ["Viti/muaji"; "Variabla"]) → r = None)
    ∧ ((∃ i : nat, (i < length ["Viti/muaji"; "Variabla"])%nat
          ∧ ∀ k, k ∈ [("Viti/muaji", "2025M08"); ("Variabla", "3")].*1 →
                 py_index ["Viti/muaji"; "Variabla"] k ≠ Ret i) →
       r = None)
    ∧ (∀ ks, is_assembled_key ["Viti/muaji"; "Variabla"]
               [("Viti/muaji", "2025M08"); ("Variabla", "3")] ks →
         r = default None
               (({[ ["2025M08"; "3"] := Some (S754_zero false) ]}
                  : gmap (list string) (option float)) !! ks))
    ∧ (r ≠ None →
       ∃ ks, is_assembled_key ["Viti/muaji"; "Variabla"]
               [("Viti/muaji", "2025M08"); ("Variabla", "3")] ks
             ∧ ({[ ["2025M08"; "3"] := Some (S754_zero false) ]}
                  : gmap (list string) (option float)) !! ks = Some r).
Proof.
  apply (lookup_table_value_total ["Viti/muaji"; "Variabla"]
           {[ ["2025M08"; "3"] := Some (S754_zero false) ]}
           [("Viti/muaji", "2025M08"); ("Variabla", "3")]).
  apply (bool_decide_unpack _). vm_compute. exact I.
Defined.

Example lookup_table_value_hit :
  lookup_table_value ["Viti/muaji"; "Variabla"]
    {[ ["2025M08"; "3"] := Some (S754_zero false) ]}
    [("Viti/muaji", "2025M08"); ("Variabla", "3")]
  = Ret (Some (S754_zero false)).
Proof. reflexivity. Qed.

Example lookup_table_value_uncovered :
  lookup_table_value ["Viti/muaji"; "Variabla"]
    {[ ["2025M08"; "3"] := Some (S754_zero false) ]}
    [("Viti/muaji", "2025M08")]
  = Ret None.
Proof. reflexivity. Qed.

Example lookup_table_value_unknown :
  lookup_table_value ["Viti/muaji"; "Variabla"]
    {[ ["2025M08"; "3"] := Some (S754_zero false) ]}
    [("Viti/muaji", "2025M08"); ("Variabla", "3"); ("Unit", "1")]
  = Ret None.
Proof. reflexivity. Qed.

(** ** Metadata *)

Lemma next_with_code_none code vars :
  Forall (lacks_code code) vars → next_with_code code vars = Ret None.
Proof.
  induction 1 as [|x vars (d & -> & Hd) _ IH]; [done|].
  cbn [next_with_code py_get bind].
  destruct (assoc "code" d) as [c|] eqn:Hc; simpl; [|done].
  destruct c; simpl; try done.
  rewrite bool_decide_eq_false_2; [done|]. congruence.
Qed.

Lemma next_with_code_first code pre d post :
  Forall (lacks_code code) pre →
  assoc "code" d = Some (JStr code) →
  next_with_code code (pre ++ JDict d :: post) = Ret (Some (JDict d)).
Proof.
  intros Hpre Hd. induction Hpre as [|x pre (d' & -> & Hd') _ IH].
  - cbn [app next_with_code py_get bind]. rewrite Hd. simpl.
    by rewrite bool_decide_eq_true_2.
  - cbn [app next_with_code py_get bind].
    fold (pre ++ JDict d :: post).
    destruct (assoc "code" d') as [c|] eqn:Hc; simpl; [|done].
    destruct c; simpl; try done.
    rewrite bool_decide_eq_false_2; [done|]. congruence.
Qed.

Lemma meta_time_codes_found meta time_code pre d post vals :
  meta_variables meta = Ret (pre ++ JDict d :: post) →
  Forall (lacks_code time_code) pre →
  assoc "code" d = Some (JStr time_code) →
  default (JList []) (assoc "values" d) = JList vals →
  meta_time_codes meta time_code
  = Ret (if is_True (default JNull (assoc "time" d)) then reverse vals
         else vals).
Proof.
  intros Hvars Hpre Hcode Hvals. unfold meta_time_codes. rewrite Hvars.
  cbn [bind]. rewrite next_with_code_first by done.
  destruct d as [|kv d']; [done|]. set (d := kv :: d') in *.
  cbn [bind truthy negb py_get]. rewrite Hvals.
  rewrite bool_decide_eq_false_2 by done.
  cbn [negb py_iter bind]. by destruct (is_True _).
Qed.

Lemma StronglySorted_reverse {A} (R : relation A) (l : list A) :
  StronglySorted (flip R) l → StronglySorted R (reverse l).
Proof.
  induction 1 as [|x l Hs IH Hx]; [constructor|].
  rewrite reverse_cons. apply StronglySorted_app_2; [|done|by repeat constructor].
  intros y z Hy ->%list_elem_of_singleton.
  rewrite Forall_forall in Hx. apply Hx. by apply elem_of_reverse.
Qed.

(** C10.  When no variable of the metadata has the code, the result is the
    empty list.  Otherwise the first variable with the code decides: its
    ['values'] come back reversed when its ['time'] is [true], and in their
    own order when it is anything else or absent.  So the result runs from
    old to new for a time-flagged variable exactly when its values are
    listed from new to old. *)
Theorem meta_time_codes_order (meta : json) (time_code : string)
    (vars : list json) :
  meta_variables meta = Ret vars →
  (Forall (lacks_code time_code) vars →
   meta_time_codes meta time_code = Ret [])
  ∧ (∀ pre d post vals,
       vars = pre ++ JDict d :: post →
       Forall (lacks_code time_code) pre →
       assoc "code" d = Some (JStr time_code) →
       default (JList []) (assoc "values" d) = JList vals →
       (assoc "time" d = Some (JBool true) →
        meta_time_codes meta time_code = Ret (reverse vals)
        ∧ ∀ R : relation json,
            StronglySorted (flip R) vals →
            StronglySorted R (reverse vals))
       ∧ (assoc "time" d ≠ Some (JBool true) →
          meta_time_codes meta time_code = Ret vals)).
Proof.
  intros Hvars. split.
  - intros Hall. unfold meta_time_codes. rewrite Hvars.
    cbn [bind]. by rewrite next_with_code_none.
  - intros pre d post vals -> Hpre Hcode Hvals.
    rewrite (meta_time_codes_found meta time_code pre d post vals) by done.
    split.
    + intros ->. split; [done|]. intros R. apply StronglySorted_reverse.
    + intros Ht. destruct (assoc "time" d) as [[| [] | | | | |]|]; done.
Qed.

(** ** The error monad *)

Lemma bind_Ret {A B} (m : res A) (f : A → res B) b :
  bind m f = Ret b → ∃ a, m = Ret a ∧ f a = Ret b.
Proof. destruct m as [a|e]; [eauto|done]. Qed.

Lemma map_res_Ret {A B} (f : A → res B) l ys :
  map_res f l = Ret ys → Forall2 (λ x y, f x = Ret y) l ys.
Proof.
  revert ys. induction l as [|x l IH]; intros ys; cbn [map_res].
  - intros [= <-]. constructor.
  - intros (y & Hy & (ys' & Hys & [= <-])%bind_Ret)%bind_Ret.
    constructor; auto.
Qed.

Lemma map_res_all {A B} (f : A → res B) l :
  (∀ x, x ∈ l → returns (f x)) → returns (map_res f l).
Proof.
  induction l as [|x l IH]; intros Hall; cbn [map_res]; [by eexists|].
  destruct (Hall x) as [y ->]; [apply list_elem_of_here|].
  destruct IH as [ys ->].
  { intros z Hz. apply Hall. by apply list_elem_of_further. }
  by eexists.
Qed.

(** ** Numbers *)

Lemma tidy_number_returns value : ∃ v, tidy_number value = Ret v ∧ is_tidy v.
Proof.
  destruct value as [f|]; [|exists JNull; split; [done|by left]].
  unfold tidy_number. destruct (is_integer f) eqn:Hi.
  - destruct f; try done; eexists; (split; [reflexivity|]); right; left; eauto.
  - exists (JFloat f). split; [done|]. right. right. eauto.
Qed.

(** ** The monthly imports series *)

(** C7.  When the series is produced, it has one record for each selected
    time code, in the order of the codes; the record of a code has the two
    fields ['period'] and ['imports_th_eur'] and no other; the first is the
    normalized code and the second is what [tidy_number] returns: [None], an
    [int], or a [float] that is not integer-valued. *)
Theorem trade_series_records (data : json)
    (dim_time dim_var imp_code : string) (pick : list string)
    (series : list json) :
  trade_series data dim_time dim_var imp_code pick = Ret series →
  length series = length pick
  ∧ ∀ (i : nat) code, pick !! i = Some code →
      ∃ v, series !! i
           = Some (JDict [("period", JStr (normalize_ym code));
                          ("imports_th_eur", v)])
           ∧ is_tidy v.
Proof.
  unfold trade_series.
  intros (coerced & _ & Hs%map_res_Ret)%bind_Ret.
  pose proof (Forall2_length _ _ _ Hs) as Hlen. rewrite length_seq in Hlen.
  split; [done|]. intros i code Hi.
  assert (i < length pick)%nat as Hlt by (by eapply lookup_lt_Some).
  destruct (Forall2_lookup_l _ _ _ i i Hs) as (r & Hr & Hrec).
  { by apply lookup_seq. }
  unfold trade_record, py_getitem in Hrec. rewrite Hi in Hrec.
  cbn [bind] in Hrec.
  destruct (tidy_number_returns (default None (coerced !! i)))
    as (v & Hv & Htidy).
  rewrite Hv in Hrec. cbn [bind] in Hrec. injection Hrec as <-. eauto.
Qed.

Example trade_series_value_answer :
  trade_series example_value_answer "Viti/muaji" "Variabla" "3"
    ["2025M01"; "2025M02"; "2025M03"; "202504"]
  = Ret [JDict [("period", JStr "2025-01"); ("imports_th_eur", JInt 100)];
         JDict [("period", JStr "2025-02");
                ("imports_th_eur",
                 JFloat (S754_finite false 5429388417957888 (-42)))];
         JDict [("period", JStr "2025-03"); ("imports_th_eur", JNull)];
         JDict [("period", JStr "2025-04"); ("imports_th_eur", JNull)]].
Proof. vm_compute. reflexivity. Qed.

Example trade_series_row_answer :
  trade_series example_row_answer "Viti/muaji" "Variabla" "3"
    ["2025M01"; "2025M02"; "2025M03"]
  = Ret [JDict [("period", JStr "2025-01"); ("imports_th_eur", JInt 12)];
         JDict [("period", JStr "2025-02");
                ("imports_th_eur",
                 JFloat (S754_finite false 8162774324609024 (-50)))];
         JDict [("period", JStr "2025-03"); ("imports_th_eur", JNull)]].
Proof. vm_compute. reflexivity. Qed.

Lemma trade_series_records_witness :
  length [JDict [("period", JStr "2025-01"); ("imports_th_eur", JInt 12)];
          JDict [("period", JStr "2025-02");
                 ("imports_th_eur",
                  JFloat (S754_finite false 8162774324609024 (-50)))];
          JDict [("period", JStr "2025-03"); ("imports_th_eur", JNull)]]
  = length ["2025M01"; "2025M02"; "2025M03"]
  ∧ ∀ (i : nat) code, ["2025M01"; "2025M02"; "2025M03"] !! i = Some code →
      ∃ v, [JDict [("period", JStr "2025-01"); ("imports_th_eur", JInt 12)];
            JDict [("period", JStr "2025-02");
                   ("imports_th_eur",
                    JFloat (S754_finite false 8162774324609024 (-50)))];
            JDict [("period", JStr "2025-03"); ("imports_th_eur", JNull)]]
             !! i
           = Some (JDict [("period", JStr (normalize_ym code));
                          ("imports_th_eur", v)])
           ∧ is_tidy v.
Proof.
  apply (trade_series_records example_row_answer "Viti/muaji" "Variabla" "3").
  vm_compute. reflexivity.
Defined.

(** ** coerce_number *)

Lemma parse_exponent_exn s e : parse_exponent s = Raise e → e = ValueError.
Proof.
  unfold parse_exponent. repeat case_match; congruence.
Qed.

Lemma float_of_str_exn s e : float_of_str s = Raise e → e = ValueError.
Proof.
  unfold float_of_str, parse_numeral.
  repeat case_match; try congruence.
  all: destruct (parse_exponent _) eqn:He; cbn [bind]; [done|].
  all: apply parse_exponent_exn in He; congruence.
Qed.

(** On a string the function always returns. *)
Lemma coerce_str_returns s :
  coerce_str s
  = Ret (if bool_decide (strip s = "") || is_marker (strip s) then None
         else match float_of_str (str_remove "," (str_remove nbsp (strip s))) with
              | Ret num => Some num
              | Raise _ => None
              end).
Proof.
  unfold coerce_str. case_match; [done|].
  destruct (float_of_str _) as [num|e] eqn:Hf; [done|].
  by rewrite (float_of_str_exn _ _ Hf).
Qed.

(** The cases of the function, and the one way it can raise: an [int] that
    is beyond the range of the floats. *)
Lemma coerce_number_cases value :
  match value with
  | JNull | JList _ | JDict _ => coerce_number value = Ret None
  | JFloat f => coerce_number value = Ret (Some f)
  | JInt n => coerce_number value = res_map Some (float_of_int n)
  | JBool b => coerce_number value = Ret (Some (if b then SFone prec emax
                                                else S754_zero false))
  | JStr s => returns (coerce_number value)
  end.
Proof.
  destruct value as [| [] | | | s | |]; try done.
  cbn [coerce_number]. rewrite coerce_str_returns. by eexists.
Qed.

Lemma coerce_number_raises value e :
  coerce_number value = Raise e →
  e = OverflowError
  ∧ ∃ n, value = JInt n ∧ float_of_int n = Raise OverflowError.
Proof.
  destruct value as [| [] | n | | s | |]; try done.
  - cbn [coerce_number]. unfold res_map, float_of_int.
    destruct (binary_normalize _ _ _ _ _) eqn:Hn; cbn [bind]; try done.
    intros [= <-]. split; [done|]. exists n. split; [done|].
    unfold float_of_int. by rewrite Hn.
  - cbn [coerce_number]. by rewrite coerce_str_returns.
Qed.

Example coerce_number_markers :
  coerce_number JNull = Ret None
  ∧ coerce_number (JStr "") = Ret None
  ∧ coerce_number (JStr "   ") = Ret None
  ∧ coerce_number (JStr ".") = Ret None
  ∧ coerce_number (JStr " .. ") = Ret None
  ∧ coerce_number (JStr "...") = Ret None
  ∧ coerce_number (JStr "-") = Ret None
  ∧ coerce_number (JStr "n/a") = Ret None
  ∧ coerce_number (JStr "1 234,5") = Ret None
  ∧ coerce_number (JStr "12") = coerce_number (JInt 12)
  ∧ coerce_number (JStr (String nbsp "1,2" +:+ String nbsp "34.5"))
    = Ret (Some (S754_finite false 5429388417957888 (-42))).
Proof. vm_compute. repeat split. Qed.

(** C3.  The sentence of the claim that the function never raises fails on
    an [int] beyond the range of the floats: [float(value)] raises
    [OverflowError] there, and the conversion of an [int] is not inside the
    [try]. *)
Theorem coerce_number_overflow :
  coerce_number (JInt (10 ^ 400)) = Raise OverflowError.
Proof. vm_compute. reflexivity. Qed.

(** ** The two requests *)

Lemma length_append s t :
  String.length (s +:+ t) = (String.length s + String.length t)%nat.
Proof. induction s as [|a s IH]; simpl; [done|]. by rewrite IH. Qed.

Lemma join_slash_cons s rest :
  rest ≠ [] → join_slash (s :: rest) = s +:+ "/" +:+ join_slash rest.
Proof. by destruct rest. Qed.

(** The two bases give two different URLs. *)
Lemma api_join_bases parts lang :
  api_join "https://askdata.rks-gov.net/PXWeb/api/v1" parts lang
  ≠ api_join "https://askdata.rks-gov.net/api/v1" parts lang.
Proof.
  unfold api_join. cbn [app].
  rewrite (join_slash_cons (rstrip_char "/" "https://askdata.rks-gov.net/PXWeb/api/v1")),
    (join_slash_cons (rstrip_char "/" "https://askdata.rks-gov.net/api/v1"))
    by done.
  intros H. apply (f_equal String.length) in H.
  rewrite !length_append in H.
  change (String.length (rstrip_char "/" "https://askdata.rks-gov.net/PXWeb/api/v1"))
    with 40%nat in H.
  change (String.length (rstrip_char "/" "https://askdata.rks-gov.net/api/v1"))
    with 34%nat in H.
  lia.
Qed.

(** What [px_get_meta] does, request by request. *)
Lemma px_get_meta_cases (parts : list string) (lang : string) (w : env)
    (tr : trace) :
  let url1 := api_join "https://askdata.rks-gov.net/PXWeb/api/v1" parts lang in
  let url2 := api_join "https://askdata.rks-gov.net/api/v1" parts lang in
  px_get_meta parts lang w tr =
  match http w tr (EvGet url1) with
  | Raise e => (Raise e, tr ++ [(EvGet url1, Some e)])
  | Ret r1 =>
      if ok r1 then (json_of r1, tr ++ [(EvGet url1, None)])
      else
        match http w (tr ++ [(EvGet url1, None)]) (EvGet url2) with
        | Raise e =>
            (Raise e, tr ++ [(EvGet url1, None); (EvGet url2, Some e)])
        | Ret r2 =>
            (if ok r2 then json_of r2 else Raise (get_error url2 r2),
             tr ++ [(EvGet url1, None); (EvGet url2, None)])
        end
  end.
Proof.
  intros url1 url2. unfold px_get_meta, API_BASES.
  cbn [px_get_meta_loop]. fold url1 url2. unfold bindM at 1, act at 1.
  destruct (http w tr (EvGet url1)) as [r1|e]; [|done].
  destruct (ok r1); [done|].
  unfold bindM, act.
  destruct (http w _ (EvGet url2)) as [r2|e]; rewrite <- app_assoc; [|done].
  destruct (ok r2); [done|].
  unfold raiseM, or_default, get_error. by rewrite bool_decide_eq_false_2.
Qed.

(** What [px_post_data] does, request by request. *)
Lemma px_post_data_cases (parts : list string) (body : list (string * json))
    (lang : string) (w : env) (tr : trace) :
  let url1 := api_join "https://askdata.rks-gov.net/PXWeb/api/v1" parts lang in
  let url2 := api_join "https://askdata.rks-gov.net/api/v1" parts lang in
  let body2 := JDict (with_response_format body) in
  let pause (r : response) : trace :=
    if status_code r =? 429 then [(EvSleep 1, None)] else [] in
  px_post_data parts body lang w tr =
  match http w tr (EvPost url1 body2) with
  | Raise e => (Raise e, tr ++ [(EvPost url1 body2, Some e)])
  | Ret r1 =>
      if ok r1 then (json_of r1, tr ++ [(EvPost url1 body2, None)])
      else
        let tr1 := tr ++ (EvPost url1 body2, None) :: pause r1 in
        match http w tr1 (EvPost url2 body2) with
        | Raise e => (Raise e, tr1 ++ [(EvPost url2 body2, Some e)])
        | Ret r2 =>
            if ok r2 then (json_of r2, tr1 ++ [(EvPost url2 body2, None)])
            else (Raise (post_error url2 r2),
                  tr1 ++ (EvPost url2 body2, None) :: pause r2)
        end
  end.
Proof.
  intros url1 url2 body2 pause. unfold px_post_data, API_BASES.
  cbn [px_post_data_loop]. fold url1 url2 body2.
  unfold bindM at 1, act at 1.
  destruct (http w tr (EvPost url1 body2)) as [r1|e]; [|done].
  destruct (ok r1); [done|].
  assert (Hp : ∀ (r : response) t,
    (if status_code r =? 429 then emit (EvSleep 1) else retM tt) w t
    = (Ret tt, t ++ pause r)).
  { intros r t. unfold pause, emit, retM.
    destruct (status_code r =? 429); [done|]. by rewrite app_nil_r. }
  unfold bindM at 1. rewrite Hp.
  replace ((tr ++ [(EvPost url1 body2, None)]) ++ pause r1)
    with (tr ++ (EvPost url1 body2, None) :: pause r1)
    by (by rewrite <- app_assoc).
  cbv zeta. generalize (tr ++ (EvPost url1 body2, None) :: pause r1).
  intros tr1. unfold bindM at 1, act at 1.
  destruct (http w tr1 (EvPost url2 body2)) as [r2|e]; [|done].
  destruct (ok r2); [done|].
  unfold bindM at 1. rewrite Hp.
  unfold raiseM, or_default, post_error.
  rewrite bool_decide_eq_false_2 by done.
  by rewrite <- app_assoc.
Qed.

Lemma ok_429 r : status_code r = 429 → ok r = false.
Proof. unfold ok. by intros ->. Qed.

(** Closes a statement about the positions of a short explicit trace. *)
Ltac trace_cases :=
  repeat match goal with
    | |- ∀ i : nat, _ => intros [|[|[|[|[|?]]]]]
    | |- ∀ _, _ => intros ?
    | |- _ → _ => intros ?
    | H : _ !! _ = Some _ |- _ => progress (simpl in H); simplify_eq
    | H : _ !! _ = Some _ |- _ => by inversion H
    | H : Is_true (is_sleep _) |- _ => by (simpl in H)
    | H : http _ (_ ++ take _ _) _ = _ |- _ =>
        progress (simpl in H; rewrite ?app_nil_r in H)
    | H : http ?w _ ?ev = Ret ?r, H' : http ?w _ ?ev = Ret ?r' |- _ =>
        tryif constr_eq r r' then fail
        else (assert (Ret r = Ret r') by (rewrite <- H; exact H');
              simplify_eq)
    | H : http ?w _ ?ev = Raise _, H' : http ?w _ ?ev = Ret _ |- _ =>
        exfalso; clear -H H'; congruence
    | H : status_code ?r = 429, H' : ok ?r = true |- _ =>
        rewrite (ok_429 r H) in H'; discriminate
    | H : status_code ?r = 429, H' : status_code ?r ≠ 429 |- _ => by destruct H'
    | |- _ ∧ _ => split
    | |- _ = _ => reflexivity
    | |- ¬ _ => intros ?
    end.

(** C6.  [px_post_data] sends one POST to each base in turn and none twice;
    a POST answered with status 429 is followed by one pause of one second,
    after which the loop goes on (to the next base, or to the end when there
    is none left: two answers of 429 make two pauses); no other entry of the
    trace is a pause.  [px_get_meta] sends one GET to each base in turn, none
    twice, and never pauses. *)
Theorem retry_is_one_sleep_after_429 (parts : list string)
    (body : list (string * json)) (lang : string) (w : env) (tr : trace) :
  let url1 := api_join "https://askdata.rks-gov.net/PXWeb/api/v1" parts lang in
  let url2 := api_join "https://askdata.rks-gov.net/api/v1" parts lang in
  (∃ evs, (px_post_data parts body lang w tr).2 = tr ++ evs
     ∧ requested evs `prefix_of` [url1; url2]
     ∧ NoDup (requested evs)
     ∧ (∀ (i : nat) en, evs !! i = Some en → is_sleep en →
          en = (EvSleep 1, None)
          ∧ ∃ (j : nat) url b r,
              i = S j ∧ evs !! j = Some (EvPost url b, None)
              ∧ http w (tr ++ take j evs) (EvPost url b) = Ret r
              ∧ status_code r = 429)
     ∧ (∀ (j : nat) url b r,
          evs !! j = Some (EvPost url b, None) →
          http w (tr ++ take j evs) (EvPost url b) = Ret r →
          status_code r = 429 →
          evs !! S j = Some (EvSleep 1, None)
          ∧ ∀ en, evs !! S (S j) = Some en → ¬ is_sleep en))
  ∧ (∃ evs, (px_get_meta parts lang w tr).2 = tr ++ evs
       ∧ requested evs `prefix_of` [url1; url2]
       ∧ NoDup (requested evs)
       ∧ Forall (λ en, ∃ url, en.1 = EvGet url) evs).
Proof.
  intros url1 url2.
  pose proof (api_join_bases parts lang) as Hne. fold url1 url2 in Hne.
  assert (Hnd : NoDup [url1; url2]).
  { apply NoDup_cons. split; [|apply NoDup_singleton].
    by intros ->%list_elem_of_singleton. }
  split.
  - rewrite px_post_data_cases. fold url1 url2. cbv zeta.
    set (body2 := JDict (with_response_format body)).
    clearbody url1 url2 body2.
    destruct (http w tr (EvPost url1 body2)) as [r1|e1] eqn:H1.
    2:{ eexists. split; [done|]. split; [by exists [url2]|].
        split; [apply NoDup_singleton|]. trace_cases. }
    destruct (ok r1) eqn:Hok1.
    { eexists. split; [done|]. split; [by exists [url2]|].
      split; [apply NoDup_singleton|]. trace_cases. }
    destruct (Z.eqb_spec (status_code r1) 429) as [Hs1|Hs1].
    + destruct (http w _ (EvPost url2 body2)) as [r2|e2] eqn:H2.
      2:{ eexists. split; [by rewrite <- app_assoc|].
          split; [by exists []|]. split; [done|]. trace_cases.
          exists 0%nat, url1, body2, r1. simpl. by rewrite app_nil_r. }
      destruct (ok r2) eqn:Hok2.
      { eexists. split; [by rewrite <- app_assoc|].
        split; [by exists []|]. split; [done|]. trace_cases.
        exists 0%nat, url1, body2, r1. simpl. by rewrite app_nil_r. }
      destruct (Z.eqb_spec (status_code r2) 429) as [Hs2|Hs2].
      * eexists. split; [by rewrite <- app_assoc|].
        split; [by exists []|]. split; [done|]. trace_cases.
        -- exists 0%nat, url1, body2, r1. simpl. by rewrite app_nil_r.
        -- by exists 2%nat, url2, body2, r2.
      * eexists. split; [by rewrite <- app_assoc|].
        split; [by exists []|]. split; [done|]. trace_cases.
        exists 0%nat, url1, body2, r1. simpl. by rewrite app_nil_r.
    + destruct (http w _ (EvPost url2 body2)) as [r2|e2] eqn:H2.
      2:{ eexists. split; [by rewrite <- app_assoc|].
          split; [by exists []|]. split; [done|]. trace_cases. }
      destruct (ok r2) eqn:Hok2.
      { eexists. split; [by rewrite <- app_assoc|].
        split; [by exists []|]. split; [done|]. trace_cases. }
      destruct (Z.eqb_spec (status_code r2) 429) as [Hs2|Hs2].
      * eexists. split; [by rewrite <- app_assoc|].
        split; [by exists []|]. split; [done|]. trace_cases.
        by exists 1%nat, url2, body2, r2.
      * eexists. split; [by rewrite <- app_assoc|].
        split; [by exists []|]. split; [done|]. trace_cases.
  - rewrite px_get_meta_cases. fold url1 url2. cbv zeta.
    clearbody url1 url2.
    destruct (http w tr (EvGet url1)) as [r1|e1] eqn:H1.
    2:{ eexists. split; [done|]. split; [by exists [url2]|].
        split; [apply NoDup_singleton|]. repeat constructor. by eexists. }
    destruct (ok r1) eqn:Hok1.
    { eexists. split; [done|]. split; [by exists [url2]|].
      split; [apply NoDup_singleton|]. repeat constructor. by eexists. }
    destruct (http w _ (EvGet url2)) as [r2|e2] eqn:H2.
    + eexists. split; [done|]. split; [by exists []|].
      split; [done|]. repeat constructor; by eexists.
    + eexists. split; [done|]. split; [by exists []|].
      split; [done|]. repeat constructor; by eexists.
Qed.

(** ** main *)

Lemma runs_bind {A B} (m : M A) (f : A → M B) w tr a evs1 r evs2 :
  runs m w tr (Ret a) evs1 →
  runs (f a) w (tr ++ evs1) r evs2 →
  runs (bindM m f) w tr r (evs1 ++ evs2).
Proof.
  unfold runs, bindM. intros -> ->. by rewrite app_assoc.
Qed.

Lemma runs_bind_raise {A B} (m : M A) (f : A → M B) w tr e evs :
  runs m w tr (Raise e) evs → runs (bindM m f) w tr (Raise e) evs.
Proof. unfold runs, bindM. by intros ->. Qed.

Lemma runs_emit ev w tr : runs (emit ev) w tr (Ret tt) [(ev, None)].
Proof. done. Qed.

Lemma runs_retM {A} (a : A) w tr : runs (retM a) w tr (Ret a) [].
Proof. unfold runs, retM. by rewrite app_nil_r. Qed.

Lemma runs_act {A} (oracle : env → trace → event → res A) ev w tr :
  (∃ a, runs (act oracle ev) w tr (Ret a) [(ev, None)])
  ∨ (∃ e, runs (act oracle ev) w tr (Raise e) [(ev, Some e)]).
Proof.
  unfold runs, act. destruct (oracle w tr ev) as [a|e]; eauto.
Qed.

Lemma runs_fetch_guarded table line months partners w tr :
  ∃ o info,
    runs (fetch_guarded table line months partners) w tr (Ret info)
      (guarded_seg table line months partners o).
Proof.
  unfold runs, fetch_guarded, try_except, bindM, fetch, act.
  destruct (fetcher w tr _) as [info|e].
  - by exists None, (Some info).
  - exists (Some e), None. unfold emit, retM. by rewrite <- app_assoc.
Qed.

Lemma runs_fuel_step fuel_name path_key months infos w tr :
  ∃ o infos',
    runs (try_except
            (bindM (fetch path_key months None)
               (λ info, retM (dict_set fuel_name (JDict info) infos)))
            (λ e,
               bindM (emit (EvPrint ("! Fuel " +:+ fuel_name +:+ " download failed:")
                              (Some e)))
                 (λ _, retM infos)))
      w tr (Ret infos')
      (guarded_seg path_key ("! Fuel " +:+ fuel_name +:+ " download failed:")
         months None o).
Proof.
  unfold runs, try_except, bindM, fetch, act.
  destruct (fetcher w tr _) as [info|e].
  - by exists None, (dict_set fuel_name (JDict info) infos).
  - exists (Some e), infos. unfold emit, retM. by rewrite <- app_assoc.
Qed.

Lemma runs_fetch_fuels months w tr :
  ∃ o1 o2 o3 o4 infos,
    runs (fetch_fuels FUEL_SPECS months []) w tr (Ret infos)
      (guarded_seg "fuel_gasoline" "! Fuel gasoline download failed:" months
         None o1
       ++ guarded_seg "fuel_diesel" "! Fuel diesel download failed:" months
            None o2
       ++ guarded_seg "fuel_lng" "! Fuel lng download failed:" months None o3
       ++ guarded_seg "fuel_jet" "! Fuel jet download failed:" months None o4).
Proof.
  unfold FUEL_SPECS. cbn [fetch_fuels].
  destruct (runs_fuel_step "gasoline" "fuel_gasoline" months [] w tr)
    as (o1 & i1 & H1).
  destruct (runs_fuel_step "diesel" "fuel_diesel" months i1 w
              (tr ++ guarded_seg "fuel_gasoline"
                       "! Fuel gasoline download failed:" months None o1))
    as (o2 & i2 & H2).
  destruct (runs_fuel_step "lng" "fuel_lng" months i2 w
              ((tr ++ guarded_seg "fuel_gasoline"
                        "! Fuel gasoline download failed:" months None o1)
               ++ guarded_seg "fuel_diesel" "! Fuel diesel download failed:"
                    months None o2))
    as (o3 & i3 & H3).
  destruct (runs_fuel_step "jet" "fuel_jet" months i3 w
              (((tr ++ guarded_seg "fuel_gasoline"
                         "! Fuel gasoline download failed:" months None o1)
                ++ guarded_seg "fuel_diesel" "! Fuel diesel download failed:"
                     months None o2)
               ++ guarded_seg "fuel_lng" "! Fuel lng download failed:"
                    months None o3))
    as (o4 & i4 & H4).
  exists o1, o2, o3, o4, i4.
  eapply runs_bind; [exact H1|].
  eapply runs_bind; [exact H2|].
  eapply runs_bind; [exact H3|].
  rewrite <- (app_nil_r (guarded_seg "fuel_jet" _ _ _ _)).
  eapply runs_bind; [exact H4|]. apply runs_retM.
Qed.

Lemma runs_write_json out_dir data w tr :
  ∃ r tail,
    runs (bindM (write_json out_dir "kas_sources.json" data)
            (λ _, emit (EvPrint "Done." None))) w tr r tail
    ∧ manifest_run out_dir r tail.
Proof.
  unfold write_json.
  destruct (runs_act disk (EvMkdir out_dir) w tr) as [[[] H1]|[e H1]].
  2:{ eexists _, _. split; [|apply manifest_mkdir_fails].
      by do 2 apply runs_bind_raise. }
  destruct (runs_act disk
              (EvWrite (path_join out_dir "kas_sources.json") data) w
              (tr ++ [(EvMkdir out_dir, None)])) as [[[] H2]|[e H2]].
  2:{ eexists _, _. split; [|apply (manifest_write_fails _ data)].
      apply runs_bind_raise. eapply (runs_bind _ _ _ _ _ [_] _ [_]); [done|].
      by apply runs_bind_raise. }
  eexists _, _. split; [|apply (manifest_written _ data)].
  eapply (runs_bind _ _ _ _ _ [_; _; _] _ [_]); [|apply runs_emit].
  eapply (runs_bind _ _ _ _ _ [_] _ [_; _]); [done|].
  eapply (runs_bind _ _ _ _ _ [_] _ [_]); [done|]. apply runs_emit.
Qed.

(** Peeling the first step off a computation. *)
Lemma peel_emit {B} ev (k : unit → M B) w tr (Q : res B → trace → Prop) :
  (∃ r evs, runs (k tt) w (tr ++ [(ev, None)]) r evs ∧ Q r ((ev, None) :: evs)) →
  ∃ r evs, runs (bindM (emit ev) k) w tr r evs ∧ Q r evs.
Proof.
  intros (r & evs & Hk & HQ). exists r, ((ev, None) :: evs). split; [|done].
  by apply (runs_bind _ _ _ _ tt [_]); [apply runs_emit|].
Qed.

Lemma peel_act {A B} (oracle : env → trace → event → res A) ev
    (k : A → M B) w tr (Q : res B → trace → Prop) :
  (∀ x, ∃ r evs,
     runs (k x) w (tr ++ [(ev, None)]) r evs ∧ Q r ((ev, None) :: evs)) →
  (∀ e, Q (Raise e) [(ev, Some e)]) →
  ∃ r evs, runs (bindM (act oracle ev) k) w tr r evs ∧ Q r evs.
Proof.
  intros Hk He. destruct (runs_act oracle ev w tr) as [[x H]|[e H]].
  - destruct (Hk x) as (r & evs & Hr & HQ).
    exists r, ((ev, None) :: evs). split; [|done].
    by apply (runs_bind _ _ _ _ x [_]).
  - exists (Raise e), [(ev, Some e)]. split; [|done].
    by apply runs_bind_raise.
Qed.

Lemma peel_runs {A B} (m : M A) (k : A → M B) w tr (seg : trace)
    (Q : res B → trace → Prop) a :
  runs m w tr (Ret a) seg →
  (∃ r evs, runs (k a) w (tr ++ seg) r evs ∧ Q r (seg ++ evs)) →
  ∃ r evs, runs (bindM m k) w tr r evs ∧ Q r evs.
Proof.
  intros Hm (r & evs & Hk & HQ). exists r, (seg ++ evs). split; [|done].
  by eapply runs_bind.
Qed.

(** The run of [main] has one of the shapes of [main_run]. *)
Lemma main_shape (w : env) (a : args) :
  ∃ r evs, runs (main a) w [] r evs ∧ main_run a r evs.
Proof.
  pose proof (run_mkdir_fails a) as Hmkdir.
  pose proof (run_trade_fails a) as Htrade.
  pose proof (run_energy_fails a) as Henergy.
  pose proof (run_guarded a) as Hguarded.
  unfold header, guarded_part in Hmkdir, Htrade, Henergy, Hguarded.
  unfold main. cbv zeta.
  destruct (main_partners a) as [ps|] eqn:Hps.
  all: do 4 (apply peel_emit; cbv beta).
  all: apply peel_act; cbv beta; [intros []|intros e; apply Hmkdir].
  all: eapply (peel_runs _ _ _ _ [] _ (clock w));
    [unfold runs; by rewrite app_nil_r|].
  all: cbn [app]; unfold fetch at 1.
  all: apply peel_act; cbv beta; [intros trade_info|intros e; apply Htrade].
  all: unfold fetch at 1.
  all: apply peel_act; cbv beta; [intros energy_info|intros e; apply Henergy].
  all: match goal with
       | |- ∃ r evs, runs _ ?w' ?tr r evs ∧ _ =>
           destruct (runs_fetch_fuels (main_months a) w' tr)
             as (o1 & o2 & o3 & o4 & fuel_infos & Hfuels)
       end.
  all: eapply peel_runs; [exact Hfuels|].
  all: match goal with
       | |- ∃ r evs, runs (bindM (fetch_guarded ?t ?l ?m ?p) _) ?w' ?tr r evs ∧ _ =>
           destruct (runs_fetch_guarded t l m p w' tr) as (o5 & region & Hregion)
       end.
  all: eapply peel_runs; [exact Hregion|].
  all: match goal with
       | |- ∃ r evs, runs (bindM (fetch_guarded ?t ?l ?m ?p) _) ?w' ?tr r evs ∧ _ =>
           destruct (runs_fetch_guarded t l m p w' tr) as (o6 & country & Hcountry)
       end.
  all: eapply peel_runs; [exact Hcountry|].
  - match goal with
    | |- ∃ r evs, runs (bindM (fetch_guarded ?t ?l ?m ?p) _) w ?tr r evs ∧ _ =>
        destruct (runs_fetch_guarded t l m p w tr) as (o7 & partner & Hp)
    end.
    eapply peel_runs; [exact Hp|].
    match goal with
    | |- ∃ r evs, runs (bindM (write_json ?o _ ?d) _) w ?tr r evs ∧ _ =>
        destruct (runs_write_json o d w tr) as (r & tail & Hw & Htail)
    end.
    exists r, tail. split; [done|].
    specialize (Hguarded [o1; o2; o3; o4; o5; o6; o7] r tail eq_refl Htail).
    cbn [lookup list_lookup default id] in Hguarded.
    rewrite <- !app_assoc in Hguarded. rewrite <- !app_assoc.
    exact Hguarded.
  - eapply (peel_runs _ _ _ _ [] _ None); [apply runs_retM|].
    match goal with
    | |- ∃ r evs, runs (bindM (write_json ?o _ ?d) _) w ?tr r evs ∧ _ =>
        destruct (runs_write_json o d w tr) as (r & tail & Hw & Htail)
    end.
    exists r, tail. split; [done|].
    specialize (Hguarded [o1; o2; o3; o4; o5; o6; None] r tail eq_refl Htail).
    cbn [lookup list_lookup default id] in Hguarded.
    rewrite app_nil_r in Hguarded.
    rewrite <- !app_assoc in Hguarded. rewrite <- !app_assoc.
    exact Hguarded.
Qed.

Lemma run_main w a r evs :
  runs (main a) w [] r evs →
  run w a = match r with
            | Ret _ => (0, evs)
            | Raise e => (exit_code e,
                          evs ++ [(EvPrintErr "FAILED:" (Some e), None)])
            end.
Proof.
  unfold runs, run. intros ->. destruct r as [|[]]; done.
Qed.

Lemma logged_spec a tr :
  logged a tr →
  ∀ (i : nat) table m p e,
    tr !! i = Some (EvFetch table m p, Some e) →
    table ≠ "trade_monthly" → table ≠ "energy_monthly" →
    ∃ line next,
      tr !! S i = Some (EvPrint line (Some e), None)
      ∧ tr !! S (S i) = Some next ∧ continues a table next.1.
Proof.
  induction tr as [|[ev o] tr IH]; intros Hl i table m p e Hi Ht He; [done|].
  destruct i as [|i].
  - simpl in Hi. injection Hi as -> ->. destruct Hl as [Hl _].
    specialize (Hl Ht He).
    destruct tr as [|[[] [e'|]] [|next tr]]; try done;
      destruct err as [e''|]; try done.
    destruct Hl as [-> Hc]. by eexists _, next.
  - simpl in Hi. apply (IH) with (i := i) (m := m) (p := p) (e := e) in Ht;
      [done| |done|done].
    destruct ev, o; try done. by destruct Hl.
Qed.

Lemma logged_app a tr1 tr2 :
  Forall (λ en : entry, en.2 = None) tr1 → logged a tr2 → logged a (tr1 ++ tr2).
Proof.
  induction 1 as [|[ev o] tr1 Ho _ IH]; [done|]. simpl in Ho. subst o.
  intros H2. simpl. destruct ev; auto.
Qed.

Lemma logged_seg a table line m p o next rest :
  (table ≠ "trade_monthly" → table ≠ "energy_monthly" →
   continues a table next.1) →
  logged a (next :: rest) →
  logged a (guarded_seg table line m p o ++ next :: rest).
Proof.
  intros Hc Hl. destruct o as [e|]; [|done].
  cbn [guarded_seg app logged]. split; [|done]. intros Ht He. auto.
Qed.

Lemma guarded_seg_head table line m p o rest :
  ∃ o' rest', guarded_seg table line m p o ++ rest
              = (EvFetch table m p, o') :: rest'.
Proof. destruct o; by eexists _, _. Qed.

Lemma fetched_app tr1 tr2 : fetched (tr1 ++ tr2) = fetched tr1 ++ fetched tr2.
Proof. apply omap_app. Qed.

Lemma fetched_seg table line m p o :
  fetched (guarded_seg table line m p o) = [table].
Proof. by destruct o. Qed.

Lemma manifest_run_head out_dir r tail :
  manifest_run out_dir r tail → ∃ o rest, tail = (EvMkdir out_dir, o) :: rest.
Proof. destruct 1; by eexists _, _. Qed.

Lemma manifest_run_logged a out_dir r tail :
  manifest_run out_dir r tail → logged a tail.
Proof. by destruct 1. Qed.

Lemma manifest_run_fetched out_dir r tail :
  manifest_run out_dir r tail → fetched tail = [].
Proof. by destruct 1. Qed.

Lemma manifest_run_raise out_dir e tail :
  manifest_run out_dir (Raise e) tail →
  ∃ pre ev, tail = pre ++ [(ev, Some e)] ∧ unguarded ev
            ∧ Forall (λ en : entry, en.2 = None) pre.
Proof.
  inversion 1; subst.
  - by exists [], (EvMkdir out_dir).
  - eexists [_], (EvWrite _ _). by repeat constructor.
Qed.

Lemma logged_seg_step a table line m p o next rest :
  continues a table next.1 →
  logged a (next :: rest) →
  ∃ o' rest',
    guarded_seg table line m p o ++ next :: rest
    = (EvFetch table m p, o') :: rest'
    ∧ logged a ((EvFetch table m p, o') :: rest').
Proof.
  intros Hc Hl.
  destruct (guarded_seg_head table line m p o (next :: rest)) as (o' & r & E).
  exists o', r. split; [done|]. rewrite <- E. by apply logged_seg.
Qed.

Ltac seg_step t Hps :=
  match goal with
  | H : logged ?a (?next :: ?rest)
    |- context [guarded_seg t ?l ?m ?p ?o ++ ?next :: ?rest] =>
      let o' := fresh "o" in
      let r' := fresh "r" in
      let E := fresh "E" in
      let H' := fresh "H" in
      destruct (logged_seg_step a t l m p o next rest) as (o' & r' & E & H');
      [unfold continues, tables; rewrite ?Hps; simpl; eauto
      |exact H
      |rewrite E; clear E H]
  end.

(** The guarded part of a run is logged, whatever its fetches did. *)
Lemma logged_guarded a os o rest :
  logged a rest →
  logged a (guarded_part a os ++ (EvMkdir (main_out_dir a), o) :: rest).
Proof.
  intros Hrest.
  assert (H0 : logged a ((EvMkdir (main_out_dir a), o) :: rest)) by done.
  clear Hrest. unfold guarded_part. cbv zeta.
  destruct (main_partners a) as [ps|] eqn:Hps; rewrite <- !app_assoc.
  - seg_step "imports_by_partner" Hps.
    seg_step "tourism_country" Hps.
    seg_step "tourism_region" Hps.
    seg_step "fuel_jet" Hps.
    seg_step "fuel_lng" Hps.
    seg_step "fuel_diesel" Hps.
    seg_step "fuel_gasoline" Hps.
    done.
  - cbn [app].
    seg_step "tourism_country" Hps.
    seg_step "tourism_region" Hps.
    seg_step "fuel_jet" Hps.
    seg_step "fuel_lng" Hps.
    seg_step "fuel_diesel" Hps.
    seg_step "fuel_gasoline" Hps.
    done.
Qed.

Lemma fetched_guarded a os :
  fetched (guarded_part a os)
  = ["fuel_gasoline"; "fuel_diesel"; "fuel_lng"; "fuel_jet";
     "tourism_region"; "tourism_country"]
    ++ match main_partners a with
       | Some _ => ["imports_by_partner"]
       | None => []
       end.
Proof.
  unfold guarded_part. cbv zeta. rewrite !fetched_app, !fetched_seg.
  destruct (main_partners a); [|done]. by rewrite fetched_seg.
Qed.

(** The entries of the guarded part: calls of guarded tables and printed
    lines. *)
Lemma elem_of_guarded_seg en table line m p o :
  en ∈ guarded_seg table line m p o →
  en.1 = EvFetch table m p ∨ ∃ e, en.1 = EvPrint line (Some e).
Proof.
  destruct o as [e|]; cbn [guarded_seg].
  - intros [->| ->%list_elem_of_singleton]%elem_of_cons; eauto.
  - intros ->%list_elem_of_singleton. eauto.
Qed.

Lemma elem_of_guarded_part a os en table m p :
  en ∈ guarded_part a os → en.1 = EvFetch table m p →
  table ≠ "trade_monthly" ∧ table ≠ "energy_monthly".
Proof.
  unfold guarded_part. cbv zeta. rewrite !elem_of_app.
  intros H Hen.
  repeat match goal with
    | H : _ ∨ _ |- _ => destruct H as [H|H]
    | H : _ ∈ guarded_seg _ _ _ _ _ |- _ =>
        apply elem_of_guarded_seg in H as [H|[? H]]; rewrite H in Hen;
        [injection Hen as <- _ _; done|discriminate]
    end.
  destruct (main_partners a); [|by apply elem_of_nil in H].
  apply elem_of_guarded_seg in H as [H|[? H]]; rewrite H in Hen;
    [injection Hen as <- _ _; done|discriminate].
Qed.

Lemma exit_code_nonzero e : exit_code e ≠ 0.
Proof. by destruct e. Qed.

Lemma main_run_logged a r evs :
  main_run a r evs →
  logged a (match r with
            | Ret _ => evs
            | Raise e => evs ++ [(EvPrintErr "FAILED:" (Some e), None)]
            end).
Proof.
  assert (Hh : Forall (λ en : entry, en.2 = None) (header a))
    by (by repeat constructor).
  destruct 1 as [e|e|e|os r tail Hos Htail].
  - rewrite <- app_assoc. apply logged_app; [done|]. done.
  - rewrite <- app_assoc. apply logged_app; [done|]. cbn [app logged].
    split; [|done]. by intros Ht.
  - rewrite <- app_assoc. apply logged_app; [done|]. cbn [app logged].
    split; [|done]. by intros _ Ht.
  - assert (Hg : ∀ o rest, logged a rest →
      logged a (header a ++
                [(EvMkdir (main_out_dir a), None);
                 (EvFetch "trade_monthly" (main_months a) None, None);
                 (EvFetch "energy_monthly" (main_months a) None, None)] ++
                guarded_part a os ++ (EvMkdir (main_out_dir a), o) :: rest)).
    { intros o rest Hrest. apply logged_app; [done|]. cbn [app logged].
      by apply logged_guarded. }
    destruct Htail; rewrite <- ?app_assoc; cbn [app]; by apply Hg.
Qed.

Lemma main_run_fetched a r evs :
  main_run a r evs → r = Ret tt → fetched evs = tables a.
Proof.
  destruct 1 as [e|e|e|os r tail Hos Htail]; try done. intros ->.
  rewrite !fetched_app, fetched_guarded.
  rewrite (manifest_run_fetched _ _ _ Htail). by rewrite app_nil_r.
Qed.

Lemma main_run_raise a e evs :
  main_run a (Raise e) evs →
  ∃ pre ev, evs = pre ++ [(ev, Some e)] ∧ unguarded ev
    ∧ ∀ table m p e', (EvFetch table m p, Some e') ∈ pre →
        table ≠ "trade_monthly" ∧ table ≠ "energy_monthly".
Proof.
  assert (Hh : ∀ table m p e', (EvFetch table m p, Some e') ∉ header a).
  { intros table m p e' H. unfold header in H.
    repeat (apply elem_of_cons in H as [H|H]; [done|]).
    by apply elem_of_nil in H. }
  assert (Hmid : ∀ (en : entry) table m p (e' : exn),
    en = (EvFetch table m p, Some e') →
    en ∈ [(EvMkdir (main_out_dir a), None);
          (EvFetch "trade_monthly" (main_months a) None, None);
          (EvFetch "energy_monthly" (main_months a) None, None)] → False).
  { intros en table m p e' -> H.
    repeat (apply elem_of_cons in H as [H|H]; [done|]).
    by apply elem_of_nil in H. }
  intros Hrun. inversion Hrun as [e0|e0|e0|os r tail Hos Htail]; subst.
  - eexists _, _. split; [done|]. split; [done|].
    intros table m p e' H. by apply Hh in H.
  - exists (header a ++ [(EvMkdir (main_out_dir a), None)]), (EvFetch "trade_monthly" (main_months a) None).
    split; [by rewrite <- app_assoc|]. split; [by left|].
    intros table m p e' [H|H]%elem_of_app; [by apply Hh in H|].
    by apply list_elem_of_singleton in H.
  - exists (header a ++ [(EvMkdir (main_out_dir a), None);
                         (EvFetch "trade_monthly" (main_months a) None, None)]),
      (EvFetch "energy_monthly" (main_months a) None).
    split; [by rewrite <- app_assoc|]. split; [by right|].
    intros table m p e' [H|H]%elem_of_app; [by apply Hh in H|].
    repeat (apply elem_of_cons in H as [H|H]; [done|]).
    by apply elem_of_nil in H.
  - destruct (manifest_run_raise _ _ _ Htail) as (pre & ev & -> & Hev & Hpre).
    eexists _, ev. split; [by rewrite !app_assoc|]. split; [done|].
    intros table m p e'. rewrite <- !app_assoc, !elem_of_app.
    intros [H|[H|[H|H]]].
    + by apply Hh in H.
    + destruct (Hmid _ table m p e' eq_refl H).
    + by eapply elem_of_guarded_part.
    + rewrite Forall_forall in Hpre. by apply Hpre in H.
Qed.

(** C1.  A fetch of a fuel table, of a tourism table or of the
    imports-by-partner table that raises is followed in the trace by the
    line that reports its exception, and then by the call of the next table
    (or by the writing of the manifest after the last one).  The fetches of
    the trade and energy tables stand outside every guard: when one raises,
    the run ends there.  The exit code is not zero exactly when an unguarded
    action raised, which is then the last action of the run; it is 2 for a
    [PxError] and 1 for any other exception.  A run that exits with zero has
    fetched every table, in order. *)
Theorem guarded_failures_are_logged (w : env) (a : args) :
  let code := (run w a).1 in
  let tr := (run w a).2 in
  (∀ (i : nat) table m p e,
     tr !! i = Some (EvFetch table m p, Some e) →
     table ≠ "trade_monthly" → table ≠ "energy_monthly" →
     ∃ line next,
       tr !! S i = Some (EvPrint line (Some e), None)
       ∧ tr !! S (S i) = Some next ∧ continues a table next.1)
  ∧ (∀ table m p e,
       (EvFetch table m p, Some e) ∈ tr →
       table = "trade_monthly" ∨ table = "energy_monthly" →
       code = exit_code e
       ∧ ∃ pre, tr = pre ++ [(EvFetch table m p, Some e);
                             (EvPrintErr "FAILED:" (Some e), None)])
  ∧ (code ≠ 0 →
     ∃ pre ev e,
       tr = pre ++ [(ev, Some e); (EvPrintErr "FAILED:" (Some e), None)]
       ∧ unguarded ev ∧ code = exit_code e)
  ∧ (code = 0 → fetched tr = tables a).
Proof.
  destruct (main_shape w a) as (r & evs & Hruns & Hshape).
  rewrite (run_main w a r evs Hruns). cbv zeta.
  pose proof (main_run_logged a r evs Hshape) as Hlog.
  destruct r as [[]|e]; cbn [fst snd] in *.
  - split; [by apply logged_spec|]. split; [|split; [done|]].
    + intros table m p e Hin Ht. exfalso.
      inversion Hshape as [| | |os r tail Hos Htail]; subst.
      rewrite !elem_of_app in Hin. destruct Hin as [H|[H|[H|H]]].
      * unfold header in H.
        repeat (apply elem_of_cons in H as [H|H]; [done|]).
        by apply elem_of_nil in H.
      * repeat (apply elem_of_cons in H as [H|H]; [done|]).
        by apply elem_of_nil in H.
      * destruct (elem_of_guarded_part a os _ table m p H eq_refl).
        by destruct Ht.
      * inversion Htail; subst.
        repeat (apply elem_of_cons in H as [H|H]; [done|]).
        by apply elem_of_nil in H.
    + intros _. by apply (main_run_fetched a (Ret tt)).
  - destruct (main_run_raise a e evs Hshape) as (pre & ev & -> & Hev & Hpre).
    split; [by apply logged_spec|]. split; [|split].
    + intros table m p e' Hin Ht.
      rewrite <- app_assoc in Hin. cbn [app] in Hin.
      apply elem_of_app in Hin as [Hin|Hin].
      { destruct (Hpre _ _ _ _ Hin). by destruct Ht. }
      apply elem_of_cons in Hin as [Hin|Hin];
        [|by apply list_elem_of_singleton in Hin].
      injection Hin as <- <-. split; [done|].
      exists pre. by rewrite <- app_assoc.
    + intros _. exists pre, ev, e. by rewrite <- app_assoc.
    + intros Hc. by apply exit_code_nonzero in Hc.
Qed.

Lemma main_run_fetched_prefix a r evs :
  main_run a r evs → fetched evs `prefix_of` tables a.
Proof.
  destruct 1 as [e|e|e|os r tail Hos Htail].
  - rewrite fetched_app. by eexists.
  - unfold tables. cbn. apply prefix_cons, prefix_nil.
  - unfold tables. cbn. do 2 apply prefix_cons. apply prefix_nil.
  - rewrite !fetched_app, fetched_guarded.
    rewrite (manifest_run_fetched _ _ _ Htail). rewrite app_nil_r.
    unfold tables. cbn. exists []. by rewrite app_nil_r.
Qed.

Lemma run_fetched_prefix w a : fetched (run w a).2 `prefix_of` tables a.
Proof.
  destruct (main_shape w a) as (r & evs & Hruns & Hshape).
  rewrite (run_main w a r evs Hruns).
  pose proof (main_run_fetched_prefix a r evs Hshape) as Hp.
  destruct r as [|e]; [done|]. cbn [snd].
  rewrite fetched_app. cbn. by rewrite app_nil_r.
Qed.

Lemma py_slice_from_last {A} (l : list A) (n : Z) :
  0 < n → py_slice_from (- n) l = drop (length l - Z.to_nat n) l.
Proof.
  intros Hn. unfold py_slice_from.
  destruct (Z.ltb_spec (- n) 0) as [_|?]; [|lia]. f_equal. lia.
Qed.

(** What [main] makes of the flags.  With [--all], [months] is [None] and
    every time code is selected.  Otherwise [months] is a number [N]: the
    value of [--months] when it is given and is not 0, and 24 when it is
    absent (or 0, which [args.months or 24] does not tell from absent); the
    selection is
    [all_months[-N:]], which for a positive [N] is the last [N] codes (all of
    them when there are fewer).  With [--no-partners], [partners] is [None]
    whatever [--partners] says, and the imports-by-partner table is not
    fetched. *)
Theorem months_and_partners_selection (w : env) (a : args) :
  (arg_all a = true →
   main_months a = None
   ∧ ∀ all_months : list string,
       select_months all_months (main_months a) = all_months)
  ∧ (arg_all a = false →
     ∃ N, main_months a = Some N
       ∧ (∀ n, arg_months a = Some n → n ≠ 0 → N = n)
       ∧ (arg_months a = None ∨ arg_months a = Some 0 → N = 24)
       ∧ ∀ all_months : list string,
           select_months all_months (main_months a)
           = py_slice_from (- N) all_months
           ∧ (0 < N →
              select_months all_months (main_months a)
              = drop (length all_months - Z.to_nat N) all_months))
  ∧ (arg_no_partners a = true →
     main_partners a = None
     ∧ "imports_by_partner" ∉ fetched (run w a).2).
Proof.
  split; [|split].
  - intros Hall. unfold main_months. by rewrite Hall.
  - intros Hall. unfold main_months. rewrite Hall.
    set (N := match arg_months a with
              | Some n => if n =? 0 then 24 else n
              | None => 24
              end).
    assert (HN : N ≠ 0).
    { unfold N. destruct (arg_months a) as [n|]; [|done].
      by destruct (Z.eqb_spec n 0). }
    exists N. split; [done|]. split; [|split].
    + intros n Hn Hn0. unfold N. rewrite Hn.
      by destruct (Z.eqb_spec n 0).
    + intros [Hn|Hn]; unfold N; by rewrite Hn.
    + intros all_months. cbn [select_months].
      destruct (Z.eqb_spec N 0); [done|]. split; [done|].
      intros Hpos. by apply py_slice_from_last.
  - intros Hno. assert (Hp : main_partners a = None).
    { unfold main_partners. by rewrite Hno. }
    split; [done|]. intros Hin.
    destruct (run_fetched_prefix w a) as [rest Hrest].
    assert (Hin' : "imports_by_partner" ∈ tables a).
    { rewrite Hrest. apply elem_of_app. by left. }
    unfold tables in Hin'. rewrite Hp, app_nil_r in Hin'.
    repeat (apply elem_of_cons in Hin' as [Hin'|Hin']; [done|]).
    by apply elem_of_nil in Hin'.
Qed.

(** C5.  The sentence of the claim that [N] is the value of [--months] when
    it is given fails on [--months 0]: [args.months or 24] takes the 0 for a
    missing value, so the selection is the last 24 codes, not
    [all_months[-0:]], which is the whole list.  The help of the flag
    promises the last [N] months, with 24 as the default only. *)
Lemma months_zero_counterexample :
  arg_all months_zero_args = false
  ∧ arg_months months_zero_args = Some 0
  ∧ main_months months_zero_args = Some 24
  ∧ select_months (seq 0 30) (main_months months_zero_args) = seq 6 24
  ∧ py_slice_from (- 0) (seq 0 30) = seq 0 30.
Proof. vm_compute. repeat split. Qed.

Lemma months_and_partners_selection_witness :
  main_partners no_partners_args = None
  ∧ ("imports_by_partner" ∉ fetched (run example_env no_partners_args).2)
  ∧ (∃ N, main_months no_partners_args = Some N
      ∧ select_months ["2024M11"; "2024M12"; "2025M01"]
          (main_months no_partners_args)
        = py_slice_from (- N) ["2024M11"; "2024M12"; "2025M01"]).
Proof.
  destruct (months_and_partners_selection example_env no_partners_args)
    as (_ & Hm & Hp).
  destruct (Hp eq_refl) as [Hnone Hskip].
  destruct (Hm eq_refl) as (N & HN & _ & _ & Hsel).
  split; [exact Hnone|]. split; [exact Hskip|].
  exists N. split; [exact HN|]. apply Hsel.
Defined.

(** ** The two shapes of an answer *)

Lemma is_jsonstat_dict d :
  is_jsonstat (JDict d)
  = Ret (bool_decide (is_Some (assoc "value" d))
         && bool_decide (is_Some (assoc "dimension" d))).
Proof.
  unfold is_jsonstat. cbn [py_in bind].
  by destruct (bool_decide (is_Some (assoc "value" d))).
Qed.

Lemma table_lookup_no_rows d dim_order :
  no_rows d → table_lookup (JDict d) dim_order = Ret None.
Proof.
  unfold no_rows, table_lookup. cbn [py_get bind]. by intros ->.
Qed.

Lemma map_res_const {A B} (f : A → res B) (g : A → B) l :
  (∀ x, f x = Ret (g x)) → map_res f l = Ret (g <$> l).
Proof.
  intros Hf. induction l as [|x l IH]; [done|].
  cbn [map_res]. rewrite Hf, IH. done.
Qed.

Lemma map_res_seq {A B} (f : nat → res B) (g : A → B) (l : list A) (k : nat) :
  (∀ (i : nat) x, l !! i = Some x → f (k + i)%nat = Ret (g x)) →
  map_res f (seq k (length l)) = Ret (g <$> l).
Proof.
  revert k. induction l as [|x l IH]; intros k Hf; [done|].
  cbn [length seq map_res]. rewrite <- (Nat.add_0_r k) at 1.
  rewrite (Hf 0%nat x eq_refl). cbn [bind]. rewrite IH; [done|].
  intros i y Hi. replace (S k + i)%nat with (k + S i)%nat by lia.
  by apply Hf.
Qed.

(** With neither a ['value'] array nor rows, every record of the trade
    series carries [None]. *)
Lemma trade_series_neither d dim_time dim_var imp_code pick :
  truthy (default (JList []) (assoc "value" d)) = false →
  no_rows d →
  trade_series (JDict d) dim_time dim_var imp_code pick
  = Ret ((λ code, JDict [("period", JStr (normalize_ym code));
                         ("imports_th_eur", JNull)]) <$> pick).
Proof.
  intros Hv Hd. unfold trade_series, trade_coerced.
  cbn [py_get bind]. rewrite Hv, table_lookup_no_rows by done.
  cbn [bind]. apply map_res_seq. intros i code Hi.
  unfold trade_record, py_getitem. cbn [Nat.add]. by rewrite Hi.
Qed.

(** Once the numbers are there, the series is produced: one record for each
    selected code, the record at position [i] holding [tidy_number] of the
    number at position [i], and of [None] when the numbers end before [i]. *)
Lemma trade_series_of_coerced data dim_time dim_var imp_code pick coerced :
  trade_coerced data dim_time dim_var imp_code pick = Ret coerced →
  ∃ series,
    trade_series data dim_time dim_var imp_code pick = Ret series
    ∧ length series = length pick
    ∧ ∀ (i : nat) code, pick !! i = Some code →
        ∃ num,
          tidy_number (default None (coerced !! i)) = Ret num
          ∧ series !! i
            = Some (JDict [("period", JStr (normalize_ym code));
                           ("imports_th_eur", num)]).
Proof.
  intros Hc. unfold trade_series. rewrite Hc. cbn [bind].
  destruct (map_res_all (trade_record pick coerced) (seq 0 (length pick)))
    as [series Hs].
  { intros i [_ Hi]%elem_of_seq. cbn [Nat.add] in Hi.
    destruct (lookup_lt_is_Some_2 pick i Hi) as [code Hcode].
    unfold trade_record, py_getitem. rewrite Hcode. cbn [bind].
    destruct (tidy_number_returns (default None (coerced !! i)))
      as (v & -> & _). by eexists. }
  exists series. split; [done|].
  pose proof (map_res_Ret _ _ _ Hs) as HF.
  pose proof (Forall2_length _ _ _ HF) as Hlen. rewrite length_seq in Hlen.
  split; [done|]. intros i code Hi.
  assert (i < length pick)%nat as Hlt by (by eapply lookup_lt_Some).
  destruct (Forall2_lookup_l _ _ _ i i HF) as (r & Hr & Hrec).
  { by apply lookup_seq. }
  unfold trade_record, py_getitem in Hrec. rewrite Hi in Hrec.
  cbn [bind] in Hrec.
  destruct (tidy_number (default None (coerced !! i))) as [num|e] eqn:Hn;
    [|done].
  cbn [bind] in Hrec. injection Hrec as <-. by exists num.
Qed.

(** C4.  [px_get_meta] and [px_post_data] ask the two bases in order: the
    parsed JSON of the first answer that is [ok] is returned, and when both
    answers are errors a [PxError] made from the second one is raised.
    [fetch_energy_monthly] and [fetch_imports_by_partner] read an answer that
    has both ['value'] and ['dimension'] through the strides, and any other
    through [table_lookup], raising [PxError] when that finds no table.
    [fetch_trade_monthly] reads a non-empty ['value'] array by position:
    its numbers are [coerce_number] of the values, in their order; with no
    such array it goes through [table_lookup], and its numbers are what
    [lookup_table_value] finds for each selected code; with neither it raises
    nothing and leaves every value [None].  In each case the record at
    position [i] holds [tidy_number] of the number at position [i], and
    [None] when there is no such number.  The fuel and tourism fetchers go through
    [table_lookup] alone and raise [PxError] when it finds no table, also on
    an answer in the JSON-stat shape. *)
Theorem two_bases_two_shapes (w : env) (tr : trace) (parts : list string)
    (lang : string) (body d : list (string * json))
    (dim_time dim_a code_a code_b : string) (codes pick : list string)
    (labels : list (string * json)) (fields pairs1 pairs2 : list (string * string)) :
  let url1 := api_join "https://askdata.rks-gov.net/PXWeb/api/v1" parts lang in
  let url2 := api_join "https://askdata.rks-gov.net/api/v1" parts lang in
  let body2 := JDict (with_response_format body) in
  let pause (r : response) : trace :=
    if status_code r =? 429 then [(EvSleep 1, None)] else [] in
  (∀ r1, http w tr (EvGet url1) = Ret r1 →
     (ok r1 = true →
      px_get_meta parts lang w tr = (json_of r1, tr ++ [(EvGet url1, None)]))
     ∧ (ok r1 = false → ∀ r2,
        http w (tr ++ [(EvGet url1, None)]) (EvGet url2) = Ret r2 →
        px_get_meta parts lang w tr
        = (if ok r2 then json_of r2 else Raise (get_error url2 r2),
           tr ++ [(EvGet url1, None); (EvGet url2, None)])))
  ∧ (∀ r1, http w tr (EvPost url1 body2) = Ret r1 →
       (ok r1 = true →
        px_post_data parts body lang w tr
        = (json_of r1, tr ++ [(EvPost url1 body2, None)]))
       ∧ (ok r1 = false → ∀ r2,
          http w (tr ++ (EvPost url1 body2, None) :: pause r1)
            (EvPost url2 body2) = Ret r2 →
          (px_post_data parts body lang w tr).1
          = if ok r2 then json_of r2 else Raise (post_error url2 r2)))
  ∧ (jsonstat_shape d →
       energy_series (JDict d) dim_time dim_a code_a code_b pick
       = energy_jsonstat (JDict d) dim_time dim_a code_a code_b pick
       ∧ partner_series (JDict d) dim_time dim_a codes labels pick
         = partner_jsonstat (JDict d) dim_time dim_a codes labels pick)
  ∧ (¬ jsonstat_shape d →
       energy_series (JDict d) dim_time dim_a code_a code_b pick
       = energy_rows (JDict d) dim_time dim_a code_a code_b pick
       ∧ partner_series (JDict d) dim_time dim_a codes labels pick
         = partner_rows (JDict d) dim_time dim_a codes labels pick)
  ∧ (no_rows d →
       energy_rows (JDict d) dim_time dim_a code_a code_b pick
       = Raise (PxError "Energy table: unexpected response format")
       ∧ partner_rows (JDict d) dim_time dim_a codes labels pick
         = Raise (PxError "Partner table: unexpected response format")
       ∧ fuel_series (JDict d) code_a dim_a dim_time codes fields pick
         = Raise (PxError (code_a +:+ ": unexpected response format"))
       ∧ tourism_region_records (JDict d) dim_time dim_a code_a code_b
           pairs1 pairs2 fields pick
         = Raise (PxError "Tourism region: unexpected response format")
       ∧ tourism_country_records (JDict d) dim_time dim_a code_a pairs1
           fields pick
         = Raise (PxError "Tourism country: unexpected response format")
       ∧ (truthy (default (JList []) (assoc "value" d)) = false →
          trade_series (JDict d) dim_time dim_a code_a pick
          = Ret ((λ code, JDict [("period", JStr (normalize_ym code));
                                 ("imports_th_eur", JNull)]) <$> pick)))
  ∧ (∀ vs, assoc "value" d = Some (JList vs) → vs ≠ [] →
       trade_coerced (JDict d) dim_time dim_a code_a pick
       = map_res coerce_number vs)
  ∧ (truthy (default (JList []) (assoc "value" d)) = false →
     ∀ dim_codes lookup,
       table_lookup (JDict d) [dim_time; dim_a] = Ret (Some (dim_codes, lookup)) →
       trade_coerced (JDict d) dim_time dim_a code_a pick
       = map_res
           (λ code, lookup_table_value dim_codes lookup
                      (dict_of [(dim_time, code); (dim_a, code_a)]))
           pick)
  ∧ (∀ coerced,
       trade_coerced (JDict d) dim_time dim_a code_a pick = Ret coerced →
       ∃ series,
         trade_series (JDict d) dim_time dim_a code_a pick = Ret series
         ∧ length series = length pick
         ∧ ∀ (i : nat) code, pick !! i = Some code →
             ∃ num,
               tidy_number (default None (coerced !! i)) = Ret num
               ∧ series !! i
                 = Some (JDict [("period", JStr (normalize_ym code));
                                ("imports_th_eur", num)]))
  ∧ (∀ e, trade_coerced (JDict d) dim_time dim_a code_a pick = Raise e →
       trade_series (JDict d) dim_time dim_a code_a pick = Raise e).
Proof.
  intros url1 url2 body2 pause.
  split; [|split; [|split; [|split; [|split; [|split; [|split; [|split]]]]]]].
  - intros r1 H1. pose proof (px_get_meta_cases parts lang w tr) as Hc.
    cbv zeta in Hc. fold url1 url2 in Hc. rewrite H1 in Hc.
    split; intros Hok; rewrite Hok in Hc; [done|].
    intros r2 H2. by rewrite H2 in Hc.
  - intros r1 H1. pose proof (px_post_data_cases parts body lang w tr) as Hc.
    cbv zeta in Hc. fold url1 url2 body2 in Hc. rewrite H1 in Hc.
    split; intros Hok; rewrite Hok in Hc; [done|].
    intros r2 H2. fold (pause r1) in Hc. rewrite H2 in Hc. rewrite Hc.
    by destruct (ok r2).
  - intros [Hv Hd]. unfold energy_series, partner_series.
    rewrite is_jsonstat_dict. by rewrite !bool_decide_eq_true_2.
  - intros Hn. unfold energy_series, partner_series.
    rewrite is_jsonstat_dict.
    assert (bool_decide (is_Some (assoc "value" d))
            && bool_decide (is_Some (assoc "dimension" d)) = false) as ->; [|done].
    apply andb_false_iff. unfold jsonstat_shape in Hn.
    destruct (decide (is_Some (assoc "value" d))) as [Hv|Hv].
    + right. apply bool_decide_eq_false_2. tauto.
    + left. by apply bool_decide_eq_false_2.
  - intros Hrows.
    unfold energy_rows, partner_rows, fuel_series, tourism_region_records,
      tourism_country_records.
    rewrite !table_lookup_no_rows by done. cbn [bind].
    split_and!; try done.
    intros Hv. by apply trade_series_neither.
  - intros vs Hv Hne. unfold trade_coerced. cbn [py_get bind].
    rewrite Hv. cbn [default from_option id truthy].
    rewrite bool_decide_eq_false_2 by done. done.
  - intros Hv dim_codes lookup Ht. unfold trade_coerced. cbn [py_get bind].
    rewrite Hv, Ht. done.
  - intros coerced Hc. by apply trade_series_of_coerced.
  - intros e He. unfold trade_series. by rewrite He.
Qed.

(** An answer with neither shape makes [fetch_trade_monthly] write a record
    without a value; no [PxError] is raised.  And an answer in the JSON-stat
    shape is not read through the strides by [fetch_fuel_table]: it raises
    [PxError]. *)
Lemma neither_shape_counterexample :
  ¬ jsonstat_shape example_other_answer
  ∧ no_rows example_other_answer
  ∧ trade_series (JDict example_other_answer) "Viti/muaji" "Variabla" "3"
      ["2025M01"]
    = Ret [JDict [("period", JStr "2025-01"); ("imports_th_eur", JNull)]]
  ∧ jsonstat_shape example_cube
  ∧ fuel_series (JDict example_cube) "Gasoline" "MWH" "Viti/muaji" ["1"; "7"]
      [("1", "import"); ("7", "production")] ["2025M01"]
    = Raise (PxError "Gasoline: unexpected response format").
Proof.
  split; [intros [[v Hv] _]; discriminate Hv|].
  split; [by vm_compute|]. split; [by vm_compute|].
  split; [split; eexists; reflexivity|by vm_compute].
Qed.

Lemma two_bases_two_shapes_witness :
  energy_series (JDict example_other_answer) "Viti/muaji" "MWH" "1" "7"
    ["2025M01"]
  = Raise (PxError "Energy table: unexpected response format")
  ∧ energy_series (JDict example_cube) "Viti/muaji" "MWH" "1" "7"
      ["2025M01"; "2025M02"]
    = energy_jsonstat (JDict example_cube) "Viti/muaji" "MWH" "1" "7"
        ["2025M01"; "2025M02"]
  ∧ trade_coerced example_value_answer "Viti/muaji" "Variabla" "3"
      ["2025M01"; "2025M02"; "2025M03"; "202504"]
    = map_res coerce_number [JInt 100; JStr "1,234.5"; JStr ".."]
  ∧ trade_coerced example_row_answer "Viti/muaji" "Variabla" "3"
      ["2025M01"; "2025M02"; "2025M03"]
    = map_res
        (λ code, lookup_table_value ["Viti/muaji"; "Variabla"]
                   example_row_lookup
                   (dict_of [("Viti/muaji", code); ("Variabla", "3")]))
        ["2025M01"; "2025M02"; "2025M03"]
  ∧ ∃ series,
      trade_series example_value_answer "Viti/muaji" "Variabla" "3"
        ["2025M01"; "2025M02"; "2025M03"; "202504"]
      = Ret series
      ∧ length series = 4%nat
      ∧ ∀ (i : nat) code,
          ["2025M01"; "2025M02"; "2025M03"; "202504"] !! i = Some code →
          ∃ num,
            tidy_number
              (default None
                 ([Some (S754_finite false 7036874417766400 (-46));
                   Some (S754_finite false 5429388417957888 (-42)); None]
                    !! i))
            = Ret num
            ∧ series !! i
              = Some (JDict [("period", JStr (normalize_ym code));
                             ("imports_th_eur", num)]).
Proof.
  split; [|split; [|split; [|split]]].
  - destruct (two_bases_two_shapes example_env [] ["ASKdata"] "en" []
                example_other_answer "Viti/muaji" "MWH" "1" "7" [] ["2025M01"]
                [] [] [] [])
      as (_ & _ & _ & Hrows & Hnone & _).
    assert (Hn : ¬ jsonstat_shape example_other_answer).
    { intros [[v Hv] _]. discriminate Hv. }
    rewrite (proj1 (Hrows Hn)). apply Hnone. reflexivity.
  - destruct (two_bases_two_shapes example_env [] ["ASKdata"] "en" []
                example_cube "Viti/muaji" "MWH" "1" "7" []
                ["2025M01"; "2025M02"] [] [] [] [])
      as (_ & _ & Hstat & _).
    apply Hstat. split; eexists; reflexivity.
  - destruct (two_bases_two_shapes example_env [] ["ASKdata"] "en" []
                [("value", JList [JInt 100; JStr "1,234.5"; JStr ".."])]
                "Viti/muaji" "Variabla" "3" "" []
                ["2025M01"; "2025M02"; "2025M03"; "202504"] [] [] [] [])
      as (_ & _ & _ & _ & _ & Hvalue & _).
    apply Hvalue; [reflexivity|discriminate].
  - destruct (two_bases_two_shapes example_env [] ["ASKdata"] "en" []
                (match example_row_answer with JDict d => d | _ => [] end)
                "Viti/muaji" "Variabla" "3" "" []
                ["2025M01"; "2025M02"; "2025M03"] [] [] [] [])
      as (_ & _ & _ & _ & _ & _ & Htable & _).
    apply Htable; vm_compute; reflexivity.
  - destruct (two_bases_two_shapes example_env [] ["ASKdata"] "en" []
                [("value", JList [JInt 100; JStr "1,234.5"; JStr ".."])]
                "Viti/muaji" "Variabla" "3" "" []
                ["2025M01"; "2025M02"; "2025M03"; "202504"] [] [] [] [])
      as (_ & _ & _ & _ & _ & _ & _ & Hseries & _).
    apply Hseries. vm_compute. reflexivity.
Defined.

(** With one answer less than selected codes, the last record is left
    without a value. *)
Example trade_coerced_value_answer :
  trade_coerced example_value_answer "Viti/muaji" "Variabla" "3"
    ["2025M01"; "2025M02"; "2025M03"; "202504"]
  = Ret [Some (S754_finite false 7036874417766400 (-46));
         Some (S754_finite false 5429388417957888 (-42)); None].
Proof. vm_compute. reflexivity. Qed.

Example energy_series_cube :
  energy_series (JDict example_cube) "Viti/muaji" "MWH" "1" "7"
    ["2025M01"; "2025M02"; "2025M03"]
  = Ret [JDict [("period", JStr "2025-01"); ("import_gwh", JInt 10);
                ("production_gwh", JInt 400)];
         JDict [("period", JStr "2025-02"); ("import_gwh", JInt 20);
                ("production_gwh", JNull)];
         JDict [("period", JStr "2025-03");
                ("import_gwh", JFloat (S754_finite false 8584986789675008 (-48)));
                ("production_gwh", JInt 600)]].
Proof. vm_compute. reflexivity. Qed.

(** ** Runs *)

(** When the fetch of the trade table raises, the exception is not caught:
    the run ends with exit code 2 and no other table is fetched. *)
Lemma trade_failure_counterexample :
  (run trade_down_env default_args).1 = 2
  ∧ fetched (run trade_down_env default_args).2 = ["trade_monthly"]
  ∧ last (run trade_down_env default_args).2
    = Some (EvPrintErr "FAILED:" (Some (PxError "GET failed")), None).
Proof. vm_compute. repeat split. Qed.

Example run_example :
  (run example_env default_args).1 = 0
  ∧ fetched (run example_env default_args).2 = tables default_args
  ∧ (run example_env default_args).2 !! 8%nat
    = Some (EvFetch "fuel_diesel" (Some 24) None, Some (PxError "no diesel"))
  ∧ (run example_env default_args).2 !! 9%nat
    = Some (EvPrint "! Fuel diesel download failed:"
              (Some (PxError "no diesel")), None)
  ∧ (run example_env default_args).2 !! 10%nat
    = Some (EvFetch "fuel_lng" (Some 24) None, None).
Proof. vm_compute. repeat split. Qed.

Lemma guarded_failures_are_logged_witness :
  ∃ line next,
    (run example_env default_args).2 !! 9%nat
    = Some (EvPrint line (Some (PxError "no diesel")), None)
    ∧ (run example_env default_args).2 !! 10%nat = Some next
    ∧ continues default_args "fuel_diesel" next.1.
Proof.
  apply (proj1 (guarded_failures_are_logged example_env default_args)
           8%nat "fuel_diesel" (Some 24) None (PxError "no diesel")).
  - vm_compute. reflexivity.
  - discriminate.
  - discriminate.
Defined.

Lemma retry_is_one_sleep_after_429_witness :
  ∃ evs, (px_post_data ["ASKdata"] [] "en" example_env []).2 = evs
    ∧ evs !! 1%nat = Some (EvSleep 1, None)
    ∧ evs !! 3%nat = Some (EvSleep 1, None).
Proof.
  destruct (retry_is_one_sleep_after_429 ["ASKdata"] [] "en" example_env [])
    as [(evs & Heq & _ & _ & _ & Hp) _].
  cbn [app] in Heq. exists evs. split; [exact Heq|]. split.
  - refine (proj1 (Hp 0%nat _ _ busy_response _ eq_refl eq_refl)).
    rewrite <- Heq. vm_compute. reflexivity.
  - refine (proj1 (Hp 2%nat _ _ busy_response _ eq_refl eq_refl)).
    rewrite <- Heq. vm_compute. reflexivity.
Defined.

(** ** Witnesses for the codes and the metadata *)

(** A seven-character code with a hyphen in fifth place is not returned as
    it is when it contains ['M']: the rule for ['M'] comes first, and what
    comes out is not of the form ['YYYY-MM']. *)
Lemma hyphen_with_M_counterexample :
  len "2025-M1" = 7%nat
  ∧ String.get 4 "2025-M1" = Some "-"%char
  ∧ normalize_ym "2025-M1" = "2025--01"
  ∧ normalize_ym "2025-M1" ≠ "2025-M1"
  ∧ ¬ is_yyyy_mm (normalize_ym "2025-M1").
Proof.
  split; [reflexivity|]. split; [reflexivity|]. split; [reflexivity|].
  split; [discriminate|].
  intros (y & m & Heq & Hy & _ & Hm & _).
  apply (f_equal String.length) in Heq. rewrite !length_append in Heq.
  change (String.length (normalize_ym "2025-M1")) with 8%nat in Heq.
  unfold len in Hy, Hm. simpl in Heq. lia.
Qed.

Lemma normalize_ym_shapes_witness :
  normalize_ym "202508" = "2025-08"
  ∧ normalize_ym "2025M8" = "2025-08"
  ∧ is_yyyy_mm (normalize_ym "2025M8")
  ∧ normalize_ym "2025-08" = "2025-08"
  ∧ normalize_ym "2025" = "2025".
Proof.
  split; [|split; [|split; [|split]]].
  - apply (proj1 (proj1 (normalize_ym_shapes "202508") eq_refl eq_refl)).
  - apply (proj1 (proj1 (proj2 (normalize_ym_shapes "2025M8"))
                    "2025" "8" eq_refl eq_refl)).
  - apply (proj2 (proj1 (proj2 (normalize_ym_shapes "2025M8"))
                    "2025" "8" eq_refl eq_refl)); [reflexivity..|].
    simpl. lia.
  - apply (proj1 (proj2 (proj2 (normalize_ym_shapes "2025-08")))
             eq_refl eq_refl eq_refl).
  - apply (proj1 (proj2 (proj2 (proj2 (normalize_ym_shapes "2025"))))).
    + intros [_ H]. discriminate H.
    + reflexivity.
Defined.

Example meta_time_codes_example :
  meta_time_codes example_meta "Viti/muaji"
  = Ret [JStr "2025M01"; JStr "2025M02"; JStr "2025M03"]
  ∧ meta_time_codes example_meta "Variabla" = Ret [JStr "1"; JStr "3"]
  ∧ meta_time_codes example_meta "Unit" = Ret [].
Proof. vm_compute. repeat split. Qed.

Lemma meta_time_codes_order_witness :
  meta_time_codes example_meta "Viti/muaji"
  = Ret (reverse [JStr "2025M03"; JStr "2025M02"; JStr "2025M01"])
  ∧ meta_time_codes example_meta "Variabla" = Ret [JStr "1"; JStr "3"]
  ∧ meta_time_codes (JDict []) "Viti/muaji" = Ret [].
Proof.
  split; [|split].
  - refine (proj1 (proj1 (proj2 (meta_time_codes_order example_meta
      "Viti/muaji" _ eq_refl)
      [JDict [("code", JStr "Variabla"); ("text", JStr "Variables");
              ("values", JList [JStr "1"; JStr "3"]);
              ("valueTexts", JList [JStr "Exports (FOB)";
                                    JStr "Imports (CIF)"])]]
      _ [] _ eq_refl _ eq_refl eq_refl) eq_refl)).
    constructor; [|constructor]. eexists. split; [reflexivity|]. discriminate.
  - refine (proj2 (proj2 (meta_time_codes_order example_meta
      "Variabla" _ eq_refl) [] _ [_] _ eq_refl _ eq_refl eq_refl) _).
    + constructor.
    + discriminate.
  - apply (proj1 (meta_time_codes_order (JDict []) "Viti/muaji" [] eq_refl)).
    constructor.
Defined.

(** * More of the script *)

(** ** Cells and positions of a cube *)

Lemma pos_suffix_bounds sizes coords :
  Forall2 (λ c z, 0 ≤ c < z) coords sizes →
  0 ≤ pos (suffix_products sizes) coords < product sizes.
Proof.
  intros H. destruct (pos_row_major sizes coords H) as [-> ?]. done.
Qed.

Lemma pos_suffix_injective sizes c1 c2 :
  Forall2 (λ c z, 0 ≤ c < z) c1 sizes →
  Forall2 (λ c z, 0 ≤ c < z) c2 sizes →
  pos (suffix_products sizes) c1 = pos (suffix_products sizes) c2 → c1 = c2.
Proof.
  intros H1. revert c2. induction H1 as [|a z cs zs Ha Hcs IH]; intros c2 H2.
  - by inversion H2.
  - inversion H2 as [|b z' ds zs' Hb Hds]; subst.
    simpl suffix_products. rewrite !pos_cons. intros Heq.
    pose proof (pos_suffix_bounds zs cs Hcs) as B1.
    pose proof (pos_suffix_bounds zs ds Hds) as B2.
    assert (a = b) as -> by nia.
    f_equal. apply IH; [done|]. lia.
Qed.

Lemma product_pos sizes : Forall (λ z, 0 < z) sizes → 0 < product sizes.
Proof.
  induction 1 as [|z zs Hz _ IH]; [done|].
  change (product (z :: zs)) with (z * product zs). nia.
Qed.

Lemma pos_suffix_surjective sizes k :
  Forall (λ z, 0 < z) sizes →
  0 ≤ k < product sizes →
  ∃ coords, Forall2 (λ c z, 0 ≤ c < z) coords sizes
            ∧ pos (suffix_products sizes) coords = k.
Proof.
  intros Hs. revert k. induction Hs as [|z zs Hz Hzs IH]; intros k Hk.
  - exists []. split; [constructor|]. unfold product in Hk. simpl in Hk.
    unfold pos. simpl. lia.
  - change (product (z :: zs)) with (z * product zs) in Hk.
    pose proof (product_pos zs Hzs) as HP.
    destruct (IH (k mod product zs)) as (cs & Hcs & Hpos).
    { by apply Z.mod_pos_bound. }
    exists (k / product zs :: cs). split.
    + constructor; [|done]. split; [by apply Z.div_pos; lia|].
      apply Z.div_lt_upper_bound; lia.
    + simpl suffix_products. rewrite pos_cons, Hpos.
      rewrite (Z.div_mod k (product zs)) at 3 by lia. lia.
Qed.

(** X1.  With the strides the loop computes, two different cells of a cube
    are never read at the same position of the flattened array; and when
    every size is positive, every position below the product of the sizes is
    the position of a cell. *)
Theorem pos_bijection (sizes strides : list Z) :
  compute_strides sizes = Ret strides →
  (∀ c1 c2,
     Forall2 (λ c z, 0 ≤ c < z) c1 sizes →
     Forall2 (λ c z, 0 ≤ c < z) c2 sizes →
     pos strides c1 = pos strides c2 → c1 = c2)
  ∧ (Forall (λ z, 0 < z) sizes →
     ∀ k, 0 ≤ k < product sizes →
       ∃ coords, Forall2 (λ c z, 0 ≤ c < z) coords sizes
                 ∧ pos strides coords = k).
Proof.
  rewrite compute_strides_eq. intros [= <-]. split.
  - apply pos_suffix_injective.
  - intros Hs k. by apply pos_suffix_surjective.
Qed.

Lemma pos_bijection_witness :
  ∃ coords, Forall2 (λ c z, 0 ≤ c < z) coords [2; 3; 4]
            ∧ pos [12; 4; 1] coords = 23.
Proof.
  apply (proj2 (pos_bijection [2; 3; 4] [12; 4; 1] eq_refl)).
  - repeat constructor.
  - vm_compute. split; [discriminate|reflexivity].
Defined.

(** ** The order of the assignments *)

Lemma fill_key_start dim_codes items :
  NoDup items.*1 →
  (fill_key dim_codes items (replicate (length dim_codes) None) = Ret None
   ∧ ∃ k, k ∈ items.*1 ∧ k ∉ dim_codes)
  ∨ (∃ key, fill_key dim_codes items (replicate (length dim_codes) None)
            = Ret (Some key)
     ∧ length key = length dim_codes
     ∧ (∀ k, k ∈ items.*1 → k ∈ dim_codes)
     ∧ ∀ (i : nat) s, key !! i = Some (Some s) ↔
         ∃ k, (k, s) ∈ items ∧ py_index dim_codes k = Ret i).
Proof.
  intros Hnd.
  apply (fill_key_spec dim_codes [] items); [done|by rewrite length_replicate|].
  intros i s. split.
  - intros [[=] _]%lookup_replicate_1.
  - intros (k & Hk & _). by apply elem_of_nil in Hk.
Qed.

Lemma option_list_eq (k1 k2 : list (option string)) :
  length k1 = length k2 →
  (∀ (i : nat) s, k1 !! i = Some (Some s) ↔ k2 !! i = Some (Some s)) →
  k1 = k2.
Proof.
  intros Hlen H. apply list_eq. intros i.
  destruct (k1 !! i) as [[s|]|] eqn:H1.
  - symmetry. by apply H.
  - destruct (k2 !! i) as [[s|]|] eqn:H2; [|done|].
    + apply H in H2. congruence.
    + apply lookup_ge_None in H2. apply lookup_lt_Some in H1. lia.
  - destruct (k2 !! i) as [[s|]|] eqn:H2; [| |done].
    + apply H in H2. congruence.
    + apply lookup_ge_None in H1. apply lookup_lt_Some in H2. lia.
Qed.

(** X2.  [lookup_table_value] does not depend on the order in which the
    dict of assignments lists its items. *)
Theorem lookup_table_value_order (dim_codes : list string)
    (lookup : gmap (list string) (option float))
    (assignments assignments' : list (string * string)) :
  NoDup assignments.*1 →
  assignments ≡ₚ assignments' →
  lookup_table_value dim_codes lookup assignments
  = lookup_table_value dim_codes lookup assignments'.
Proof.
  intros Hnd Hp.
  assert (Hnd' : NoDup assignments'.*1) by (by rewrite <- Hp).
  unfold lookup_table_value.
  destruct (fill_key_start dim_codes assignments Hnd)
    as [[-> (k & Hk & Hnk)]|(key & -> & Hlen & Hall & Hinv)];
  destruct (fill_key_start dim_codes assignments' Hnd')
    as [[-> (k' & Hk' & Hnk')]|(key' & -> & Hlen' & Hall' & Hinv')].
  - done.
  - destruct Hnk. apply Hall'. by rewrite <- Hp.
  - destruct Hnk'. apply Hall. by rewrite Hp.
  - assert (key = key') as ->; [|done].
    apply option_list_eq; [congruence|].
    intros i s. rewrite Hinv, Hinv'. by setoid_rewrite Hp.
Qed.

Lemma lookup_table_value_order_witness :
  lookup_table_value ["Viti/muaji"; "Variabla"]
    {[ ["2025M08"; "3"] := Some (S754_zero false) ]}
    [("Viti/muaji", "2025M08"); ("Variabla", "3")]
  = lookup_table_value ["Viti/muaji"; "Variabla"]
      {[ ["2025M08"; "3"] := Some (S754_zero false) ]}
      [("Variabla", "3"); ("Viti/muaji", "2025M08")].
Proof.
  apply lookup_table_value_order.
  - apply (bool_decide_unpack _). vm_compute. exact I.
  - apply perm_swap.
Defined.

(** ** Rows and lookups *)

Lemma hash_key_length elems ks :
  hash_key elems = Ret (Some ks) → length ks = length elems.
Proof.
  revert ks. induction elems as [|x elems IH]; intros ks; cbn [hash_key].
  - by intros [= <-].
  - destruct x; try done.
    all: destruct (hash_key elems) as [[ks'|]|e]; cbn [bind option_map]; try done.
    intros [= <-]. simpl. f_equal. by apply IH.
Qed.

Lemma py_len_iter v (n : nat) elems :
  py_len v = Ret n → py_iter v = Ret elems → length elems = n.
Proof.
  destruct v; try done; cbn [py_len py_iter]; intros [= <-] [= <-].
  - unfold len. induction s as [|c s IH]; simpl; congruence.
  - done.
  - by rewrite length_fmap, length_fmap.
Qed.

Lemma row_key_length dim_codes row ks :
  row_key dim_codes row = Some ks → length ks = length dim_codes.
Proof.
  unfold row_key. destruct (py_get row "key" _) as [kv|]; [|done].
  destruct (py_len kv) as [n|] eqn:Hn; [|done].
  destruct (py_iter kv) as [elems|] eqn:Hi; [|done].
  case_decide as Hlen; [|done].
  destruct (hash_key elems) as [[ks'|]|] eqn:Hh; try done.
  intros [= <-]. rewrite (hash_key_length _ _ Hh).
  by rewrite (py_len_iter _ _ _ Hn Hi).
Qed.

(** One turn of the loop. *)
Lemma table_rows_cons dim_codes row rest lookup lookup' :
  table_rows dim_codes (row :: rest) lookup = Ret lookup' →
  ∃ lookup1, table_rows dim_codes rest lookup1 = Ret lookup'
    ∧ match row_key dim_codes row with
      | Some ks => ∃ num, row_number row = Ret num ∧ lookup1 = <[ks:=num]> lookup
      | None => lookup1 = lookup
      end.
Proof.
  cbn [table_rows]. unfold row_key, row_number.
  destruct (py_get row "key" _) as [kv|]; cbn [bind]; [|done].
  destruct (py_len kv) as [n|] eqn:Hn; cbn [bind]; [|done].
  destruct (decide (n ≠ length dim_codes)) as [Hne|Heq].
  { intros H. exists lookup. split; [done|].
    destruct (py_iter kv); [|done]. by rewrite decide_False. }
  apply dec_stable in Heq.
  destruct (row_value row) as [val|]; cbn [bind]; [|done].
  destruct (coerce_number val) as [num|]; cbn [bind]; [|done].
  destruct (py_iter kv) as [elems|]; cbn [bind]; [|done].
  destruct (hash_key elems) as [[ks|]|]; cbn [bind]; [| |done].
  - intros H. eexists. split; [exact H|]. rewrite decide_True by done. eauto.
  - intros H. eexists. split; [exact H|]. by rewrite decide_True.
Qed.

Lemma table_rows_app dim_codes pre post lookup lookup' :
  table_rows dim_codes (pre ++ post) lookup = Ret lookup' →
  ∃ lookup1, table_rows dim_codes pre lookup = Ret lookup1
             ∧ table_rows dim_codes post lookup1 = Ret lookup'.
Proof.
  revert lookup. induction pre as [|row pre IH]; intros lookup H.
  - by exists lookup.
  - rewrite <- app_comm_cons in H.
    destruct (table_rows_cons _ _ _ _ _ H) as (l1 & Hrest & Hrow).
    destruct (IH _ Hrest) as (l2 & Hpre & Hpost). exists l2. split; [|done].
    revert Hrow H Hpre. clear. 
    cbn [table_rows]. unfold row_key, row_number.
    destruct (py_get row "key" _) as [kv|]; cbn [bind]; [|done].
    destruct (py_len kv) as [n|] eqn:Hn; cbn [bind]; [|done].
    destruct (decide (n ≠ length dim_codes)) as [Hne|Heq].
    { destruct (py_iter kv); [|by intros ->]. rewrite decide_False by done.
      by intros ->. }
    apply dec_stable in Heq.
    destruct (row_value row) as [val|]; cbn [bind]; [|done].
    destruct (coerce_number val) as [num|]; cbn [bind]; [|done].
    destruct (py_iter kv) as [elems|]; cbn [bind]; [|done].
    destruct (hash_key elems) as [[ks|]|]; cbn [bind]; [| |done].
    + rewrite decide_True by done. by intros (? & [= <-] & ->).
    + rewrite decide_True by done. by intros ->.
Qed.
Lemma table_rows_other dim_codes rows lookup lookup' ks :
  table_rows dim_codes rows lookup = Ret lookup' →
  Forall (λ row, row_key dim_codes row ≠ Some ks) rows →
  lookup' !! ks = lookup !! ks.
Proof.
  revert lookup. induction rows as [|row rows IH]; intros lookup H Hall.
  - by injection H as <-.
  - apply Forall_cons in Hall as [Hrow Hall].
    destruct (table_rows_cons _ _ _ _ _ H) as (l1 & Hrest & Hl1).
    rewrite (IH _ Hrest Hall).
    destruct (row_key dim_codes row) as [ks'|]; [|by subst].
    destruct Hl1 as (num & _ & ->). apply lookup_insert_ne. congruence.
Qed.

Lemma table_rows_entries dim_codes rows lookup lookup' ks v :
  table_rows dim_codes rows lookup = Ret lookup' →
  lookup' !! ks = Some v →
  lookup !! ks = Some v
  ∨ ∃ row, row ∈ rows ∧ row_key dim_codes row = Some ks
           ∧ row_number row = Ret v.
Proof.
  revert lookup. induction rows as [|row rows IH]; intros lookup H Hv.
  - injection H as <-. by left.
  - destruct (table_rows_cons _ _ _ _ _ H) as (l1 & Hrest & Hl1).
    destruct (IH _ Hrest Hv) as [Hin|(r & Hr & Hk & Hn)].
    + destruct (row_key dim_codes row) as [ks'|] eqn:Hk; [|subst; by left].
      destruct Hl1 as (num & Hnum & ->).
      destruct (decide (ks' = ks)) as [->|Hne].
      * rewrite lookup_insert_eq in Hin. injection Hin as ->.
        right. exists row. split; [apply list_elem_of_here|done].
      * rewrite lookup_insert_ne in Hin by done. by left.
    + right. exists r. split; [by apply list_elem_of_further|done].
Qed.

(** What [table_lookup] returns is what the loop makes of the rows. *)
Lemma table_lookup_rows d dim_order dim_codes lookup rows :
  table_lookup (JDict d) dim_order = Ret (Some (dim_codes, lookup)) →
  assoc "data" d = Some (JList rows) →
  table_rows dim_codes rows ∅ = Ret lookup.
Proof.
  unfold table_lookup. cbn [py_get bind]. intros H Hd. rewrite Hd in H.
  change (default JNull (Some (JList rows))) with (JList rows) in H.
  destruct (negb (truthy (JList rows))); [done|].
  set (cols := if truthy (default JNull (assoc "columns" d)) then _ else _) in H.
  apply bind_Ret in H as ([dims|] & Hdims & H); [|done].
  cbn [py_iter bind] in H.
  apply bind_Ret in H as (lk & Hlk & [= <- <-]). done.
Qed.

Lemma py_index_NoDup (l : list string) x (i : nat) :
  NoDup l → l !! i = Some x → py_index l x = Ret i.
Proof.
  intros Hnd Hi.
  destruct (py_index_elem l x) as [j Hj]; [by eapply list_elem_of_lookup_2|].
  destruct (py_index_Ret _ _ _ Hj) as [Hj' _].
  by rewrite Hj, (NoDup_lookup _ _ _ _ Hnd Hj' Hi).
Qed.

Lemma fill_key_zip (dim_codes ks : list string) :
  NoDup dim_codes → length ks = length dim_codes →
  fill_key dim_codes (zip dim_codes ks) (replicate (length dim_codes) None)
  = Ret (Some (Some <$> ks)).
Proof.
  intros Hnd Hlen.
  assert (Hfst : (zip dim_codes ks).*1 = dim_codes).
  { apply fst_zip. lia. }
  destruct (fill_key_start dim_codes (zip dim_codes ks))
    as [[_ (k & Hk & Hnk)]|(key & -> & Hl & _ & Hinv)].
  - by rewrite Hfst.
  - destruct Hnk. by rewrite Hfst in Hk.
  - do 2 f_equal. apply option_list_eq; [by rewrite length_fmap; lia|].
    intros i s. rewrite Hinv, list_lookup_fmap. split.
    + intros (k & Hin & Hidx).
      apply list_elem_of_lookup in Hin as [j Hj].
      apply lookup_zip_with_Some in Hj as (k' & s' & [= <- <-] & Hk & Hs).
      rewrite (py_index_NoDup _ _ _ Hnd Hk) in Hidx. injection Hidx as <-.
      by rewrite Hs.
    + intros Hs. destruct (ks !! i) as [s'|] eqn:Hks; [|done].
      injection Hs as <-.
      destruct (lookup_lt_is_Some_2 dim_codes i) as [k Hk].
      { rewrite <- Hlen. by eapply lookup_lt_Some. }
      exists k. split; [|by apply py_index_NoDup].
      apply list_elem_of_lookup. exists i.
      apply lookup_zip_with_Some. by exists k, s'.
Qed.

Lemma lookup_table_value_zip (dim_codes ks : list string)
    (lookup : gmap (list string) (option float)) :
  NoDup dim_codes → length ks = length dim_codes →
  lookup_table_value dim_codes lookup (zip dim_codes ks)
  = Ret (default None (lookup !! ks)).
Proof.
  intros Hnd Hlen. unfold lookup_table_value.
  rewrite fill_key_zip by done. cbn [bind].
  assert (existsb (λ v : option string, bool_decide (v = None)) (Some <$> ks)
          = false) as ->.
  { clear. induction ks; [done|]. simpl. done. }
  unfold key_tuple. do 3 f_equal. clear.
  induction ks as [|k ks IH]; [done|]. rewrite fmap_cons. cbn. by f_equal.
Qed.
(** X3.  A row whose key has one string for each dimension can be read
    back: unless a later row has the same key, the lookup holds under that
    key the number [coerce_number] makes of the row's value, and
    [lookup_table_value] returns it for the assignments that give each
    dimension its part of the key (the dimension codes being distinct). *)
Theorem table_lookup_round_trip (d : list (string * json))
    (dim_order dim_codes : list string)
    (lookup : gmap (list string) (option float))
    (pre post : list json) (row : json) (ks : list string) :
  table_lookup (JDict d) dim_order = Ret (Some (dim_codes, lookup)) →
  assoc "data" d = Some (JList (pre ++ row :: post)) →
  row_key dim_codes row = Some ks →
  Forall (λ r, row_key dim_codes r ≠ Some ks) post →
  ∃ num, row_number row = Ret num
    ∧ lookup !! ks = Some num
    ∧ (NoDup dim_codes →
       lookup_table_value dim_codes lookup (zip dim_codes ks) = Ret num).
Proof.
  intros Ht Hd Hk Hpost.
  pose proof (table_lookup_rows _ _ _ _ _ Ht Hd) as Hrows.
  apply table_rows_app in Hrows as (l1 & _ & Hrows).
  destruct (table_rows_cons _ _ _ _ _ Hrows) as (l2 & Hrest & Hrow).
  rewrite Hk in Hrow. destruct Hrow as (num & Hnum & ->).
  exists num. split; [done|].
  assert (Hl : lookup !! ks = Some num).
  { rewrite (table_rows_other _ _ _ _ _ Hrest Hpost).
    apply lookup_insert_eq. }
  split; [done|]. intros Hnd.
  rewrite lookup_table_value_zip by (by try eapply row_key_length).
  by rewrite Hl.
Qed.

(** X4.  Every entry of the lookup comes from a row: its key has one string
    for each dimension and is the key of a row of the data, and its value is
    the number of that row.  Rows whose key has another length leave no
    entry. *)
Theorem table_lookup_entries (d : list (string * json))
    (dim_order dim_codes : list string)
    (lookup : gmap (list string) (option float))
    (rows : list json) (ks : list string) (v : option float) :
  table_lookup (JDict d) dim_order = Ret (Some (dim_codes, lookup)) →
  assoc "data" d = Some (JList rows) →
  lookup !! ks = Some v →
  length ks = length dim_codes
  ∧ ∃ row, row ∈ rows ∧ row_key dim_codes row = Some ks
           ∧ row_number row = Ret v.
Proof.
  intros Ht Hd Hv.
  pose proof (table_lookup_rows _ _ _ _ _ Ht Hd) as Hrows.
  destruct (table_rows_entries _ _ _ _ _ _ Hrows Hv)
    as [He|(row & Hin & Hk & Hn)]; [by rewrite lookup_empty in He|].
  split; [by eapply row_key_length|]. eauto.
Qed.

Lemma table_lookup_round_trip_witness :
  ∃ num,
    row_number (JDict [("key", JList [JStr "2025M02"; JStr "3"]);
                       ("values", JList [JStr "7.25"])]) = Ret num
    ∧ example_row_lookup !! ["2025M02"; "3"] = Some num
    ∧ (NoDup ["Viti/muaji"; "Variabla"] →
       lookup_table_value ["Viti/muaji"; "Variabla"] example_row_lookup
         (zip ["Viti/muaji"; "Variabla"] ["2025M02"; "3"]) = Ret num).
Proof.
  apply (table_lookup_round_trip
           (match example_row_answer with JDict d => d | _ => [] end) []
           ["Viti/muaji"; "Variabla"] example_row_lookup
           [JDict [("key", JList [JStr "2025M01"; JStr "3"]);
                   ("values", JList [JStr "12.0"])]]
           []
           (JDict [("key", JList [JStr "2025M02"; JStr "3"]);
                   ("values", JList [JStr "7.25"])])
           ["2025M02"; "3"]).
  - vm_compute. reflexivity.
  - reflexivity.
  - reflexivity.
  - constructor.
Defined.

Lemma table_lookup_entries_witness :
  length ["2025M01"; "3"] = length ["Viti/muaji"; "Variabla"]
  ∧ ∃ row,
      row ∈ [JDict [("key", JList [JStr "2025M01"; JStr "3"]);
                    ("values", JList [JStr "12.0"])];
             JDict [("key", JList [JStr "2025M02"; JStr "3"]);
                    ("values", JList [JStr "7.25"])]]
      ∧ row_key ["Viti/muaji"; "Variabla"] row = Some ["2025M01"; "3"]
      ∧ row_number row
        = Ret (Some (S754_finite false 6755399441055744 (-49))).
Proof.
  apply (table_lookup_entries
           (match example_row_answer with JDict d => d | _ => [] end) []
           ["Viti/muaji"; "Variabla"] example_row_lookup).
  - vm_compute. reflexivity.
  - reflexivity.
  - vm_compute. reflexivity.
Defined.

(** ** Field names *)

Lemma lower_char_slug c :
  not_alnum (lower_char c) = false → slug_char (lower_char c) = true.
Proof. destruct c as [[] [] [] [] [] [] [] []]; vm_compute; congruence. Qed.

Lemma slug_char_cases c :
  slug_char c = true →
  is_space_char c = false ∧ lower_char c = c
  ∧ (not_alnum c = true ↔ c = "_"%char).
Proof.
  destruct c as [[] [] [] [] [] [] [] []]; vm_compute; try congruence.
  all: intros _; split; [done|]; split; [done|]; split; congruence.
Qed.

Lemma str_all_lower_slug b s :
  str_all slug_char (sub_runs not_alnum b (lower s)) = true.
Proof.
  revert b. induction s as [|c s IH]; intros b; [done|].
  cbn [lower sub_runs]. destruct (not_alnum (lower_char c)) eqn:Hc.
  - destruct b; [apply IH|]. cbn [str_all]. by rewrite IH.
  - cbn [str_all]. by rewrite lower_char_slug, IH.
Qed.

Lemma str_all_sub_runs (p : ascii → bool) b s :
  str_all slug_char s = true →
  str_all slug_char (sub_runs p b s) = true.
Proof.
  revert b. induction s as [|c s IH]; intros b; [done|].
  cbn [str_all sub_runs]. intros [Hc Hs]%andb_prop.
  destruct (p c).
  - destruct b; [by apply IH|]. cbn [str_all]. by rewrite IH.
  - cbn [str_all]. by rewrite Hc, IH.
Qed.

Lemma str_all_lstrip_char c s :
  str_all slug_char s = true → str_all slug_char (lstrip_char c s) = true.
Proof.
  induction s as [|a s IH]; [done|]. cbn [lstrip_char str_all].
  intros H. case_decide; [|done]. apply andb_prop in H as [_ H]. auto.
Qed.

Lemma str_all_rstrip_char c s :
  str_all slug_char s = true → str_all slug_char (rstrip_char c s) = true.
Proof.
  induction s as [|a s IH]; [done|]. cbn [rstrip_char str_all].
  intros [Ha Hs]%andb_prop. specialize (IH Hs).
  destruct (rstrip_char c s) as [|b t].
  - case_decide; [done|]. cbn [str_all]. by rewrite Ha.
  - cbn [str_all] in *. by rewrite Ha.
Qed.

(** No two underscores in a row. *)
Lemma no_double_cons a s :
  str_infix "__" (String a s) = false ↔
  ¬ (a = "_"%char ∧ str_head s = Some "_"%char) ∧ str_infix "__" s = false.
Proof.
  cbn [str_infix str_prefix]. rewrite orb_false_iff.
  destruct s as [|b s]; cbn [str_head str_prefix].
  - rewrite andb_false_r. split; [intros [_ H]|intros [_ H]]; split; try done.
    by intros [_ ?].
  - rewrite andb_true_r, andb_false_iff, !bool_decide_eq_false.
    split; intros [H1 H2]; (split; [|done]).
    + intros [-> [= ->]]. by destruct H1.
    + destruct (decide ("_"%char = a)) as [<-|]; [|by left].
      right. intros <-. by destruct H1.
Qed.

Lemma sub_runs_no_double (p : ascii → bool) b s :
  p "_"%char = true →
  str_infix "__" (sub_runs p b s) = false
  ∧ (b = true → str_head (sub_runs p b s) ≠ Some "_"%char).
Proof.
  intros Hp. revert b. induction s as [|c s IH]; intros b; [done|].
  cbn [sub_runs]. destruct (p c) eqn:Hc.
  - destruct b; [apply IH|]. split; [|done].
    apply no_double_cons. split; [|apply IH].
    intros [_ H]. by apply (proj2 (IH true)).
  - split.
    + apply no_double_cons. split; [|apply IH].
      intros [-> _]. congruence.
    + intros _ [= ->]. congruence.
Qed.

Lemma no_double_lstrip c s :
  str_infix "__" s = false → str_infix "__" (lstrip_char c s) = false.
Proof.
  induction s as [|a s IH]; [done|]. intros H. cbn [lstrip_char].
  case_decide; [|done]. apply IH. by apply no_double_cons in H as [_ H].
Qed.

Lemma str_head_rstrip c s a :
  str_head (rstrip_char c s) = Some a → str_head s = Some a.
Proof.
  destruct s as [|b s]; [done|]. cbn [rstrip_char].
  destruct (rstrip_char c s); [case_decide|]; done.
Qed.

Lemma no_double_rstrip c s :
  str_infix "__" s = false → str_infix "__" (rstrip_char c s) = false.
Proof.
  induction s as [|a s IH]; [done|]. intros H.
  apply no_double_cons in H as [Ha Hs]. specialize (IH Hs).
  cbn [rstrip_char]. destruct (rstrip_char c s) as [|b t] eqn:Hr.
  - case_decide; [done|]. apply no_double_cons. split; [|done]. by intros [_ ?].
  - apply no_double_cons. split; [|done]. intros [-> Hb].
    apply Ha. split; [done|]. apply (str_head_rstrip c). by rewrite Hr.
Qed.

Lemma str_head_lstrip c s : str_head (lstrip_char c s) ≠ Some c.
Proof.
  induction s as [|a s IH]; [done|]. cbn [lstrip_char].
  case_decide; [done|]. cbn. congruence.
Qed.

Lemma str_last_rstrip c s : str_last (rstrip_char c s) ≠ Some c.
Proof.
  induction s as [|a s IH]; [done|]. cbn [rstrip_char].
  destruct (rstrip_char c s) as [|b t].
  - case_decide; [done|]. cbn. congruence.
  - done.
Qed.

Lemma value_is_slug : is_slug "value".
Proof. repeat split; done. Qed.

Lemma slugify_label_is_slug text : is_slug (slugify_label text).
Proof.
  unfold slugify_label.
  set (s1 := sub_runs not_alnum false (lower (strip text))).
  set (s2 := sub_runs _ false s1).
  case_bool_decide as Hne; [apply value_is_slug|].
  assert (H2 : str_all slug_char s2 = true).
  { apply str_all_sub_runs, str_all_lower_slug. }
  assert (D2 : str_infix "__" s2 = false).
  { by apply sub_runs_no_double. }
  split; [done|]. split; [by apply str_all_rstrip_char, str_all_lstrip_char|].
  split; [|split].
  - intros H%str_head_rstrip. by apply str_head_lstrip in H.
  - apply str_last_rstrip.
  - by apply no_double_rstrip, no_double_lstrip.
Qed.

Lemma str_lstrip_id s :
  str_all (λ c, negb (is_space_char c)) s = true → str_lstrip s = s.
Proof.
  destruct s as [|c s]; [done|]. cbn [str_all str_lstrip].
  intros [Hc _]%andb_prop. by apply negb_true_iff in Hc as ->.
Qed.

Lemma str_rstrip_id s :
  str_all (λ c, negb (is_space_char c)) s = true → str_rstrip s = s.
Proof.
  induction s as [|c s IH]; [done|]. cbn [str_all str_rstrip].
  intros [Hc Hs]%andb_prop. rewrite (IH Hs).
  apply negb_true_iff in Hc as ->. by destruct s.
Qed.

Lemma str_all_impl (p q : ascii → bool) s :
  (∀ c, p c = true → q c = true) → str_all p s = true → str_all q s = true.
Proof.
  intros Hpq. induction s as [|c s IH]; [done|]. cbn [str_all].
  intros [Hc Hs]%andb_prop. by rewrite (Hpq c Hc), IH.
Qed.

Lemma lower_slug s : str_all slug_char s = true → lower s = s.
Proof.
  induction s as [|c s IH]; [done|]. cbn [str_all lower].
  intros [Hc Hs]%andb_prop.
  destruct (slug_char_cases c Hc) as (_ & -> & _). by rewrite IH.
Qed.

(** On a string in which the characters of [p] are single underscores, the
    substitution changes nothing. *)
Lemma sub_runs_id (p : ascii → bool) s :
  (∀ c, slug_char c = true → (p c = true ↔ c = "_"%char)) →
  str_all slug_char s = true →
  str_infix "__" s = false →
  sub_runs p false s = s
  ∧ (str_head s ≠ Some "_"%char → sub_runs p true s = s).
Proof.
  intros Hp. induction s as [|c s IH]; [done|]. cbn [str_all sub_runs].
  intros [Hc Hs]%andb_prop [Hd Hn]%no_double_cons.
  destruct (IH Hs Hn) as [IH1 IH2].
  destruct (p c) eqn:Hpc.
  - apply (Hp c Hc) in Hpc as ->. split.
    + rewrite IH2; [done|]. intros H. by apply Hd.
    + intros H. by destruct H.
  - by rewrite IH1.
Qed.

Lemma lstrip_char_id c s : str_head s ≠ Some c → lstrip_char c s = s.
Proof.
  destruct s as [|a s]; [done|]. cbn. intros H.
  rewrite decide_False; [done|]. congruence.
Qed.

Lemma rstrip_char_id c s : str_last s ≠ Some c → rstrip_char c s = s.
Proof.
  induction s as [|a s IH]; [done|]. intros H. cbn [rstrip_char].
  destruct s as [|b s].
  - cbn. rewrite decide_False; [done|]. cbn in H. congruence.
  - rewrite IH by done. done.
Qed.

(** A field name is its own slug. *)
Lemma slugify_label_slug s : is_slug s → slugify_label s = s.
Proof.
  intros (Hne & Hall & Hh & Hl & Hd). unfold slugify_label.
  assert (Hsp : str_all (λ c, negb (is_space_char c)) s = true).
  { eapply str_all_impl; [|exact Hall]. intros c Hc.
    by destruct (slug_char_cases c Hc) as (-> & _). }
  unfold strip. rewrite (str_lstrip_id s Hsp), (str_rstrip_id s Hsp).
  rewrite (lower_slug s Hall).
  rewrite (proj1 (sub_runs_id not_alnum s
             (λ c Hc, proj2 (proj2 (slug_char_cases c Hc))) Hall Hd)).
  rewrite (proj1 (sub_runs_id _ s
             (λ c _, bool_decide_eq_true _) Hall Hd)).
  rewrite lstrip_char_id, rstrip_char_id by done.
  by rewrite bool_decide_eq_false_2.
Qed.

(** X5.  Whatever the label, [slugify_label] returns a field name: it is not
    empty, it is made of digits, small letters and underscores, it neither
    starts nor ends with an underscore, and it has no two underscores in a
    row. *)
Theorem slugify_label_field_name (text : string) :
  slugify_label text ≠ ""
  ∧ str_all slug_char (slugify_label text) = true
  ∧ str_head (slugify_label text) ≠ Some "_"%char
  ∧ str_last (slugify_label text) ≠ Some "_"%char
  ∧ str_infix "__" (slugify_label text) = false.
Proof. apply slugify_label_is_slug. Qed.

(** X6.  [slugify_label] is idempotent. *)
Theorem slugify_label_idempotent (text : string) :
  slugify_label (slugify_label text) = slugify_label text.
Proof. apply slugify_label_slug, slugify_label_is_slug. Qed.

(** X7.  The names the fetchers give to the fields of a record are field
    names in the same sense: [normalize_fuel_field], [normalize_group_label]
    and [normalize_tourism_metric] return one whatever the label. *)
Theorem normalizers_give_field_names (label : string) :
  is_slug (normalize_fuel_field label)
  ∧ is_slug (normalize_group_label label)
  ∧ is_slug (normalize_tourism_metric label).
Proof.
  split; [|split].
  - unfold normalize_fuel_field.
    repeat case_match; try apply slugify_label_is_slug; repeat split; done.
  - unfold normalize_group_label.
    repeat case_match; try apply slugify_label_is_slug; repeat split; done.
  - unfold normalize_tourism_metric. case_match; repeat split; done.
Qed.

Example slugify_label_examples :
  slugify_label "  Ready for the Market (tonnes) " = "ready_for_the_market_tonnes"
  ∧ slugify_label "__" = "value"
  ∧ slugify_label "Jet / kerosene" = "jet_kerosene"
  ∧ normalize_fuel_field "Gross Production" = "production"
  ∧ normalize_group_label "External" = "external".
Proof. vm_compute. repeat split. Qed.

(** ** The values of a variable *)

Lemma map_res_length {A B} (f : A → res B) l ys :
  map_res f l = Ret ys → length ys = length l.
Proof. intros H%map_res_Ret. symmetry. by eapply Forall2_length. Qed.

(** X8.  [meta_value_map] returns the empty list when no variable has the
    code.  Otherwise it pairs every value of the first variable with the
    code, in order, with a label: the entry of ['valueTexts'] at the same
    place when there are as many labels as values, and the [str] of the
    value itself when the labels are missing or differ in number. *)
Theorem meta_value_map_pairs (meta : json) (var_code : string)
    (vars : list json) :
  meta_variables meta = Ret vars →
  (Forall (lacks_code var_code) vars → meta_value_map meta var_code = Ret [])
  ∧ (∀ pre d post values texts pairs,
       vars = pre ++ JDict d :: post →
       Forall (lacks_code var_code) pre →
       assoc "code" d = Some (JStr var_code) →
       default (JList []) (assoc "values" d) = JList values →
       default (JList []) (assoc "valueTexts" d) = JList texts →
       meta_value_map meta var_code = Ret pairs →
       pairs.*1 = values
       ∧ (texts ≠ [] → length texts = length values → pairs.*2 = texts)
       ∧ (texts = [] ∨ length texts ≠ length values →
          Forall2 (λ c t, ∃ s, py_str c = Ret s ∧ t = JStr s)
            values pairs.*2)).
Proof.
  intros Hvars. split.
  - intros Hall. unfold meta_value_map. rewrite Hvars. cbn [bind].
    by rewrite next_with_code_none.
  - intros pre d post values texts pairs -> Hpre Hcode Hv Ht.
    unfold meta_value_map. rewrite Hvars. cbn [bind].
    rewrite next_with_code_first by done.
    destruct d as [|kv d']; [done|]. set (d := kv :: d') in *.
    cbn [bind truthy negb py_get]. rewrite Hv, Ht.
    rewrite bool_decide_eq_false_2 by done. cbn [negb py_iter bind].
    destruct (decide (texts = [])) as [->|Hne].
    + cbn [bool_decide orb]. rewrite bool_decide_eq_true_2 by done.
      cbn [orb].
      intros (ts & Hts & [= <-])%bind_Ret.
      pose proof (map_res_length _ _ _ Hts) as Hlen.
      split; [apply fst_zip; lia|]. split; [done|]. intros _.
      rewrite snd_zip by lia. apply map_res_Ret in Hts.
      eapply Forall2_impl; [exact Hts|]. intros c t Hc. cbn in Hc.
      unfold res_map in Hc. apply bind_Ret in Hc as (s & Hs & [= <-]). eauto.
    + rewrite (bool_decide_eq_false_2 (texts = [])) by done. cbn [orb].
      destruct (decide (length texts = length values)) as [Hl|Hl].
      * rewrite bool_decide_eq_true_2 by done. cbn [negb bind].
        intros [= <-]. split; [apply fst_zip; lia|].
        split; [intros _ _; apply snd_zip; lia|]. intros [?|?]; done.
      * rewrite bool_decide_eq_false_2 by done. cbn [negb].
        intros (ts & Hts & [= <-])%bind_Ret.
        pose proof (map_res_length _ _ _ Hts) as Hlen.
        split; [apply fst_zip; lia|]. split; [done|]. intros _.
        rewrite snd_zip by lia. apply map_res_Ret in Hts.
        eapply Forall2_impl; [exact Hts|]. intros c t Hc. cbn in Hc.
        unfold res_map in Hc. apply bind_Ret in Hc as (s & Hs & [= <-]). eauto.
Qed.

Example meta_value_map_example :
  meta_value_map example_meta "Variabla"
  = Ret [(JStr "1", JStr "Exports (FOB)"); (JStr "3", JStr "Imports (CIF)")]
  ∧ meta_value_map example_meta "Viti/muaji"
    = Ret [(JStr "2025M03", JStr "2025M03"); (JStr "2025M02", JStr "2025M02");
           (JStr "2025M01", JStr "2025M01")]
  ∧ meta_value_map example_meta "Unit" = Ret [].
Proof. vm_compute. repeat split. Qed.

Lemma meta_value_map_pairs_witness :
  [(JStr "1", JStr "Exports (FOB)"); (JStr "3", JStr "Imports (CIF)")].*1
  = [JStr "1"; JStr "3"]
  ∧ meta_value_map (JDict []) "Variabla" = Ret [].
Proof.
  split.
  - refine (proj1 (proj2 (meta_value_map_pairs example_meta "Variabla" _
                            eq_refl)
                     [] _ [_] _ _ _ eq_refl _ eq_refl eq_refl eq_refl eq_refl)).
    constructor.
  - apply (proj1 (meta_value_map_pairs (JDict []) "Variabla" [] eq_refl)).
    constructor.
Defined.

(** ** The body of a POST *)

Lemma assoc_app {V} k (d1 d2 : list (string * V)) :
  assoc k (d1 ++ d2) = match assoc k d1 with
                       | Some v => Some v
                       | None => assoc k d2
                       end.
Proof.
  induction d1 as [|[k' v] d1 IH]; [done|]. cbn [app assoc].
  by case_decide.
Qed.

Lemma with_response_format_assoc body k :
  assoc k (with_response_format body)
  = if decide (k = "response")
    then Some (default (JDict [("format", JStr "JSON")])
                 (assoc "response" body))
    else assoc k body.
Proof.
  unfold with_response_format.
  destruct (assoc "response" body) as [r|] eqn:Hr.
  - case_decide as Hk; [by subst|done].
  - rewrite assoc_app. case_decide as Hk.
    + subst. rewrite Hr. cbn. by rewrite decide_True.
    + destruct (assoc k body); [done|]. cbn. by rewrite decide_False.
Qed.

(** X9.  Every POST of [px_post_data] carries the caller's body with a
    ['response'] entry: the caller's own when the body has one, and
    [{"format": "JSON"}] otherwise; the other entries of the body are sent
    as they are, and both bases receive the same body. *)
Theorem px_post_data_body (parts : list string)
    (body : list (string * json)) (lang : string) (w : env) (tr : trace) :
  ∃ evs, (px_post_data parts body lang w tr).2 = tr ++ evs
    ∧ ∀ en url b, en ∈ evs → en.1 = EvPost url b →
        ∃ d, b = JDict d
          ∧ assoc "response" d
            = Some (default (JDict [("format", JStr "JSON")])
                      (assoc "response" body))
          ∧ ∀ k, k ≠ "response" → assoc k d = assoc k body.
Proof.
  assert (Hb : ∀ b, b = JDict (with_response_format body) →
    ∃ d, b = JDict d
      ∧ assoc "response" d
        = Some (default (JDict [("format", JStr "JSON")])
                  (assoc "response" body))
      ∧ ∀ k, k ≠ "response" → assoc k d = assoc k body).
  { intros b ->. eexists. split; [done|]. split.
    - rewrite with_response_format_assoc. by rewrite decide_True.
    - intros k Hk. rewrite with_response_format_assoc. by rewrite decide_False. }
  rewrite px_post_data_cases. cbv zeta.
  set (body2 := JDict (with_response_format body)) in *.
  repeat match goal with
         | |- context [match ?x with _ => _ end] => destruct x
         end;
    cbn [snd app]; rewrite <- ?app_assoc; cbn [app];
    (eexists; split; [reflexivity|]);
    intros en url b Hin Hen;
    repeat match goal with
           | H : _ ∈ _ ++ _ |- _ => apply elem_of_app in H as [H|H]
           | H : _ ∈ _ :: _ |- _ => apply elem_of_cons in H as [->|H]
           | H : _ ∈ [] |- _ => by apply elem_of_nil in H
           end;
    apply Hb; cbn in Hen; congruence.
Qed.

Example px_post_data_body_example :
  (px_post_data ["ASKdata"] [("query", JList [])] "en" example_env []).2 !! 0%nat
  = Some (EvPost "https://askdata.rks-gov.net/PXWeb/api/v1/en/ASKdata"
            (JDict [("query", JList []);
                    ("response", JDict [("format", JStr "JSON")])]), None).
Proof. vm_compute. reflexivity. Qed.

(** ** The selection of the months *)

(** X10.  The codes a fetcher selects are always the end of the list of
    all codes.  For a positive number of months there are that many of them,
    or all when the table has fewer; for a negative number (as in
    [--months -3]) the slice [all_months[-months:]] drops that many codes
    from the front and keeps the rest. *)
Theorem select_months_suffix {A} (all_months : list A) (months : option Z) :
  select_months all_months months `suffix_of` all_months
  ∧ (∀ n, months = Some n → 0 < n →
       length (select_months all_months months)
       = Nat.min (Z.to_nat n) (length all_months))
  ∧ (∀ n, months = Some n → n < 0 →
       select_months all_months months = drop (Z.to_nat (- n)) all_months).
Proof.
  split; [|split].
  - unfold select_months, py_slice_from.
    destruct months as [n|]; [|done]. destruct (n =? 0); [done|].
    apply suffix_drop.
  - intros n -> Hn. cbn [select_months].
    destruct (Z.eqb_spec n 0); [lia|].
    rewrite py_slice_from_last by done. rewrite length_drop. lia.
  - intros n -> Hn. cbn [select_months].
    destruct (Z.eqb_spec n 0); [lia|]. unfold py_slice_from.
    destruct (Z.ltb_spec (- n) 0); [lia|].
    destruct (decide (- n ≤ Z.of_nat (length all_months))).
    + f_equal. lia.
    + rewrite !drop_ge by lia. done.
Qed.

Example select_months_examples :
  select_months [1; 2; 3; 4; 5] (Some 2) = [4; 5]
  ∧ select_months [1; 2; 3; 4; 5] (Some 7) = [1; 2; 3; 4; 5]
  ∧ select_months [1; 2; 3; 4; 5] (Some (-2)) = [3; 4; 5]
  ∧ select_months [1; 2; 3; 4; 5] None = [1; 2; 3; 4; 5].
Proof. vm_compute. repeat split. Qed.

Lemma select_months_suffix_witness :
  length (select_months ["2025M01"; "2025M02"; "2025M03"] (Some 2))
  = Nat.min (Z.to_nat 2) (length ["2025M01"; "2025M02"; "2025M03"])
  ∧ select_months ["2025M01"; "2025M02"; "2025M03"] (Some (-2))
    = drop (Z.to_nat (- -2)) ["2025M01"; "2025M02"; "2025M03"].
Proof.
  split.
  - apply (proj1 (proj2 (select_months_suffix
                           ["2025M01"; "2025M02"; "2025M03"] (Some 2)))
             2 eq_refl).
    lia.
  - apply (proj2 (proj2 (select_months_suffix
                           ["2025M01"; "2025M02"; "2025M03"] (Some (-2))))
             (-2) eq_refl).
    lia.
Defined.

Lemma px_post_data_body_witness :
  ∃ d, JDict [("query", JList []);
              ("response", JDict [("format", JStr "JSON")])] = JDict d
    ∧ assoc "response" d
      = Some (default (JDict [("format", JStr "JSON")])
                (assoc "response" [("query", JList [])]))
    ∧ ∀ k, k ≠ "response" → assoc k d = assoc k [("query", JList [])].
Proof.
  destruct (px_post_data_body ["ASKdata"] [("query", JList [])] "en"
              example_env []) as (evs & Heq & H).
  cbn [app] in Heq. subst evs.
  apply (H (EvPost "https://askdata.rks-gov.net/PXWeb/api/v1/en/ASKdata"
              (JDict [("query", JList []);
                      ("response", JDict [("format", JStr "JSON")])]), None)
           "https://askdata.rks-gov.net/PXWeb/api/v1/en/ASKdata").
  - vm_compute. apply list_elem_of_here.
  - reflexivity.
Defined.

(** ** The URL of a table *)

Lemma str_all_app (p : ascii → bool) s t :
  str_all p (s +:+ t) = str_all p s && str_all p t.
Proof.
  induction s as [|a s IH]; [done|]. rewrite append_cons. cbn [str_all].
  by rewrite IH, andb_assoc.
Qed.

Lemma count_char_app c s t :
  count_char c (s +:+ t) = (count_char c s + count_char c t)%nat.
Proof.
  induction s as [|a s IH]; [done|]. rewrite append_cons. cbn [count_char].
  rewrite IH. lia.
Qed.

Lemma count_char_none (p : ascii → bool) c s :
  p c = false → str_all p s = true → count_char c s = 0%nat.
Proof.
  intros Hc. induction s as [|a s IH]; [done|]. cbn [str_all count_char].
  intros [Ha Hs]%andb_prop. rewrite IH by done.
  rewrite decide_False; [done|]. congruence.
Qed.

Lemma quote_url_chars p : str_all url_char (quote p) = true.
Proof.
  induction p as [|c p IH]; [done|]. cbn [quote].
  rewrite str_all_app, IH, andb_true_r.
  destruct c as [[] [] [] [] [] [] [] []]; reflexivity.
Qed.

Lemma quote_unreserved p : str_all unreserved p = true → quote p = p.
Proof.
  induction p as [|c p IH]; [done|]. cbn [str_all quote].
  intros [-> Hp]%andb_prop. by rewrite IH.
Qed.

Lemma count_slash_join (segs : list string) :
  segs ≠ [] →
  count_char "/" (join_slash segs)
  = (foldr (λ s n, count_char "/" s + n) 0 segs + (length segs - 1))%nat.
Proof.
  induction segs as [|s [|t segs] IH]; [done| |]; intros _.
  - cbn. lia.
  - rewrite join_slash_cons by done. rewrite !count_char_app, IH by done.
    cbn [foldr length count_char]. rewrite decide_True by done. lia.
Qed.

(** X11.  [api_join] makes one path segment of every part, whatever
    characters the part holds: a quoted part is made of unreserved
    characters and percent signs only (no slash, no space, no question
    mark, nothing beyond ASCII), a part of unreserved characters is left as
    it is, and the URL has one slash for each part and one for the language,
    besides those of the base (without its trailing slashes) and of the
    language. *)
Theorem api_join_segments (base : string) (parts : list string)
    (lang : string) :
  Forall (λ p, str_all url_char (quote p) = true
               ∧ count_char "/" (quote p) = 0%nat
               ∧ (str_all unreserved p = true → quote p = p)) parts
  ∧ count_char "/" (api_join base parts lang)
    = (count_char "/" (rstrip_char "/" base) + count_char "/" lang
       + 1 + length parts)%nat
  ∧ str_last (rstrip_char "/" base) ≠ Some "/"%char.
Proof.
  assert (Hq : ∀ p, count_char "/" (quote p) = 0%nat).
  { intros p. by apply (count_char_none url_char), quote_url_chars. }
  split; [|split].
  - apply Forall_forall. intros p _.
    split; [apply quote_url_chars|]. split; [apply Hq|apply quote_unreserved].
  - unfold api_join. rewrite count_slash_join by done.
    cbn [app foldr length]. rewrite length_fmap.
    assert (foldr (λ s n, (count_char "/" s + n)%nat) 0%nat (quote <$> parts)
            = 0%nat) as ->; [|lia].
    induction parts as [|p parts IH]; [done|].
    rewrite fmap_cons. cbn [foldr]. by rewrite Hq, IH.
  - apply str_last_rstrip.
Qed.

Example api_join_example :
  api_join "https://askdata.rks-gov.net/api/v1/"
    ["ASKdata"; "External trade"; "Tab/1.px"] "en"
  = "https://askdata.rks-gov.net/api/v1/en/ASKdata/External%20trade/Tab%2F1.px".
Proof. reflexivity. Qed.

(** ** Periods *)

Lemma str_contains_app c s t :
  str_contains c (s +:+ t) = str_contains c s || str_contains c t.
Proof.
  induction s as [|a s IH]; [done|]. rewrite append_cons. cbn [str_contains].
  by case_decide.
Qed.

Lemma str_contains_count c s :
  str_contains c s = false ↔ count_char c s = 0%nat.
Proof.
  induction s as [|a s IH]; [done|]. cbn [str_contains count_char].
  case_decide; [split; [done|lia]|]. rewrite IH. lia.
Qed.

Lemma split_once_Some c s y m :
  split_once c s = Some (y, m) →
  s = y +:+ String c m ∧ str_contains c y = false.
Proof.
  revert y. induction s as [|a s IH]; intros y; [done|]. cbn [split_once].
  case_decide as Ha.
  - intros [= <- <-]. by subst.
  - destruct (split_once c s) as [[y' m']|]; [|done]. cbn.
    intros [= <- <-]. destruct (IH y' eq_refl) as [-> Hy]. split; [done|].
    cbn [str_contains]. by rewrite decide_False.
Qed.

Lemma str_contains_repeat c a (n : nat) :
  a ≠ c → str_contains c (str_repeat a n) = false.
Proof.
  intros Hne. induction n as [|n IH]; [done|]. cbn [str_repeat str_contains].
  by rewrite decide_False.
Qed.

Lemma str_contains_zfill (width : nat) s :
  str_contains "M" (zfill width s) = str_contains "M" s.
Proof.
  unfold zfill. case_decide; [done|].
  destruct s as [|c s].
  - by apply str_contains_repeat.
  - case_decide as Hc.
    + cbn [str_contains]. rewrite str_contains_app, str_contains_repeat by done.
      done.
    + rewrite str_contains_app, str_contains_repeat by done. done.
Qed.

Lemma str_contains_take c (n : nat) s :
  str_contains c s = false → str_contains c (str_take n s) = false.
Proof.
  revert n. induction s as [|a s IH]; intros [|n]; try done.
  cbn [str_contains str_take]. case_decide; [done|]. apply IH.
Qed.

Lemma str_contains_drop c (n : nat) s :
  str_contains c s = false → str_contains c (str_drop n s) = false.
Proof.
  revert n. induction s as [|a s IH]; intros [|n]; try done.
  cbn [str_contains str_drop]. case_decide; [done|]. apply IH.
Qed.

(** A code with a hyphen and without ['M'] is left as it is. *)
Lemma normalize_ym_hyphen code :
  str_contains "-" code = true → str_contains "M" code = false →
  normalize_ym code = code.
Proof.
  intros Hh HM. unfold normalize_ym.
  destruct (isdigit code) eqn:Hd.
  - apply isdigit_all in Hd.
    rewrite (str_contains_all is_digit_char) in Hh by done. done.
  - cbn [andb]. rewrite split_once_None by done. by case_match.
Qed.

(** X12.  Normalizing a normalized code changes nothing, for every code with
    at most one ['M']. *)
Theorem normalize_ym_idempotent (code : string) :
  (count_char "M" code ≤ 1)%nat →
  normalize_ym (normalize_ym code) = normalize_ym code.
Proof.
  intros Hc. unfold normalize_ym at 2 3.
  destruct (isdigit code && bool_decide (len code = 6%nat)) eqn:Hd.
  - apply andb_prop in Hd as [Hd _]. apply isdigit_no_M in Hd.
    apply normalize_ym_hyphen.
    + rewrite !str_contains_app. cbn. by rewrite orb_true_r.
    + rewrite !str_contains_app. unfold str_slice.
      rewrite !str_contains_take by (by try apply str_contains_drop). done.
  - destruct (split_once "M" code) as [[y m]|] eqn:Hs.
    + apply split_once_Some in Hs as [-> Hy].
      rewrite count_char_app in Hc. cbn [count_char] in Hc.
      rewrite decide_True in Hc by done.
      assert (Hm : str_contains "M" m = false).
      { apply str_contains_count. lia. }
      apply normalize_ym_hyphen.
      * rewrite !str_contains_app. cbn. by rewrite orb_true_r.
      * rewrite !str_contains_app, str_contains_zfill, Hy, Hm. done.
    + assert (normalize_ym code = code) as Hn.
      { unfold normalize_ym. rewrite Hd, Hs. by case_match. }
      assert ((if bool_decide (len code = 7%nat)
                  && bool_decide (String.get 4 code = Some "-"%char)
               then code else code) = code) as -> by (by case_match).
      done.
Qed.

Example normalize_ym_twice :
  normalize_ym "2025M1M2" = "2025-1M2"
  ∧ normalize_ym "2025-1M2" = "2025-1-02".
Proof. split; reflexivity. Qed.

Lemma normalize_ym_idempotent_witness :
  normalize_ym (normalize_ym "2025M8") = normalize_ym "2025M8".
Proof. apply normalize_ym_idempotent. vm_compute. lia. Defined.

(** ** The records of the other series *)

Lemma map_res_lookup {A B} (f : A → res B) l ys (i : nat) x :
  map_res f l = Ret ys → l !! i = Some x →
  ∃ y, ys !! i = Some y ∧ f x = Ret y.
Proof.
  intros H%map_res_Ret Hi.
  destruct (Forall2_lookup_l _ _ _ i x H Hi) as (y & Hy & Hf). eauto.
Qed.

Lemma concat_blocks_length {A} (ls : list (list A)) (n : nat) :
  Forall (λ l, length l = n) ls → length (concat ls) = (length ls * n)%nat.
Proof.
  induction 1 as [|l ls Hl _ IH]; [done|].
  cbn [concat length]. rewrite length_app, IH, Hl. lia.
Qed.

Lemma concat_blocks_lookup {A} (ls : list (list A)) (n p i : nat) l x :
  Forall (λ l, length l = n) ls →
  ls !! p = Some l → l !! i = Some x →
  concat ls !! (p * n + i)%nat = Some x.
Proof.
  intros Hall. revert p. induction Hall as [|l0 ls Hl0 _ IH]; intros p Hp Hi.
  - done.
  - destruct p as [|p]; cbn [concat].
    + injection Hp as ->. rewrite lookup_app_l; [done|].
      by eapply lookup_lt_Some.
    + rewrite lookup_app_r by lia.
      replace (S p * n + i - length l0)%nat with (p * n + i)%nat by lia.
      by apply IH.
Qed.

Lemma energy_record_shape code v_imp v_prod rec :
  energy_record code v_imp v_prod = Ret rec →
  ∃ imp prod,
    rec = JDict [("period", JStr (normalize_ym code));
                 ("import_gwh", imp); ("production_gwh", prod)]
    ∧ is_tidy imp ∧ is_tidy prod.
Proof.
  unfold energy_record.
  destruct (tidy_number_returns v_imp) as (imp & -> & Hi).
  destruct (tidy_number_returns v_prod) as (prod & -> & Hp).
  cbn [bind]. intros [= <-]. eauto.
Qed.

(** X13.  When the electricity series is produced, from a JSON-stat answer
    or from a row table, it has one record for each selected time code, in
    the order of the codes; the record of a code has the fields ['period'],
    ['import_gwh'] and ['production_gwh'] and no other: the normalized code
    and two values that are [None], an [int], or a [float] that is not
    integer-valued. *)
Theorem energy_series_records (cube : json)
    (dim_time dim_ind import_code prod_code : string) (pick : list string)
    (series : list json) :
  energy_series cube dim_time dim_ind import_code prod_code pick = Ret series →
  length series = length pick
  ∧ ∀ (i : nat) code, pick !! i = Some code →
      ∃ imp prod,
        series !! i
        = Some (JDict [("period", JStr (normalize_ym code));
                       ("import_gwh", imp); ("production_gwh", prod)])
        ∧ is_tidy imp ∧ is_tidy prod.
Proof.
  unfold energy_series. intros (stat & _ & H)%bind_Ret.
  assert (∃ f : string → res json,
            map_res f pick = Ret series
            ∧ ∀ code rec, f code = Ret rec →
                ∃ v_imp v_prod, energy_record code v_imp v_prod = Ret rec)
    as (f & Hmap & Hf).
  { destruct stat.
    - unfold energy_jsonstat in H.
      repeat (apply bind_Ret in H as (? & _ & H)).
      eexists. split; [exact H|]. intros code rec Hr. cbv beta in Hr.
      do 6 (apply bind_Ret in Hr as (? & _ & Hr)). eauto.
    - unfold energy_rows in H.
      apply bind_Ret in H as ([[dims lookup]|] & _ & H); [|done].
      eexists. split; [exact H|]. intros code rec Hr. cbv beta in Hr.
      do 2 (apply bind_Ret in Hr as (? & _ & Hr)). eauto. }
  split; [by eapply map_res_length|]. intros i code Hi.
  destruct (map_res_lookup _ _ _ _ _ Hmap Hi) as (rec & Hrec & Hfc).
  destruct (Hf _ _ Hfc) as (v_imp & v_prod & Hr).
  destruct (energy_record_shape _ _ _ _ Hr) as (imp & prod & -> & ? & ?).
  eauto.
Qed.

Lemma energy_series_records_witness :
  length [JDict [("period", JStr "2025-01"); ("import_gwh", JInt 10);
                 ("production_gwh", JInt 400)];
          JDict [("period", JStr "2025-02"); ("import_gwh", JInt 20);
                 ("production_gwh", JNull)]]
  = length ["2025M01"; "2025M02"].
Proof.
  apply (energy_series_records (JDict example_cube) "Viti/muaji" "MWH" "1" "7"
           ["2025M01"; "2025M02"]).
  vm_compute. reflexivity.
Defined.

Lemma partner_record_shape code p_name v rec :
  partner_record code p_name v = Ret rec →
  ∃ num,
    rec = JDict [("period", JStr (normalize_ym code)); ("partner", p_name);
                 ("imports_th_eur", num)]
    ∧ is_tidy num.
Proof.
  unfold partner_record.
  destruct (tidy_number_returns v) as (num & -> & Hn).
  cbn [bind]. intros [= <-]. eauto.
Qed.

(** X14.  When the imports-by-partner rows are produced, there is one row
    for each selected partner and each selected time code, partner by
    partner in the order of the partner codes and, for a partner, in the
    order of the time codes.  A row has the fields ['period'], ['partner']
    and ['imports_th_eur'] and no other: the normalized code, the label of
    the partner (its code when it has no label) and a value that is [None],
    an [int], or a [float] that is not integer-valued. *)
Theorem partner_series_records (cube : json) (dim_time dim_partner : string)
    (partner_codes : list string) (label_lookup : list (string * json))
    (pick : list string) (rows : list json) :
  partner_series cube dim_time dim_partner partner_codes label_lookup pick
  = Ret rows →
  length rows = (length partner_codes * length pick)%nat
  ∧ ∀ (p i : nat) p_code code,
      partner_codes !! p = Some p_code → pick !! i = Some code →
      ∃ num,
        rows !! (p * length pick + i)%nat
        = Some (JDict [("period", JStr (normalize_ym code));
                       ("partner", default (JStr p_code)
                                     (assoc p_code label_lookup));
                       ("imports_th_eur", num)])
        ∧ is_tidy num.
Proof.
  unfold partner_series. intros (stat & _ & H)%bind_Ret.
  assert (∃ (g : string → res (list json)) blocks,
            map_res g partner_codes = Ret blocks
            ∧ rows = concat blocks
            ∧ ∀ p_code block, g p_code = Ret block →
                ∃ f : string → res json,
                  map_res f pick = Ret block
                  ∧ ∀ code rec, f code = Ret rec →
                      ∃ v, partner_record code
                             (partner_name label_lookup p_code) v = Ret rec)
    as (g & blocks & Hmap & -> & Hg).
  { destruct stat.
    - unfold partner_jsonstat in H.
      do 6 (apply bind_Ret in H as (? & _ & H)).
      apply bind_Ret in H as (blocks & H & [= <-]).
      eexists _, blocks. split; [exact H|]. split; [done|].
      intros p_code block Hb. cbv beta zeta in Hb.
      apply bind_Ret in Hb as (p_ord & _ & Hb).
      eexists. split; [exact Hb|]. intros code rec Hr. cbv beta in Hr.
      do 4 (apply bind_Ret in Hr as (? & _ & Hr)). eauto.
    - unfold partner_rows in H.
      apply bind_Ret in H as ([[dims lookup]|] & _ & H); [|done].
      apply bind_Ret in H as (blocks & H & [= <-]).
      eexists _, blocks. split; [exact H|]. split; [done|].
      intros p_code block Hb. cbv beta zeta in Hb.
      eexists. split; [exact Hb|]. intros code rec Hr. cbv beta in Hr.
      apply bind_Ret in Hr as (? & _ & Hr). eauto. }
  assert (Hlen : Forall (λ block : list json, length block = length pick)
                   blocks).
  { apply map_res_Ret in Hmap. apply Forall_forall. intros block Hin.
    apply list_elem_of_lookup in Hin as [p Hp].
    destruct (Forall2_lookup_r _ _ _ _ _ Hmap Hp) as (p_code & _ & Hb).
    destruct (Hg _ _ Hb) as (f & Hf & _). by eapply map_res_length. }
  split.
  - rewrite (concat_blocks_length _ _ Hlen).
    by rewrite (map_res_length _ _ _ Hmap).
  - intros p i p_code code Hp Hi.
    destruct (map_res_lookup _ _ _ _ _ Hmap Hp) as (block & Hblock & Hb).
    destruct (Hg _ _ Hb) as (f & Hf & Hrec).
    destruct (map_res_lookup _ _ _ _ _ Hf Hi) as (rec & Hr & Hfc).
    destruct (Hrec _ _ Hfc) as (v & Hv).
    destruct (partner_record_shape _ _ _ _ Hv) as (num & -> & Hn).
    exists num. split; [|done].
    by apply (concat_blocks_lookup _ _ _ _ block).
Qed.

Example partner_series_example :
  partner_series
    (JDict [("data",
             JList [JDict [("key", JList [JStr "AL"; JStr "2025M01"]);
                           ("values", JList [JStr "15"])];
                    JDict [("key", JList [JStr "RS"; JStr "2025M01"]);
                           ("values", JList [JStr ".."])]])])
    "Viti/muaji" "PartnerC" ["AL"; "RS"] [("AL", JStr "Albania")] ["2025M01"]
  = Ret [JDict [("period", JStr "2025-01"); ("partner", JStr "Albania");
                ("imports_th_eur", JInt 15)];
         JDict [("period", JStr "2025-01"); ("partner", JStr "RS");
                ("imports_th_eur", JNull)]].
Proof. vm_compute. reflexivity. Qed.

Lemma partner_series_records_witness :
  length [JDict [("period", JStr "2025-01"); ("partner", JStr "Albania");
                 ("imports_th_eur", JInt 15)];
          JDict [("period", JStr "2025-01"); ("partner", JStr "RS");
                 ("imports_th_eur", JNull)]]
  = (length ["AL"; "RS"] * length ["2025M01"])%nat.
Proof.
  apply (partner_series_records
           (JDict [("data",
                    JList [JDict [("key", JList [JStr "AL"; JStr "2025M01"]);
                                  ("values", JList [JStr "15"])];
                           JDict [("key", JList [JStr "RS"; JStr "2025M01"]);
                                  ("values", JList [JStr ".."])]])])
           "Viti/muaji" "PartnerC" ["AL"; "RS"] [("AL", JStr "Albania")]
           ["2025M01"]).
  vm_compute. reflexivity.
Defined.

(** *** A dict as the list of its items *)

Lemma assoc_dict_set_eq {V} k (v : V) d : assoc k (dict_set k v d) = Some v.
Proof.
  induction d as [|[k' v'] d IH]; cbn [dict_set assoc].
  - by rewrite decide_True.
  - case_decide as Hk; cbn [assoc]; [by rewrite decide_True|].
    by rewrite decide_False.
Qed.

Lemma assoc_dict_set_ne {V} k k' (v : V) d :
  k' ≠ k → assoc k' (dict_set k v d) = assoc k' d.
Proof.
  intros Hne. induction d as [|[k0 v0] d IH]; cbn [dict_set assoc].
  - by rewrite decide_False.
  - case_decide as Hk; cbn [assoc].
    + subst. by rewrite !decide_False.
    + case_decide; [done|apply IH].
Qed.

Lemma head_dict_set {V} k (v : V) d :
  d ≠ [] → head (dict_set k v d).*1 = head d.*1.
Proof.
  destruct d as [|[k' v'] d]; [done|]. intros _. cbn [dict_set].
  case_decide; [by subst|done].
Qed.

Lemma dict_set_not_nil {V} k (v : V) d : dict_set k v d ≠ [].
Proof. destruct d as [|[k' v'] d]; cbn; [done|]. by case_decide. Qed.

Lemma fuel_row_spec dim_codes lookup measure_dim dim_time code field_map
    measure_codes row row' :
  fuel_row dim_codes lookup measure_dim dim_time code field_map
    measure_codes row = Ret row' →
  (∀ k, (∀ m, m ∈ measure_codes → assoc m field_map ≠ Some k) →
        assoc k row' = assoc k row)
  ∧ (∀ pre m post, measure_codes = pre ++ m :: post →
       ∃ f, assoc m field_map = Some f
         ∧ ((∀ m', m' ∈ post → assoc m' field_map ≠ Some f) →
            ∃ value num,
              lookup_table_value dim_codes lookup
                (dict_of [(measure_dim, m); (dim_time, code)]) = Ret value
              ∧ tidy_number value = Ret num
              ∧ assoc f row' = Some num))
  ∧ (row ≠ [] → head row'.*1 = head row.*1)
  ∧ (∀ k, is_Some (assoc k row') →
       is_Some (assoc k row)
       ∨ ∃ m, m ∈ measure_codes ∧ assoc m field_map = Some k).
Proof.
  revert row. induction measure_codes as [|m0 rest IH]; intros row.
  - intros [= <-]. split_and!; try done.
    + intros [|??] ??; done.
    + auto.
  - cbn [fuel_row].
    intros (value & Hv & (num & Hn & H)%bind_Ret)%bind_Ret.
    destruct (assoc m0 field_map) as [f0|] eqn:Hf0; cbn [bind] in H; [|done].
    destruct (IH _ H) as (Hkeep & Hlast & Hhead & Hkeys). split_and!.
    + intros k Hk. rewrite Hkeep.
      * apply assoc_dict_set_ne. intros ->.
        by apply (Hk m0); [apply list_elem_of_here|].
      * intros m Hm. apply Hk. by apply list_elem_of_further.
    + intros [|m1 pre] m post Heq.
      * injection Heq as <- <-. exists f0. split; [done|]. intros Hpost.
        exists value, num. split_and!; [done..|].
        rewrite Hkeep by done. apply assoc_dict_set_eq.
      * injection Heq as <- ->. by apply (Hlast pre).
    + intros Hne. rewrite Hhead by apply dict_set_not_nil.
      by apply head_dict_set.
    + intros k Hk. destruct (Hkeys k Hk) as [Hin|(m & Hm & Hmk)].
      * destruct (decide (k = f0)) as [->|Hne].
        -- right. exists m0. split; [apply list_elem_of_here|done].
        -- left. by rewrite assoc_dict_set_ne in Hin.
      * right. exists m. split; [by apply list_elem_of_further|done].
Qed.

(** X15.  When the series of a fuel table is produced, it has one row for
    each selected time code, in the order of the codes.  The first field of
    a row is ['period']; every other field is the field of a measure; the
    row holds, under the field of a measure, the tidied value looked up for
    that measure and that code (for the last such measure when several have
    the same field); and ['period'] is the normalized code unless a measure
    has the field ['period']. *)
Theorem fuel_series_records (cube : json)
    (label measure_dim dim_time : string) (measure_codes : list string)
    (field_map : list (string * string)) (pick : list string)
    (series : list json) :
  fuel_series cube label measure_dim dim_time measure_codes field_map pick
  = Ret series →
  length series = length pick
  ∧ ∃ dim_codes lookup,
      table_lookup cube [measure_dim; dim_time]
      = Ret (Some (dim_codes, lookup))
      ∧ ∀ (i : nat) code, pick !! i = Some code →
          ∃ row,
            series !! i = Some (JDict row)
            ∧ head row.*1 = Some "period"
            ∧ (∀ k, is_Some (assoc k row) →
                 k = "period"
                 ∨ ∃ m, m ∈ measure_codes ∧ assoc m field_map = Some k)
            ∧ ((∀ m, m ∈ measure_codes → assoc m field_map ≠ Some "period") →
               assoc "period" row = Some (JStr (normalize_ym code)))
            ∧ ∀ pre m post, measure_codes = pre ++ m :: post →
                ∃ f, assoc m field_map = Some f
                  ∧ ((∀ m', m' ∈ post → assoc m' field_map ≠ Some f) →
                     ∃ value num,
                       lookup_table_value dim_codes lookup
                         (dict_of [(measure_dim, m); (dim_time, code)])
                       = Ret value
                       ∧ tidy_number value = Ret num
                       ∧ assoc f row = Some num).
Proof.
  unfold fuel_series.
  intros ([[dim_codes lookup]|] & Ht & H)%bind_Ret; [|done].
  split; [by eapply map_res_length|].
  exists dim_codes, lookup. split; [done|]. intros i code Hi.
  destruct (map_res_lookup _ _ _ _ _ H Hi) as (rec & Hrec & Hf).
  cbv beta in Hf. apply bind_Ret in Hf as (row & Hrow & [= <-]).
  exists row. split; [done|].
  destruct (fuel_row_spec _ _ _ _ _ _ _ _ _ Hrow)
    as (Hkeep & Hlast & Hhead & Hkeys).
  split_and!.
  - by rewrite Hhead.
  - intros k Hk. destruct (Hkeys k Hk) as [Hin|?]; [|by right].
    left. cbn [assoc] in Hin. case_decide; [done|by destruct Hin].
  - intros Hno. by rewrite Hkeep.
  - done.
Qed.

Example fuel_series_example :
  fuel_series
    (JDict [("data",
             JList [JDict [("key", JList [JStr "0"; JStr "2025M01"]);
                           ("values", JList [JStr "1.5"])];
                    JDict [("key", JList [JStr "1"; JStr "2025M01"]);
                           ("values", JList [JStr "20"])]])])
    "Diesel" "Treguesit" "Viti/muaji" ["0"; "1"]
    [("0", "production"); ("1", "import")] ["2025M01"; "2025M02"]
  = Ret [JDict [("period", JStr "2025-01");
                ("production", JFloat (S754_finite false 6755399441055744 (-52)));
                ("import", JInt 20)];
         JDict [("period", JStr "2025-02"); ("production", JNull);
                ("import", JNull)]].
Proof. vm_compute. reflexivity. Qed.

Lemma fuel_series_records_witness :
  length [JDict [("period", JStr "2025-01");
                 ("production",
                  JFloat (S754_finite false 6755399441055744 (-52)));
                 ("import", JInt 20)];
          JDict [("period", JStr "2025-02"); ("production", JNull);
                 ("import", JNull)]]
  = length ["2025M01"; "2025M02"].
Proof.
  apply (fuel_series_records
           (JDict [("data",
                    JList [JDict [("key", JList [JStr "0"; JStr "2025M01"]);
                                  ("values", JList [JStr "1.5"])];
                           JDict [("key", JList [JStr "1"; JStr "2025M01"]);
                                  ("values", JList [JStr "20"])]])])
           "Diesel" "Treguesit" "Viti/muaji" ["0"; "1"]
           [("0", "production"); ("1", "import")] ["2025M01"; "2025M02"]).
  vm_compute. reflexivity.
Defined.

Lemma metric_row_spec dim_codes lookup
    (assignments : string → list (string * string)) metric_codes row row' :
  metric_row dim_codes lookup assignments metric_codes row = Ret row' →
  NoDup metric_codes.*1 →
  (∀ k, k ∉ metric_codes.*1 → assoc k row' = assoc k row)
  ∧ (∀ key code, (key, code) ∈ metric_codes →
       ∃ value num,
         lookup_table_value dim_codes lookup (assignments code) = Ret value
         ∧ tidy_number value = Ret num
         ∧ assoc key row' = Some num)
  ∧ (∀ k, is_Some (assoc k row') →
       is_Some (assoc k row) ∨ k ∈ metric_codes.*1).
Proof.
  revert row. induction metric_codes as [|[key0 code0] rest IH]; intros row.
  - intros [= <-] _. split_and!; [done| |auto].
    intros ?? H. by apply elem_of_nil in H.
  - cbn [metric_row]. rewrite fmap_cons.
    intros (value & Hv & (num & Hn & H)%bind_Ret)%bind_Ret
           [Hnin Hnd]%NoDup_cons.
    destruct (IH _ H Hnd) as (Hkeep & Hall & Hkeys). split_and!.
    + intros k Hk. apply not_elem_of_cons in Hk as [Hne Hk].
      rewrite Hkeep by done. by apply assoc_dict_set_ne.
    + intros key code [[= -> ->]|Hin]%elem_of_cons.
      * exists value, num. split_and!; [done..|].
        rewrite Hkeep by done. apply assoc_dict_set_eq.
      * by apply Hall.
    + intros k Hk. destruct (Hkeys k Hk) as [Hin|Hin].
      * destruct (decide (k = key0)) as [->|Hne].
        -- right. apply list_elem_of_here.
        -- left. by rewrite assoc_dict_set_ne in Hin.
      * right. by apply list_elem_of_further.
Qed.

(** X16.  When the records of the tourism-by-country table are produced,
    there is one record for each selected time code and each country, code
    by code and, for a code, in the order of the countries.  Its fields are
    ['period'], ['country'] and the metrics (['visitors'], ['nights']), and
    it holds the normalized code, the label of the country and, for each
    metric, the tidied value looked up for that code, metric and
    country. *)
Theorem tourism_country_records_shape (cube : json)
    (dim_time dim_var dim_country : string)
    (country_pairs metric_codes : list (string * string))
    (pick : list string) (records : list json) :
  tourism_country_records cube dim_time dim_var dim_country country_pairs
    metric_codes pick = Ret records →
  NoDup metric_codes.*1 →
  Forall (λ kv, kv.1 = "visitors" ∨ kv.1 = "nights") metric_codes →
  length records = (length pick * length country_pairs)%nat
  ∧ ∃ dim_codes lookup,
      table_lookup cube [dim_time; dim_var; dim_country]
      = Ret (Some (dim_codes, lookup))
      ∧ ∀ (t c : nat) time_code country,
          pick !! t = Some time_code → country_pairs !! c = Some country →
          ∃ row,
            records !! (t * length country_pairs + c)%nat = Some (JDict row)
            ∧ assoc "period" row = Some (JStr (normalize_ym time_code))
            ∧ assoc "country" row = Some (JStr country.2)
            ∧ (∀ k, is_Some (assoc k row) →
                 k = "period" ∨ k = "country" ∨ k ∈ metric_codes.*1)
            ∧ ∀ key code, (key, code) ∈ metric_codes →
                ∃ value num,
                  lookup_table_value dim_codes lookup
                    (dict_of [(dim_time, time_code); (dim_var, code);
                              (dim_country, country.1)]) = Ret value
                  ∧ tidy_number value = Ret num
                  ∧ assoc key row = Some num.
Proof.
  unfold tourism_country_records.
  intros ([[dim_codes lookup]|] & Ht & H)%bind_Ret Hnd Hkeys; [|done].
  apply bind_Ret in H as (blocks & Hmap & [= <-]).
  assert (Hlen : Forall (λ block : list json,
                           length block = length country_pairs) blocks).
  { apply map_res_Ret in Hmap. apply Forall_forall. intros block Hin.
    apply list_elem_of_lookup in Hin as [p Hp].
    destruct (Forall2_lookup_r _ _ _ _ _ Hmap Hp) as (code & _ & Hb).
    by eapply map_res_length. }
  split.
  - rewrite (concat_blocks_length _ _ Hlen).
    by rewrite (map_res_length _ _ _ Hmap).
  - exists dim_codes, lookup. split; [done|].
    intros t c time_code country Ht' Hc.
    destruct (map_res_lookup _ _ _ _ _ Hmap Ht') as (block & Hblock & Hb).
    cbv beta zeta in Hb.
    destruct (map_res_lookup _ _ _ _ _ Hb Hc) as (rec & Hrec & Hr).
    cbv beta in Hr. apply bind_Ret in Hr as (row & Hrow & [= <-]).
    exists row.
    split; [by apply (concat_blocks_lookup _ _ _ _ block)|].
    destruct (metric_row_spec _ _ _ _ _ _ Hrow Hnd) as (Hkeep & Hall & Hk).
    assert (Hbase : ∀ k, k = "period" ∨ k = "country" → k ∉ metric_codes.*1).
    { intros k Hk' Hin. apply list_elem_of_fmap in Hin as ([k' v] & -> & Hin).
      rewrite Forall_forall in Hkeys. specialize (Hkeys _ Hin). cbn in *.
      destruct Hk' as [->| ->], Hkeys as [?|?]; done. }
    split_and!.
    + rewrite Hkeep by auto. done.
    + rewrite Hkeep by auto. done.
    + intros k Hin. destruct (Hk k Hin) as [Hb'|?]; [|auto].
      change (dict_of [("period", JStr (normalize_ym time_code));
                       ("country", JStr country.2)])
        with [("period", JStr (normalize_ym time_code));
              ("country", JStr country.2)] in Hb'.
      cbn [assoc] in Hb'.
      repeat (case_decide; [subst; auto|]). by destruct Hb'.
    + done.
Qed.

Lemma tourism_country_records_shape_witness :
  length example_country_records
  = (length ["2025M01"; "2025M02"]
     * length [("AL", "Albania"); ("DE", "Germany")])%nat
  ∧ ∃ dim_codes lookup,
      table_lookup example_country_cube ["Viti/muaji"; "Variabla"; "Shtetet"]
      = Ret (Some (dim_codes, lookup))
      ∧ ∀ (t c : nat) time_code (country : string * string),
          ["2025M01"; "2025M02"] !! t = Some time_code →
          [("AL", "Albania"); ("DE", "Germany")] !! c = Some country →
          ∃ row,
            example_country_records
              !! (t * length [("AL", "Albania"); ("DE", "Germany")] + c)%nat
            = Some (JDict row)
            ∧ assoc "period" row = Some (JStr (normalize_ym time_code))
            ∧ assoc "country" row = Some (JStr country.2)
            ∧ (∀ k, is_Some (assoc k row) →
                 k = "period" ∨ k = "country"
                 ∨ k ∈ [("visitors", "0"); ("nights", "1")].*1)
            ∧ ∀ key code, (key, code) ∈ [("visitors", "0"); ("nights", "1")] →
                ∃ value num,
                  lookup_table_value dim_codes lookup
                    (dict_of [("Viti/muaji", time_code); ("Variabla", code);
                              ("Shtetet", country.1)]) = Ret value
                  ∧ tidy_number value = Ret num
                  ∧ assoc key row = Some num.
Proof.
  apply (tourism_country_records_shape example_country_cube
           "Viti/muaji" "Variabla" "Shtetet"
           [("AL", "Albania"); ("DE", "Germany")]
           [("visitors", "0"); ("nights", "1")] ["2025M01"; "2025M02"]
           example_country_records).
  - vm_compute. reflexivity.
  - apply (bool_decide_unpack _). vm_compute. exact I.
  - constructor; [left; reflexivity|].
    constructor; [right; reflexivity|constructor].
Defined.

(** The second month of the first country is the third record. *)
Example tourism_country_records_example :
  tourism_country_records example_country_cube "Viti/muaji" "Variabla"
    "Shtetet" [("AL", "Albania"); ("DE", "Germany")]
    [("visitors", "0"); ("nights", "1")] ["2025M01"; "2025M02"]
  = Ret example_country_records
  ∧ example_country_records !! (1 * 2 + 0)%nat
    = Some (JDict [("period", JStr "2025-02"); ("country", JStr "Albania");
                   ("visitors", JInt 9); ("nights", JInt 21)]).
Proof. vm_compute. split; reflexivity. Qed.

(** X17.  When the records of the tourism-by-region table are produced,
    there is one record for each selected time code, each region and each
    visitor group: code by code, for a code region by region, and for a
    region in the order of the groups.  A record holds the normalized code,
    the label of the region, the normalized and the original label of the
    group and, for each metric, the tidied value looked up for that code,
    region, group and metric. *)
Theorem tourism_region_records_shape (cube : json)
    (dim_time dim_region dim_origin dim_var : string)
    (region_pairs origin_pairs metric_codes : list (string * string))
    (pick : list string) (records : list json) :
  tourism_region_records cube dim_time dim_region dim_origin dim_var
    region_pairs origin_pairs metric_codes pick = Ret records →
  NoDup metric_codes.*1 →
  Forall (λ kv, kv.1 = "visitors" ∨ kv.1 = "nights") metric_codes →
  length records
  = (length pick * (length region_pairs * length origin_pairs))%nat
  ∧ ∃ dim_codes lookup,
      table_lookup cube [dim_time; dim_region; dim_origin; dim_var]
      = Ret (Some (dim_codes, lookup))
      ∧ ∀ (t r o : nat) time_code region origin,
          pick !! t = Some time_code →
          region_pairs !! r = Some region →
          origin_pairs !! o = Some origin →
          ∃ row,
            records !! (t * (length region_pairs * length origin_pairs)
                        + (r * length origin_pairs + o))%nat
            = Some (JDict row)
            ∧ assoc "period" row = Some (JStr (normalize_ym time_code))
            ∧ assoc "region" row = Some (JStr region.2)
            ∧ assoc "visitor_group" row
              = Some (JStr (normalize_group_label origin.2))
            ∧ assoc "visitor_group_label" row = Some (JStr origin.2)
            ∧ ∀ key code, (key, code) ∈ metric_codes →
                ∃ value num,
                  lookup_table_value dim_codes lookup
                    (dict_of [(dim_time, time_code); (dim_region, region.1);
                              (dim_origin, origin.1); (dim_var, code)])
                  = Ret value
                  ∧ tidy_number value = Ret num
                  ∧ assoc key row = Some num.
Proof.
  unfold tourism_region_records.
  intros ([[dim_codes lookup]|] & Ht & H)%bind_Ret Hnd Hkeys; [|done].
  apply bind_Ret in H as (per_time & Hmap & [= <-]).
  assert (Hregions : ∀ (t : nat) time_code block,
            pick !! t = Some time_code → per_time !! t = Some block →
            ∃ per_region,
              block = concat per_region
              ∧ map_res
                  (λ region : string * string,
                     map_res
                       (λ origin : string * string,
                          row ← metric_row dim_codes lookup
                            (λ metric_code,
                               dict_of [(dim_time, time_code);
                                        (dim_region, region.1);
                                        (dim_origin, origin.1);
                                        (dim_var, metric_code)])
                            metric_codes
                            (dict_of
                               [("period", JStr (normalize_ym time_code));
                                ("region", JStr region.2);
                                ("visitor_group",
                                 JStr (normalize_group_label origin.2));
                                ("visitor_group_label", JStr origin.2)]);
                          Ret (JDict row))
                       origin_pairs)
                  region_pairs = Ret per_region
              ∧ Forall (λ b : list json, length b = length origin_pairs)
                  per_region).
  { intros t time_code block Hpt Hb.
    destruct (map_res_lookup _ _ _ _ _ Hmap Hpt) as (block' & Hblock & Hf).
    assert (block' = block) as -> by congruence.
    cbv beta zeta in Hf.
    apply bind_Ret in Hf as (per_region & Hpr & [= <-]).
    exists per_region. split; [done|]. split; [done|].
    apply map_res_Ret in Hpr. apply Forall_forall. intros b Hin.
    apply list_elem_of_lookup in Hin as [p Hp].
    destruct (Forall2_lookup_r _ _ _ _ _ Hpr Hp) as (region & _ & Hb').
    by eapply map_res_length. }
  assert (Hlen : Forall (λ block : list json,
                   length block
                   = (length region_pairs * length origin_pairs)%nat)
                   per_time).
  { apply Forall_forall. intros block Hin.
    apply list_elem_of_lookup in Hin as [t Hb].
    destruct (lookup_lt_is_Some_2 pick t) as [time_code Hpt].
    { rewrite <- (map_res_length _ _ _ Hmap). by eapply lookup_lt_Some. }
    destruct (Hregions _ _ _ Hpt Hb) as (per_region & -> & Hpr & Hall).
    rewrite (concat_blocks_length _ _ Hall).
    by rewrite (map_res_length _ _ _ Hpr). }
  split.
  - rewrite (concat_blocks_length _ _ Hlen).
    by rewrite (map_res_length _ _ _ Hmap).
  - exists dim_codes, lookup. split; [done|].
    intros t r o time_code region origin Hpt Hr Ho.
    destruct (lookup_lt_is_Some_2 per_time t) as [block Hb].
    { rewrite (map_res_length _ _ _ Hmap). by eapply lookup_lt_Some. }
    destruct (Hregions _ _ _ Hpt Hb) as (per_region & -> & Hpr & Hall).
    destruct (map_res_lookup _ _ _ _ _ Hpr Hr) as (b & Hbb & Hf).
    cbv beta in Hf.
    destruct (map_res_lookup _ _ _ _ _ Hf Ho) as (rec & Hrec & Hrow).
    cbv beta in Hrow. apply bind_Ret in Hrow as (row & Hrow & [= <-]).
    exists row. split.
    { apply (concat_blocks_lookup _ _ _ _ (concat per_region)); [done..|].
      by apply (concat_blocks_lookup _ _ _ _ b). }
    destruct (metric_row_spec _ _ _ _ _ _ Hrow Hnd) as (Hkeep & Hallm & _).
    assert (Hbase : ∀ k, k = "period" ∨ k = "region" ∨ k = "visitor_group"
                         ∨ k = "visitor_group_label" →
                         k ∉ metric_codes.*1).
    { intros k Hk' Hin. apply list_elem_of_fmap in Hin as ([k' v] & -> & Hin).
      rewrite Forall_forall in Hkeys. specialize (Hkeys _ Hin). cbn in *.
      destruct Hk' as [->|[->|[->| ->]]], Hkeys as [?|?]; done. }
    split_and!; [rewrite Hkeep by auto; done..|done].
Qed.

Lemma tourism_region_records_shape_witness :
  length example_region_records
  = (length ["2025M01"; "2025M02"]
     * (length [("1", "Prishtina"); ("2", "Prizren")]
        * length [("0", "Local"); ("1", "External")]))%nat
  ∧ ∃ dim_codes lookup,
      table_lookup example_region_cube
        ["Viti/muaji"; "Rajonet"; "Vendor/jashtem"; "Variabla"]
      = Ret (Some (dim_codes, lookup))
      ∧ ∀ (t r o : nat) time_code (region origin : string * string),
          ["2025M01"; "2025M02"] !! t = Some time_code →
          [("1", "Prishtina"); ("2", "Prizren")] !! r = Some region →
          [("0", "Local"); ("1", "External")] !! o = Some origin →
          ∃ row,
            example_region_records
              !! (t * (length [("1", "Prishtina"); ("2", "Prizren")]
                       * length [("0", "Local"); ("1", "External")])
                  + (r * length [("0", "Local"); ("1", "External")] + o))%nat
            = Some (JDict row)
            ∧ assoc "period" row = Some (JStr (normalize_ym time_code))
            ∧ assoc "region" row = Some (JStr region.2)
            ∧ assoc "visitor_group" row
              = Some (JStr (normalize_group_label origin.2))
            ∧ assoc "visitor_group_label" row = Some (JStr origin.2)
            ∧ ∀ key code, (key, code) ∈ [("visitors", "v"); ("nights", "n")] →
                ∃ value num,
                  lookup_table_value dim_codes lookup
                    (dict_of [("Viti/muaji", time_code);
                              ("Rajonet", region.1);
                              ("Vendor/jashtem", origin.1);
                              ("Variabla", code)])
                  = Ret value
                  ∧ tidy_number value = Ret num
                  ∧ assoc key row = Some num.
Proof.
  apply (tourism_region_records_shape example_region_cube
           "Viti/muaji" "Rajonet" "Vendor/jashtem" "Variabla"
           [("1", "Prishtina"); ("2", "Prizren")]
           [("0", "Local"); ("1", "External")]
           [("visitors", "v"); ("nights", "n")] ["2025M01"; "2025M02"]
           example_region_records).
  - vm_compute. reflexivity.
  - apply (bool_decide_unpack _). vm_compute. exact I.
  - constructor; [left; reflexivity|].
    constructor; [right; reflexivity|constructor].
Defined.

(** The second region's external visitors in the second month are the last
    of the eight records. *)
Example tourism_region_records_example :
  tourism_region_records example_region_cube "Viti/muaji" "Rajonet"
    "Vendor/jashtem" "Variabla" [("1", "Prishtina"); ("2", "Prizren")]
    [("0", "Local"); ("1", "External")] [("visitors", "v"); ("nights", "n")]
    ["2025M01"; "2025M02"]
  = Ret example_region_records
  ∧ example_region_records !! (1 * (2 * 2) + (1 * 2 + 1))%nat
    = Some (example_region_record "2025-02" "Prizren" "external" "External"
              (JInt 33) JNull).
Proof. vm_compute. split; reflexivity. Qed.

(** ** Whole numbers *)

Lemma digits2_pos_bounds p :
  2 ^ (Z.pos (digits2_pos p) - 1) ≤ Z.pos p < 2 ^ Z.pos (digits2_pos p).
Proof.
  induction p as [p IH|p IH|]; cbn [digits2_pos]; [| |done].
  all: rewrite Pos2Z.inj_succ.
  all: replace (Z.succ (Z.pos (digits2_pos p)) - 1)
         with (Z.succ (Z.pos (digits2_pos p) - 1)) by lia.
  all: rewrite !Z.pow_succ_r by lia; lia.
Qed.

Lemma iter_xO_value p d : Z.pos (Pos.iter xO p d) = Z.pos p * 2 ^ Z.pos d.
Proof.
  revert p. induction d as [|d IH] using Pos.peano_ind; intros p.
  - cbn [Pos.iter]. lia.
  - rewrite Pos.iter_succ, Pos2Z.inj_succ, Z.pow_succ_r by lia.
    rewrite Pos2Z.inj_xO, IH. lia.
Qed.

Lemma iter_xO_digits p d :
  digits2_pos (Pos.iter xO p d) = (digits2_pos p + d)%positive.
Proof.
  induction d as [|d IH] using Pos.peano_ind.
  - cbn [Pos.iter digits2_pos]. lia.
  - rewrite Pos.iter_succ. cbn [digits2_pos]. rewrite IH. lia.
Qed.

(** A mantissa of 53 bits with a small exponent is its own rounding. *)
Lemma binary_round_aux_exact s m e :
  digits2_pos m = 53%positive → -1074 ≤ e ≤ 971 →
  binary_round_aux prec emax s (Z.pos m) e loc_Exact = S754_finite s m e.
Proof.
  intros Hd He. unfold binary_round_aux, shr_fexp. cbn [Zdigits2].
  rewrite Hd. unfold fexp, emin, prec, emax.
  replace (Z.max (53 + e - 53) (3 - 1024 - 53) - e) with 0 by lia.
  cbn [shr shr_record_of_loc shr_m loc_of_shr_record round_nearest_even
       Zdigits2].
  rewrite Hd.
  replace (Z.max (53 + e - 53) (3 - 1024 - 53) - e) with 0 by lia.
  cbn [shr shr_record_of_loc shr_m].
  destruct (Z.leb_spec e (1024 - 53)); [done|lia].
Qed.

Lemma binary_round_small s p :
  Z.pos p < 2 ^ 53 →
  ∃ m e, binary_round prec emax s p 0 = S754_finite s m e
         ∧ e ≤ 0 ∧ Z.pos m = Z.pos p * 2 ^ (- e).
Proof.
  intros Hp. pose proof (digits2_pos_bounds p) as [Hlo _].
  assert (Hd : Z.pos (digits2_pos p) ≤ 53).
  { destruct (Z.le_gt_cases (Z.pos (digits2_pos p)) 53) as [|Hgt]; [done|].
    assert (2 ^ 53 ≤ 2 ^ (Z.pos (digits2_pos p) - 1))
      by (apply Z.pow_le_mono_r; lia). lia. }
  unfold binary_round, shl_align, fexp, emin, prec, emax.
  replace (Z.max (Z.pos (digits2_pos p) + 0 - 53) (3 - 1024 - 53) - 0)
    with (Z.pos (digits2_pos p) - 53) by lia.
  destruct (Z.pos (digits2_pos p) - 53) as [|q|d] eqn:Hq; [|lia|].
  - exists p, 0. split; [|split; [done|cbn; lia]].
    replace (Z.max (Z.pos (digits2_pos p) + 0 - 53) (3 - 1024 - 53)) with 0
      by lia.
    apply binary_round_aux_exact; [lia|lia].
  - exists (Pos.iter xO p d), (Z.neg d).
    replace (Z.max (Z.pos (digits2_pos p) + 0 - 53) (3 - 1024 - 53))
      with (Z.neg d) by lia.
    split; [|split; [lia|]].
    + apply binary_round_aux_exact; [|lia].
      rewrite iter_xO_digits. lia.
    + rewrite iter_xO_value. done.
Qed.

Lemma tidy_finite_exact s m e p :
  e ≤ 0 → Z.pos m = Z.pos p * 2 ^ (- e) →
  tidy_number (Some (S754_finite s m e)) = Ret (JInt (cond_Zopp s (Z.pos p))).
Proof.
  intros He Hm. unfold tidy_number, is_integer, int_of_float.
  assert (0 < 2 ^ (- e)) by (apply Z.pow_pos_nonneg; lia).
  assert (Z.pos m mod 2 ^ (- e) = 0) as Hmod.
  { rewrite Hm. apply Z.mod_mul. lia. }
  rewrite Hmod, Z.eqb_refl, orb_true_r. cbn [bind].
  destruct (Z.leb_spec 0 e).
  - assert (e = 0) as -> by lia. cbn in Hm. do 3 f_equal. cbn. lia.
  - do 3 f_equal. rewrite Hm. apply Z.div_mul. lia.
Qed.

(** X18.  A whole number of magnitude at most [2 ^ 53] goes through
    [coerce_number] and [tidy_number] unchanged: the float made of it is
    exact and integer-valued, and [tidy_number] gives the [int] back. *)
Theorem coerce_tidy_int (n : Z) :
  Z.abs n ≤ 2 ^ 53 →
  ∃ f, coerce_number (JInt n) = Ret (Some f)
       ∧ tidy_number (Some f) = Ret (JInt n).
Proof.
  intros Hn.
  destruct (decide (Z.abs n = 2 ^ 53)) as [Heq|Hne].
  { assert (n = 2 ^ 53 ∨ n = - 2 ^ 53) as [-> | ->] by lia;
      eexists; split; vm_compute; reflexivity. }
  cbn [coerce_number]. unfold float_of_int, binary_normalize.
  destruct n as [|p|p].
  - eexists. split; reflexivity.
  - destruct (binary_round_small false p) as (m & e & -> & He & Hm); [lia|].
    eexists. split; [reflexivity|]. by apply (tidy_finite_exact false m e p).
  - destruct (binary_round_small true p) as (m & e & -> & He & Hm); [lia|].
    eexists. split; [reflexivity|]. by apply (tidy_finite_exact true m e p).
Qed.

Example coerce_tidy_beyond :
  res_map Some (float_of_int (2 ^ 53 + 1)) = coerce_number (JInt (2 ^ 53 + 1))
  ∧ (f ← float_of_int (2 ^ 53 + 1); tidy_number (Some f))
    = Ret (JInt (2 ^ 53)).
Proof. split; vm_compute; reflexivity. Qed.

Lemma coerce_tidy_int_witness :
  ∃ f, coerce_number (JInt 1234567) = Ret (Some f)
       ∧ tidy_number (Some f) = Ret (JInt 1234567).
Proof. apply coerce_tidy_int. vm_compute. discriminate. Defined.

(** ** Numerals *)

Lemma digits_value_from_app a s t :
  digits_value_from a (s +:+ t) = digits_value_from (digits_value_from a s) t.
Proof.
  revert a. induction s as [|c s IH]; intros a; [done|].
  rewrite append_cons. cbn [digits_value_from]. apply IH.
Qed.

Lemma ord_chr (n : N) : (n < 256)%N → ord (chr n) = n.
Proof. intros H. unfold ord, chr. by apply N_ascii_embedding. Qed.

Lemma digit_char (d : N) :
  (d < 10)%N →
  is_ascii_digit (chr (48 + d)) = true
  ∧ Z.of_N (ord (chr (48 + d))) - 48 = Z.of_N d.
Proof.
  intros Hd. unfold is_ascii_digit. rewrite ord_chr by lia.
  split; [|lia].
  apply andb_true_intro. split; apply N.leb_le; lia.
Qed.

(** The digits of a number, as [digits_of] writes them in front of what it
    is given. *)
Lemma digits_of_spec (fuel : nat) (n : N) acc :
  (n < 2 ^ N.of_nat fuel)%N →
  ∃ ds, digits_of fuel n acc = ds +:+ acc
        ∧ str_all is_ascii_digit ds = true
        ∧ (fuel ≠ 0%nat → ds ≠ "")
        ∧ ∀ a, digits_value_from a ds
               = a * 10 ^ Z.of_nat (len ds) + Z.of_N n.
Proof.
  revert n acc. induction fuel as [|fuel IH]; intros n acc Hn.
  - exists "". split_and!; try done. intros a. cbn in *. lia.
  - cbn [digits_of].
    destruct (digit_char (n mod 10)) as [Hdig Hval].
    { apply N.mod_upper_bound. lia. }
    destruct (N.ltb_spec n 10) as [Hlt|Hge].
    + exists (String (chr (48 + n mod 10)) ""). split_and!; try done.
      * cbn [str_all]. by rewrite Hdig.
      * intros a. cbn [digits_value_from len String.length].
        rewrite Hval, N.mod_small by done. lia.
    + destruct (IH (n / 10)%N (String (chr (48 + n mod 10)) acc))
        as (ds & Hds & Hall & _ & Hv).
      { rewrite Nat2N.inj_succ, N.pow_succ_r' in Hn.
        apply N.Div0.div_lt_upper_bound. lia. }
      exists (ds +:+ String (chr (48 + n mod 10)) ""). split_and!.
      * rewrite Hds. clear. induction ds as [|c ds IHd]; [done|].
        rewrite !append_cons. by rewrite IHd.
      * rewrite str_all_app, Hall. cbn [str_all]. by rewrite Hdig.
      * intros _. by destruct ds.
      * intros a. rewrite digits_value_from_app, Hv.
        cbn [digits_value_from]. rewrite Hval.
        unfold len. rewrite length_append. cbn [String.length].
        rewrite Nat.add_1_r, Nat2Z.inj_succ, Z.pow_succ_r by lia.
        rewrite (N.div_mod n 10) at 3 by lia.
        rewrite N2Z.inj_add, N2Z.inj_mul. unfold len. lia.
Qed.

Lemma str_of_N_spec (n : N) :
  str_of_N n ≠ ""
  ∧ str_all is_ascii_digit (str_of_N n) = true
  ∧ digits_value (str_of_N n) = Z.of_N n.
Proof.
  unfold str_of_N.
  destruct (digits_of_spec (S (N.to_nat (N.log2 n))) n "")
    as (ds & Hds & Hall & Hne & Hv).
  { rewrite Nat2N.inj_succ, N2Nat.id.
    destruct n as [|p]; [done|]. by apply N.log2_spec. }
  assert (ds +:+ "" = ds) as Happ.
  { clear. induction ds as [|c ds IH]; [done|]. rewrite append_cons.
    by rewrite IH. }
  rewrite Hds, Happ. split_and!; [by apply Hne|done|].
  unfold digits_value. rewrite Hv. lia.
Qed.

Lemma numeral_char_cases c :
  numeral_char c = true →
  is_space_char c = false ∧ is_blank c = false
  ∧ c ≠ nbsp ∧ c ≠ ","%char ∧ c ≠ "_"%char
  ∧ float_char c = Some c.
Proof.
  destruct c as [[] [] [] [] [] [] [] []]; vm_compute; try congruence.
  all: intros _; split_and!; congruence.
Qed.

Lemma digit_numeral_char c : is_ascii_digit c = true → numeral_char c = true.
Proof. unfold numeral_char. by intros ->. Qed.

Lemma str_remove_id (p : ascii → bool) c s :
  (∀ a, p a = true → a ≠ c) → str_all p s = true → str_remove c s = s.
Proof.
  intros Hp. induction s as [|a s IH]; [done|]. cbn [str_all str_remove].
  intros [Ha Hs]%andb_prop. rewrite decide_False by auto. by rewrite IH.
Qed.

Lemma float_chars_id s :
  str_all numeral_char s = true → float_chars s = Some s.
Proof.
  induction s as [|a s IH]; [done|]. cbn [str_all float_chars].
  intros [Ha Hs]%andb_prop.
  destruct (numeral_char_cases a Ha) as (_ & _ & _ & _ & _ & ->).
  by rewrite IH.
Qed.

Lemma remove_underscores_id prev s :
  prev ≠ "_"%char → str_all numeral_char s = true →
  remove_underscores prev s = Some s.
Proof.
  revert prev. induction s as [|a s IH]; intros prev Hprev.
  - intros _. cbn. by rewrite decide_False.
  - cbn [str_all remove_underscores]. intros [Ha Hs]%andb_prop.
    destruct (numeral_char_cases a Ha) as (_ & _ & _ & _ & Hus & _).
    rewrite decide_False by done.
    rewrite (bool_decide_eq_false_2 (prev = "_"%char)) by done.
    cbn [andb]. by rewrite IH.
Qed.

Lemma lstrip_blank_id s :
  str_all numeral_char s = true → lstrip_blank s = s.
Proof.
  destruct s as [|a s]; [done|]. cbn [str_all lstrip_blank].
  intros [Ha _]%andb_prop.
  by destruct (numeral_char_cases a Ha) as (_ & -> & _).
Qed.

Lemma rstrip_blank_id s :
  str_all numeral_char s = true → rstrip_blank s = s.
Proof.
  induction s as [|a s IH]; [done|]. cbn [str_all rstrip_blank].
  intros [Ha Hs]%andb_prop. rewrite (IH Hs).
  destruct (numeral_char_cases a Ha) as (_ & -> & _). by destruct s.
Qed.

Lemma span_digits_all s :
  str_all is_ascii_digit s = true → span_digits s = (s, "").
Proof.
  induction s as [|a s IH]; [done|]. cbn [str_all span_digits].
  intros [-> Hs]%andb_prop. by rewrite IH.
Qed.

Lemma append_empty s : s +:+ "" = s.
Proof.
  induction s as [|c s IH]; [done|]. rewrite append_cons. by rewrite IH.
Qed.

(** [float] of a run of digits. *)
Lemma parse_numeral_digits neg ds :
  ds ≠ "" → str_all is_ascii_digit ds = true →
  parse_numeral neg ds = Ret (decimal_to_float neg (digits_value ds) 0).
Proof.
  intros Hne Hall. unfold parse_numeral. rewrite span_digits_all by done.
  rewrite (bool_decide_eq_false_2 (ds = "")) by done. cbn [andb].
  cbn [parse_exponent bind]. by rewrite append_empty.
Qed.

Lemma digits_not_word ds w :
  ds ≠ "" → str_all is_ascii_digit ds = true →
  str_all is_ascii_digit w = false → str_head w ≠ None →
  is_ascii_digit (default "0"%char (str_head w)) = false →
  str_lower_ascii ds ≠ w.
Proof.
  destruct ds as [|c ds]; [done|]. intros _ Hall _ Hw Hd.
  cbn [str_all] in Hall. apply andb_prop in Hall as [Hc _].
  cbn [str_lower_ascii]. intros <-. cbn in Hd.
  revert Hc Hd. clear. destruct c as [[] [] [] [] [] [] [] []]; vm_compute; congruence.
Qed.

Lemma float_of_str_digits (neg : bool) ds :
  ds ≠ "" → str_all is_ascii_digit ds = true →
  float_of_str ((if neg then "-" else "") +:+ ds)
  = Ret (decimal_to_float neg (digits_value ds) 0).
Proof.
  intros Hne Hall.
  assert (Hnum : str_all numeral_char ((if neg then "-" else "") +:+ ds)
                 = true).
  { rewrite str_all_app. apply andb_true_intro. split; [by destruct neg|].
    eapply str_all_impl; [|exact Hall]. apply digit_numeral_char. }
  unfold float_of_str. rewrite float_chars_id by done. cbn [mbind option_bind].
  rewrite remove_underscores_id by done.
  rewrite lstrip_blank_id, rstrip_blank_id by done.
  assert (parse_sign ((if neg then "-" else "") +:+ ds) = (neg, ds)) as ->.
  { destruct neg; [done|]. rewrite append_nil.
    destruct ds as [|c ds]; [done|]. cbn [str_all] in Hall.
    apply andb_prop in Hall as [Hc _]. unfold parse_sign.
    rewrite !decide_False; [done| |]; intros ->; done. }
  rewrite !bool_decide_eq_false_2.
  - by apply parse_numeral_digits.
  - by apply digits_not_word.
  - by apply digits_not_word.
  - by apply digits_not_word.
Qed.

Lemma coerce_str_digits (neg : bool) ds :
  ds ≠ "" → str_all is_ascii_digit ds = true →
  coerce_str ((if neg then "-" else "") +:+ ds)
  = Ret (Some (decimal_to_float neg (digits_value ds) 0)).
Proof.
  intros Hne Hall.
  set (s := (if neg then "-" else "") +:+ ds).
  assert (Hnum : str_all numeral_char s = true).
  { unfold s. rewrite str_all_app. apply andb_true_intro.
    split; [by destruct neg|].
    eapply str_all_impl; [|exact Hall]. apply digit_numeral_char. }
  assert (Hsp : str_all (λ c, negb (is_space_char c)) s = true).
  { eapply str_all_impl; [|exact Hnum]. intros c Hc.
    by destruct (numeral_char_cases c Hc) as (-> & _). }
  unfold coerce_str, strip.
  rewrite (str_lstrip_id s Hsp), (str_rstrip_id s Hsp).
  assert (bool_decide (s = "") || is_marker s = false) as ->.
  { unfold s. destruct ds as [|c ds]; [done|].
    cbn [str_all] in Hall. apply andb_prop in Hall as [Hc _].
    destruct neg.
    - destruct ds; done.
    - rewrite append_nil. revert Hc. clear.
      destruct c as [[] [] [] [] [] [] [] []]; vm_compute; try congruence.
      all: by destruct ds as [|? [|? [|??]]]. }
  rewrite (str_remove_id numeral_char nbsp s) by
    (done || intros a Ha; by destruct (numeral_char_cases a Ha) as (_ & _ & ? & _)).
  rewrite (str_remove_id numeral_char "," s) by
    (done || intros a Ha; by destruct (numeral_char_cases a Ha) as (_ & _ & _ & ? & _)).
  unfold s. by rewrite float_of_str_digits.
Qed.

(** X19.  A whole number written as its decimal numeral is coerced to the
    same float as the number itself: whenever [coerce_number] returns for an
    [int], it returns the same for the [str] of that [int]. *)
Theorem coerce_number_numeral (n : Z) (r : option float) :
  coerce_number (JInt n) = Ret r →
  coerce_number (JStr (str_of_Z n)) = Ret r.
Proof.
  cbn [coerce_number]. unfold float_of_int, binary_normalize, str_of_Z.
  destruct n as [|p|p].
  - intros <-. reflexivity.
  - destruct (str_of_N_spec (Z.to_N (Z.pos p))) as (Hne & Hall & Hv).
    pose proof (coerce_str_digits false _ Hne Hall) as Hc.
    rewrite append_nil in Hc. cbn [coerce_number]. rewrite Hc, Hv.
    cbn [Z.to_N Z.of_N decimal_to_float]. cbn [Z.leb Z.compare].
    change (Z.to_pos (10 ^ 0)) with 1%positive. rewrite Pos.mul_1_r.
    destruct (binary_round prec emax false p 0); cbn; congruence.
  - destruct (str_of_N_spec (N.pos p)) as (Hne & Hall & Hv).
    pose proof (coerce_str_digits true _ Hne Hall) as Hc.
    cbv iota in Hc. rewrite append_cons, append_nil in Hc.
    cbn [coerce_number]. rewrite Hc, Hv.
    cbn [Z.of_N decimal_to_float]. cbn [Z.leb Z.compare].
    change (Z.to_pos (10 ^ 0)) with 1%positive. rewrite Pos.mul_1_r.
    destruct (binary_round prec emax true p 0); cbn; congruence.
Qed.

Example coerce_number_numeral_example :
  str_of_Z (-1234567) = "-1234567"
  ∧ coerce_number (JStr "-1234567") = coerce_number (JInt (-1234567)).
Proof. split; vm_compute; reflexivity. Qed.

Lemma coerce_number_numeral_witness :
  coerce_number (JStr (str_of_Z 2025))
  = Ret (Some (S754_finite false 8906044184985600 (-42))).
Proof. apply coerce_number_numeral. vm_compute. reflexivity. Defined.

(** ** The manifest *)

Lemma runs_fetch_guarded_info table line months partners w tr :
  ∃ r : res (list (string * json)),
    runs (fetch_guarded table line months partners) w tr (Ret (info_of r))
      (guarded_seg table line months partners (outcome r)).
Proof.
  unfold runs, fetch_guarded, try_except, bindM, fetch, act.
  destruct (fetcher w tr _) as [info|e].
  - by exists (Ret info).
  - exists (Raise e). unfold emit, retM. by rewrite <- app_assoc.
Qed.

Lemma runs_fuel_step_info fuel_name path_key months infos w tr :
  ∃ r : res (list (string * json)),
    runs (try_except
            (bindM (fetch path_key months None)
               (λ info, retM (dict_set fuel_name (JDict info) infos)))
            (λ e,
               bindM (emit (EvPrint ("! Fuel " +:+ fuel_name +:+ " download failed:")
                              (Some e)))
                 (λ _, retM infos)))
      w tr
      (Ret match r with
           | Ret info => dict_set fuel_name (JDict info) infos
           | Raise _ => infos
           end)
      (guarded_seg path_key ("! Fuel " +:+ fuel_name +:+ " download failed:")
         months None (outcome r)).
Proof.
  unfold runs, try_except, bindM, fetch, act.
  destruct (fetcher w tr _) as [info|e].
  - by exists (Ret info).
  - exists (Raise e). unfold emit, retM. by rewrite <- app_assoc.
Qed.

Lemma runs_fetch_fuels_infos months w tr :
  ∃ r1 r2 r3 r4,
    runs (fetch_fuels FUEL_SPECS months []) w tr
      (Ret (fuel_infos_of [r1; r2; r3; r4]))
      (guarded_seg "fuel_gasoline" "! Fuel gasoline download failed:" months
         None (outcome r1)
       ++ guarded_seg "fuel_diesel" "! Fuel diesel download failed:" months
            None (outcome r2)
       ++ guarded_seg "fuel_lng" "! Fuel lng download failed:" months None
            (outcome r3)
       ++ guarded_seg "fuel_jet" "! Fuel jet download failed:" months None
            (outcome r4)).
Proof.
  unfold FUEL_SPECS at 1. cbn [fetch_fuels].
  destruct (runs_fuel_step_info "gasoline" "fuel_gasoline" months [] w tr)
    as (r1 & H1).
  match type of H1 with runs _ _ _ (Ret ?i) ?seg =>
    destruct (runs_fuel_step_info "diesel" "fuel_diesel" months i w
                (tr ++ seg)) as (r2 & H2) end.
  match type of H2 with runs _ _ ?t (Ret ?i) ?seg =>
    destruct (runs_fuel_step_info "lng" "fuel_lng" months i w
                (t ++ seg)) as (r3 & H3) end.
  match type of H3 with runs _ _ ?t (Ret ?i) ?seg =>
    destruct (runs_fuel_step_info "jet" "fuel_jet" months i w
                (t ++ seg)) as (r4 & H4) end.
  exists r1, r2, r3, r4.
  eapply runs_bind; [exact H1|].
  eapply runs_bind; [exact H2|].
  eapply runs_bind; [exact H3|].
  rewrite <- (app_nil_r (guarded_seg "fuel_jet" _ _ _ _)).
  eapply runs_bind; [exact H4|]. apply runs_retM.
Qed.

Lemma runs_write_manifest a data w tr :
  ∃ r tail,
    runs (bindM (write_json (main_out_dir a) "kas_sources.json" data)
            (λ _, emit (EvPrint "Done." None))) w tr r tail
    ∧ (∀ u, r = Ret u → tail = manifest_tail a data).
Proof.
  unfold write_json.
  destruct (runs_act disk (EvMkdir (main_out_dir a)) w tr)
    as [[[] H1]|[e H1]].
  2:{ exists (Raise e), [(EvMkdir (main_out_dir a), Some e)].
      split; [by do 2 apply runs_bind_raise|done]. }
  destruct (runs_act disk
              (EvWrite (path_join (main_out_dir a) "kas_sources.json") data) w
              (tr ++ [(EvMkdir (main_out_dir a), None)]))
    as [[[] H2]|[e H2]].
  2:{ exists (Raise e),
        [(EvMkdir (main_out_dir a), None);
         (EvWrite (path_join (main_out_dir a) "kas_sources.json") data,
          Some e)].
      split; [|done].
      apply runs_bind_raise. eapply (runs_bind _ _ _ _ _ [_] _ [_]); [done|].
      by apply runs_bind_raise. }
  exists (Ret tt), (manifest_tail a data). split; [|done].
  eapply (runs_bind _ _ _ _ _ [_; _; _] _ [_]); [|apply runs_emit].
  eapply (runs_bind _ _ _ _ _ [_] _ [_; _]); [done|].
  eapply (runs_bind _ _ _ _ _ [_] _ [_]); [done|]. apply runs_emit.
Qed.

(** A run of [main] that returns: its trace and the manifest it writes. *)
Lemma main_manifest (w : env) (a : args) :
  ∃ r evs, runs (main a) w [] r evs
    ∧ (∀ u, r = Ret u →
       ∃ trade_info energy_info r1 r2 r3 r4 r5 r6 r7,
         evs = header a
               ++ [(EvMkdir (main_out_dir a), None);
                   (EvFetch "trade_monthly" (main_months a) None, None);
                   (EvFetch "energy_monthly" (main_months a) None, None)]
               ++ guarded_part a
                    [outcome r1; outcome r2; outcome r3; outcome r4;
                     outcome r5; outcome r6; outcome r7]
               ++ manifest_tail a
                    (manifest (clock w) (main_partners a) trade_info
                       energy_info (fuel_infos_of [r1; r2; r3; r4])
                       (info_of r5) (info_of r6)
                       (match main_partners a with
                        | Some _ => info_of r7
                        | None => None
                        end))).
Proof.
  unfold main, header, guarded_part. cbv zeta.
  destruct (main_partners a) as [ps|] eqn:Hps.
  all: do 4 (apply peel_emit; cbv beta).
  all: apply peel_act; cbv beta; [intros []|by intros e u].
  all: eapply (peel_runs _ _ _ _ [] _ (clock w));
    [unfold runs; by rewrite app_nil_r|].
  all: cbn [app]; unfold fetch at 1.
  all: apply peel_act; cbv beta; [intros trade_info|by intros e u].
  all: unfold fetch at 1.
  all: apply peel_act; cbv beta; [intros energy_info|by intros e u].
  all: match goal with
       | |- ∃ r evs, runs _ ?w' ?tr r evs ∧ _ =>
           destruct (runs_fetch_fuels_infos (main_months a) w' tr)
             as (r1 & r2 & r3 & r4 & Hfuels)
       end.
  all: eapply peel_runs; [exact Hfuels|].
  all: match goal with
       | |- ∃ r evs, runs (bindM (fetch_guarded ?t ?l ?m ?p) _) ?w' ?tr r evs ∧ _ =>
           destruct (runs_fetch_guarded_info t l m p w' tr) as (r5 & Hregion)
       end.
  all: eapply peel_runs; [exact Hregion|].
  all: match goal with
       | |- ∃ r evs, runs (bindM (fetch_guarded ?t ?l ?m ?p) _) ?w' ?tr r evs ∧ _ =>
           destruct (runs_fetch_guarded_info t l m p w' tr) as (r6 & Hcountry)
       end.
  all: eapply peel_runs; [exact Hcountry|].
  - match goal with
    | |- ∃ r evs, runs (bindM (fetch_guarded ?t ?l ?m ?p) _) w ?tr r evs ∧ _ =>
        destruct (runs_fetch_guarded_info t l m p w tr) as (r7 & Hp)
    end.
    eapply peel_runs; [exact Hp|].
    match goal with
    | |- ∃ r evs, runs (bindM (write_json _ _ ?d) _) w ?tr r evs ∧ _ =>
        destruct (runs_write_manifest a d w tr) as (r & tail & Hw & Htail)
    end.
    exists r, tail. split; [done|]. intros u Hu.
    rewrite (Htail u Hu).
    exists trade_info, energy_info, r1, r2, r3, r4, r5, r6, r7.
    cbn [lookup list_lookup default id]. by rewrite <- !app_assoc.
  - eapply (peel_runs _ _ _ _ [] _ None); [apply runs_retM|].
    match goal with
    | |- ∃ r evs, runs (bindM (write_json _ _ ?d) _) w ?tr r evs ∧ _ =>
        destruct (runs_write_manifest a d w tr) as (r & tail & Hw & Htail)
    end.
    exists r, tail. split; [done|]. intros u Hu.
    rewrite (Htail u Hu).
    exists trade_info, energy_info, r1, r2, r3, r4, r5, r6, (Ret []).
    cbn [lookup list_lookup default id]. rewrite app_nil_r.
    by rewrite <- !app_assoc.
Qed.

Lemma failed_app tr1 tr2 : failed (tr1 ++ tr2) = failed tr1 ++ failed tr2.
Proof. apply omap_app. Qed.

Lemma written_app tr1 tr2 : written (tr1 ++ tr2) = written tr1 ++ written tr2.
Proof. apply omap_app. Qed.

Lemma failed_seg table line m p o :
  failed (guarded_seg table line m p o)
  = match o with Some _ => [table] | None => [] end.
Proof. by destruct o. Qed.

Lemma written_seg table line m p o :
  written (guarded_seg table line m p o) = [].
Proof. by destruct o. Qed.

Lemma manifest_source_fuel s p t e f rg c pr :
  manifest_source (manifest s p t e f rg c pr) "fuel_monthly"
  = Ret (if bool_decide (f = []) then JNull else JDict f).
Proof. reflexivity. Qed.

Lemma manifest_source_partner s p t e f rg c pr :
  manifest_source (manifest s p t e f rg c pr) "imports_by_partner"
  = Ret match p with
        | Some _ =>
            JDict
              (foldl (λ d kv, dict_set kv.1 kv.2 d)
                 [("table", JStr "07_imp_country.px");
                  ("path", JStr "ASKdata/External trade/Monthly indicators/07_imp_country.px");
                  ("unit", JStr "thousand euro")]
                 (default [] pr))
        | None => JNull
        end.
Proof. reflexivity. Qed.

Lemma manifest_source_tourism s p t e f rg c pr :
  manifest_source (manifest s p t e f rg c pr) "tourism_monthly"
  = Ret (let tm :=
           match rg with Some (kv :: d) => [("region", JDict (kv :: d))] | _ => [] end
           ++ match c with Some (kv :: d) => [("country", JDict (kv :: d))] | _ => [] end in
         if bool_decide (tm = []) then JNull else JDict tm).
Proof. reflexivity. Qed.

Lemma elem_of_failed_seg (t t' : string) (o : option exn) :
  t ∈ match o with Some _ => [t'] | None => [] end ↔ t = t' ∧ o ≠ None.
Proof.
  destruct o as [e|].
  - rewrite list_elem_of_singleton. split; [by intros ->|by intros [-> _]].
  - split; [by intros ?%elem_of_nil|by intros [_ ?]].
Qed.

Lemma fuel_infos_nil r1 r2 r3 r4 :
  fuel_infos_of [r1; r2; r3; r4] = []
  ↔ outcome r1 ≠ None ∧ outcome r2 ≠ None ∧ outcome r3 ≠ None
    ∧ outcome r4 ≠ None.
Proof.
  destruct r1, r2, r3, r4; vm_compute.
  all: split; [intros H; try discriminate H; by repeat split|].
  all: intros (? & ? & ? & ?); done.
Qed.

Lemma fuel_infos_assoc r1 r2 r3 r4 :
  assoc "gasoline" (fuel_infos_of [r1; r2; r3; r4]) = JDict <$> info_of r1
  ∧ assoc "diesel" (fuel_infos_of [r1; r2; r3; r4]) = JDict <$> info_of r2
  ∧ assoc "lng" (fuel_infos_of [r1; r2; r3; r4]) = JDict <$> info_of r3
  ∧ assoc "jet" (fuel_infos_of [r1; r2; r3; r4]) = JDict <$> info_of r4.
Proof. destruct r1, r2, r3, r4; vm_compute; done. Qed.

Lemma failed_list_elem (o1 o2 o3 o4 o5 o6 o7 : option exn)
    (p : option (list string)) :
  let l :=
    match o1 with Some _ => ["fuel_gasoline"] | None => [] end
    ++ match o2 with Some _ => ["fuel_diesel"] | None => [] end
    ++ match o3 with Some _ => ["fuel_lng"] | None => [] end
    ++ match o4 with Some _ => ["fuel_jet"] | None => [] end
    ++ match o5 with Some _ => ["tourism_region"] | None => [] end
    ++ match o6 with Some _ => ["tourism_country"] | None => [] end
    ++ match p, o7 with
       | Some _, Some _ => ["imports_by_partner"]
       | _, _ => []
       end in
  ("fuel_gasoline" ∈ l ↔ o1 ≠ None) ∧ ("fuel_diesel" ∈ l ↔ o2 ≠ None)
  ∧ ("fuel_lng" ∈ l ↔ o3 ≠ None) ∧ ("fuel_jet" ∈ l ↔ o4 ≠ None)
  ∧ ("tourism_region" ∈ l ↔ o5 ≠ None)
  ∧ ("tourism_country" ∈ l ↔ o6 ≠ None).
Proof.
  cbv zeta.
  assert (Hp : ∀ t, t ∈ match p, o7 with
                        | Some _, Some _ => ["imports_by_partner"]
                        | _, _ => []
                        end → t = "imports_by_partner").
  { intros t. destruct p, o7; try (by intros ?%elem_of_nil).
    by intros ?%list_elem_of_singleton. }
  rewrite !elem_of_app, !elem_of_failed_seg.
  split_and!; (split; [|intros ?; auto 10]).
  all: intros H;
    repeat (destruct H as [[? H]|H]; [done || discriminate|]);
    by apply Hp in H.
Qed.

Lemma no_partners_iff a : main_partners a = None ↔ arg_no_partners a = true.
Proof.
  unfold main_partners. destruct (arg_no_partners a); [done|].
  split; [|done]. destruct (arg_partners a) as [s|]; [|done].
  by case_bool_decide.
Qed.

(** X20.  A run that exits with 0 writes the manifest, once and as its only
    file, whatever happened to the guarded tables, and the manifest tells
    what happened: ['imports_by_partner'] is null exactly when
    [--no-partners] was given; ['fuel_monthly'] is null exactly when the
    fetch of every fuel table raised, and otherwise has an entry for a fuel
    exactly when the fetch of its table did not raise; ['tourism_monthly']
    is null when both tourism fetches raised. *)
Theorem manifest_records_failures (w : env) (a : args) :
  (run w a).1 = 0 →
  ∃ data,
    written (run w a).2
    = [(path_join (main_out_dir a) "kas_sources.json", data)]
    ∧ (manifest_source data "imports_by_partner" = Ret JNull
       ↔ arg_no_partners a = true)
    ∧ (manifest_source data "fuel_monthly" = Ret JNull
       ↔ ∀ name table, (name, table) ∈ FUEL_SPECS →
           table ∈ failed (run w a).2)
    ∧ (∀ name table, (name, table) ∈ FUEL_SPECS →
         table ∉ failed (run w a).2
         ↔ ∃ fuels info,
             manifest_source data "fuel_monthly" = Ret (JDict fuels)
             ∧ assoc name fuels = Some (JDict info))
    ∧ ("tourism_region" ∈ failed (run w a).2 →
       "tourism_country" ∈ failed (run w a).2 →
       manifest_source data "tourism_monthly" = Ret JNull).
Proof.
  destruct (main_manifest w a) as (r & evs & Hruns & Hm).
  rewrite (run_main w a r evs Hruns).
  destruct r as [u|e]; cbn [fst snd];
    [|intros Hc; by apply exit_code_nonzero in Hc].
  intros _.
  destruct (Hm u eq_refl)
    as (trade_info & energy_info & r1 & r2 & r3 & r4 & r5 & r6 & r7 & ->).
  clear Hm Hruns.
  exists (manifest (clock w) (main_partners a) trade_info energy_info
            (fuel_infos_of [r1; r2; r3; r4]) (info_of r5) (info_of r6)
            (match main_partners a with
             | Some _ => info_of r7
             | None => None
             end)).
  assert (Hfailed :
    failed (header a
            ++ [(EvMkdir (main_out_dir a), None);
                (EvFetch "trade_monthly" (main_months a) None, None);
                (EvFetch "energy_monthly" (main_months a) None, None)]
            ++ guarded_part a
                 [outcome r1; outcome r2; outcome r3; outcome r4;
                  outcome r5; outcome r6; outcome r7]
            ++ manifest_tail a
                 (manifest (clock w) (main_partners a) trade_info energy_info
                    (fuel_infos_of [r1; r2; r3; r4]) (info_of r5)
                    (info_of r6)
                    (match main_partners a with
                     | Some _ => info_of r7
                     | None => None
                     end)))
    = match outcome r1 with Some _ => ["fuel_gasoline"] | None => [] end
      ++ match outcome r2 with Some _ => ["fuel_diesel"] | None => [] end
      ++ match outcome r3 with Some _ => ["fuel_lng"] | None => [] end
      ++ match outcome r4 with Some _ => ["fuel_jet"] | None => [] end
      ++ match outcome r5 with Some _ => ["tourism_region"] | None => [] end
      ++ match outcome r6 with Some _ => ["tourism_country"] | None => [] end
      ++ match main_partners a, outcome r7 with
         | Some _, Some _ => ["imports_by_partner"]
         | _, _ => []
         end).
  { unfold header, guarded_part, manifest_tail. cbv zeta.
    rewrite !failed_app, !failed_seg.
    cbn [lookup list_lookup default id failed omap app].
    destruct (main_partners a); [rewrite failed_seg|];
      by rewrite ?app_nil_r. }
  rewrite Hfailed. clear Hfailed.
  destruct (failed_list_elem (outcome r1) (outcome r2) (outcome r3)
              (outcome r4) (outcome r5) (outcome r6) (outcome r7)
              (main_partners a)) as (F1 & F2 & F3 & F4 & F5 & F6).
  cbv zeta in F1, F2, F3, F4, F5, F6.
  destruct (fuel_infos_assoc r1 r2 r3 r4) as (A1 & A2 & A3 & A4).
  pose proof (fuel_infos_nil r1 r2 r3 r4) as Hnil.
  split; [|split; [|split; [|split]]].
  - unfold header, guarded_part, manifest_tail. cbv zeta.
    rewrite !written_app, !written_seg.
    destruct (main_partners a); [rewrite written_seg|]; reflexivity.
  - rewrite manifest_source_partner, <- no_partners_iff.
    destruct (main_partners a); split; done.
  - rewrite manifest_source_fuel.
    transitivity (fuel_infos_of [r1; r2; r3; r4] = []).
    { case_bool_decide; split; done. }
    rewrite Hnil, <- F1, <- F2, <- F3, <- F4. unfold FUEL_SPECS. split.
    + intros (? & ? & ? & ?) name table Hin.
      repeat (apply elem_of_cons in Hin as [[= -> ->]|Hin]); try done.
      by apply elem_of_nil in Hin.
    + intros H. split_and!.
      * apply (H "gasoline"), list_elem_of_here.
      * apply (H "diesel"), list_elem_of_further, list_elem_of_here.
      * apply (H "lng").
        do 2 apply list_elem_of_further. apply list_elem_of_here.
      * apply (H "jet").
        do 3 apply list_elem_of_further. apply list_elem_of_here.
  - intros name table Hin. rewrite manifest_source_fuel.
    assert (Hiff : ∀ r : res (list (string * json)),
              assoc name (fuel_infos_of [r1; r2; r3; r4]) = JDict <$> info_of r →
              ¬ outcome r ≠ None
              ↔ ∃ fuels info,
                  Ret (if bool_decide (fuel_infos_of [r1; r2; r3; r4] = [])
                       then JNull
                       else JDict (fuel_infos_of [r1; r2; r3; r4]))
                  = Ret (JDict fuels)
                  ∧ assoc name fuels = Some (JDict info)).
    { intros r Ha. split.
      - intros Hn. destruct r as [info|e]; [|by destruct Hn].
        exists (fuel_infos_of [r1; r2; r3; r4]), info. split; [|done].
        case_bool_decide as He; [|done]. by rewrite He in Ha.
      - intros (fuels & info & Hf & Hi). case_bool_decide; [done|].
        injection Hf as <-. rewrite Ha in Hi. destruct r; [|done].
        intros Hr. by apply Hr. }
    unfold FUEL_SPECS in Hin.
    repeat (apply elem_of_cons in Hin as [[= -> ->]|Hin]);
      [| | | |by apply elem_of_nil in Hin].
    + rewrite F1. by apply Hiff.
    + rewrite F2. by apply Hiff.
    + rewrite F3. by apply Hiff.
    + rewrite F4. by apply Hiff.
  - rewrite F5, F6, manifest_source_tourism. intros H5 H6.
    destruct r5 as [i5|e5]; [by destruct H5|].
    destruct r6 as [i6|e6]; [by destruct H6|]. reflexivity.
Qed.

Lemma manifest_records_failures_witness :
  ∃ data,
    written (run example_env default_args).2
    = [(path_join (main_out_dir default_args) "kas_sources.json", data)]
    ∧ ∃ fuels info,
        manifest_source data "fuel_monthly" = Ret (JDict fuels)
        ∧ assoc "lng" fuels = Some (JDict info).
Proof.
  destruct (manifest_records_failures example_env default_args)
    as (data & Hw & _ & _ & Hfuel & _); [vm_compute; reflexivity|].
  exists data. split; [exact Hw|].
  apply (Hfuel "lng" "fuel_lng").
  - vm_compute. do 2 apply list_elem_of_further. apply list_elem_of_here.
  - intros H. apply (bool_decide_pack _) in H. vm_compute in H. exact H.
Defined.

Example manifest_example :
  failed (run example_env default_args).2 = ["fuel_diesel"; "tourism_country"]
  ∧ (data ← match written (run example_env default_args).2 with
            | [(_, data)] => Ret data
            | _ => Raise KeyError
            end;
     manifest_source data "fuel_monthly")
    = Ret (JDict [("gasoline", JDict [("periods", JInt 24)]);
                  ("lng", JDict [("periods", JInt 24)]);
                  ("jet", JDict [("periods", JInt 24)])]).
Proof. split; vm_compute; reflexivity. Qed.

(** ** A fetcher from the request to the file *)


Lemma runs_inv {A} (m : M A) w tr r evs :
  runs m w tr r evs → m w tr = (r, tr ++ evs).
Proof. done. Qed.





(** ** fetch_trade_monthly *)



Example fetch_trade_monthly_example :
  fetch_trade_monthly "data" (Some 2) answering_env []
  = (Ret [("periods", JInt 2)],
     [(EvGet "https://askdata.rks-gov.net/PXWeb/api/v1/en/ASKdata/External%20trade/Monthly%20indicators/08_qarkullimi.px",
       None);
      (EvPost "https://askdata.rks-gov.net/PXWeb/api/v1/en/ASKdata/External%20trade/Monthly%20indicators/08_qarkullimi.px"
         (JDict
            [("query",
              JList [selection (JStr "Variabla") [JStr "3"];
                     selection (JStr "Viti/muaji")
                       [JStr "2025M02"; JStr "2025M03"]]);
             ("response", JDict [("format", JStr "JSON")])]), None);
      (EvMkdir "data", None);
      (EvWrite "data/kas_imports_monthly.json"
         (JList [JDict [("period", JStr "2025-02");
                        ("imports_th_eur", JInt 100)];
                 JDict [("period", JStr "2025-03");
                        ("imports_th_eur",
                         JFloat (S754_finite false 5429388417957888 (-42)))]]),
       None);
      (EvPrint "wrote data/kas_imports_monthly.json" None, None)]).
Proof. vm_compute. reflexivity. Qed.







